(** * River Run: the persistence and reconciliation layer of riverrun.py

    A shallow embedding of [DatabaseManager] (the SQLite-backed entity
    store), of the import/export handlers and the search filter of
    [MainWindow] and of the attachment handlers of [FileAttachmentWidget],
    followed by the properties of the specification stated against them
    and by further properties of the same code.

    Modelling conventions.
    - A Python value that can come out of [json.load] or out of a
      [sqlite3.Row] is a [Py.value].  An int is unbounded.  A float is
      what it is worth (not a number, an infinity, or a dyadic rational)
      together with its [repr] text and with the text SQLite renders it
      with; none of the modelled code computes with floats.
    - A str is kept as its UTF-8 text, so that equality, concatenation,
      search and the byte order of SQLite's BINARY collation are those of
      the str.  [str.lower] and [str.strip] are not defined here: they are
      the two operations of the class [Py.Unicode], and every general
      property holds for whatever they compute.  The concrete scenarios
      are made of ASCII text, on which the two methods are
      [Py.ascii_text].  No property depends on [len] of a str.
    - A raised exception is the [Raise] case of [Py.result]; a handler
      that catches it is a [match] on that case.
    - A table is the list of its rows in rowid order.  AUTOINCREMENT is the
      per-table counter of [sqlite_sequence]; a table that runs out of
      rowids is not modelled.
    - [Sql.bind] is the binding of one parameter: it refuses a list or a
      dict, refuses an int beyond 64 bits, and stores a float that is not
      a number as NULL.  A row id passed as an argument of its own
      ([river_id], [trip_id]) is one the application read from the store
      and is bound without a check.
    - Column affinity is modelled for TEXT columns (a number bound to them
      is stored as text); the conversions of INTEGER, REAL and DATE
      columns are not modelled, a value bound to them is stored as
      bound.
    - CURRENT_TIMESTAMP is an argument of each statement that reads it.
    - A statement fails on a parameter it cannot bind or on a constraint;
      I/O errors of SQLite are not modelled.
    - The widgets are not modelled.  The three calls that refresh the
      views at the end of [import_data] are the operation of the class
      [MainWindow.Views]: they read the store and may raise.
    - The file system is a map from paths to file contents.
      [shutil.copy2] and [os.remove] take effect at once or raise;
      directories are not modelled, and of permissions only a file that
      cannot be deleted. *)

From Stdlib Require Import ZArith List String Ascii Bool Lia DecimalString DecimalZ Permutation Sorted.
From stdpp Require Import base gmap sets strings list.

Local Open Scope string_scope.
Set Warnings "-register-all".

(** ** Python values *)

Module Py.

Inductive exn : Type :=
| AttributeError
| TypeError
| KeyError
| IntegrityError      (* sqlite3.IntegrityError: a NOT NULL constraint failed *)
| InterfaceError      (* sqlite3: a parameter of an unsupported type *)
| OverflowError       (* sqlite3: an int that does not fit a 64-bit INTEGER *)
| UnicodeDecodeError  (* a file that is not text in the expected encoding *)
| OSError.

Inductive result (A : Type) : Type :=
| Ok (a : A)
| Raise (e : exn).
Arguments Ok {A} a.
Arguments Raise {A} e.

#[global] Instance result_ret : MRet result := fun A a => Ok a.
#[global] Instance result_bind : MBind result := fun A B f m =>
  match m with
  | Ok a => f a
  | Raise e => Raise e
  end.

Definition is_ok {A : Type} (r : result A) : bool :=
  match r with
  | Ok _ => true
  | Raise _ => false
  end.

(** What a float is worth: not a number, an infinity, or the dyadic
    rational [m * 2^e]. *)
Inductive float_value : Type :=
| NaN
| NegInf
| Finite (m e : Z)
| PosInf.

(** A float: its value, the text [repr] and [str] give for it, and the
    text SQLite renders it with in a column of TEXT affinity. *)
Record float : Type := mk_float {
  float_value_of : float_value;
  float_repr : string;
  float_text : string
}.

Inductive value : Type :=
| VNone
| VBool (b : bool)
| VInt (z : Z)
| VFloat (x : float)
| VStr (s : string)
| VList (l : list value)
| VDict (kvs : list (string * value)).

(** A [dict] with string keys, in insertion order. *)
Definition dict : Type := list (string * value).

Fixpoint getitem (d : dict) (k : string) : option value :=
  match d with
  | [] => None
  | (k', v) :: d' => if String.eqb k' k then Some v else getitem d' k
  end.

(** [k in d] *)
Definition contains (d : dict) (k : string) : bool :=
  match getitem d k with Some _ => true | None => false end.

(** [d.get(k, default)] *)
Definition get (d : dict) (k : string) (default : value) : value :=
  match getitem d k with Some v => v | None => default end.

(** [del d[k]] *)
Fixpoint delitem (d : dict) (k : string) : dict :=
  match d with
  | [] => []
  | (k', v) :: d' => if String.eqb k' k then delitem d' k else (k', v) :: delitem d' k
  end.

(** [d[k] = v]: an existing key keeps its place. *)
Fixpoint setitem (d : dict) (k : string) (v : value) : dict :=
  match d with
  | [] => [(k, v)]
  | (k', v') :: d' =>
      if String.eqb k' k then (k', v) :: delitem d' k else (k', v') :: setitem d' k v
  end.

(** [x.get(k, default)] on an arbitrary value: only a dict has [get]. *)
Definition attr_get (x : value) (k : string) (default : value) : result value :=
  match x with
  | VDict d => Ok (get d k default)
  | _ => Raise AttributeError
  end.

(** [dict(x)] for a value that is a dict: a copy. *)
Definition as_dict (x : value) : result dict :=
  match x with
  | VDict d => Ok d
  | _ => Raise TypeError
  end.

(** *** str methods *)

(** [str.lower] and [str.strip] go by the Unicode tables of the
    interpreter (case mappings, the final sigma, the white space of
    [str.isspace]).  The development takes the two methods as given and
    holds for whatever they compute; all it uses of them is that the empty
    text lowers to itself. *)
Class Unicode : Type := {
  lower : string -> string;
  strip : string -> string;
  lower_empty : lower "" = ""
}.

(** What the two methods compute on ASCII text: the letters A to Z are
    lowered, and TAB, LF, VT, FF, CR, the four separators FS, GS, RS, US
    and the space are stripped from both ends. *)
Definition ascii_lower (c : ascii) : ascii :=
  let n := nat_of_ascii c in
  if (65 <=? n)%nat && (n <=? 90)%nat then ascii_of_nat (n + 32) else c.

Fixpoint lower_ascii (s : string) : string :=
  match s with
  | EmptyString => EmptyString
  | String c s' => String (ascii_lower c) (lower_ascii s')
  end.

Definition is_space (c : ascii) : bool :=
  let n := nat_of_ascii c in
  ((9 <=? n)%nat && (n <=? 13)%nat) || ((28 <=? n)%nat && (n <=? 32)%nat).

Fixpoint lstrip_ascii (s : string) : string :=
  match s with
  | EmptyString => EmptyString
  | String c s' => if is_space c then lstrip_ascii s' else s
  end.

Definition rstrip_ascii (s : string) : string :=
  String.rev (lstrip_ascii (String.rev s)).

Definition strip_ascii (s : string) : string := rstrip_ascii (lstrip_ascii s).

Definition ascii_text : Unicode :=
  {| lower := lower_ascii; strip := strip_ascii; lower_empty := eq_refl |}.

Section str_methods.
Context {unicode : Unicode}.

(** [x.lower().strip()] on an arbitrary value: only a str has [lower]. *)
Definition lower_strip (x : value) : result string :=
  match x with
  | VStr s => Ok (strip (lower s))
  | _ => Raise AttributeError
  end.

End str_methods.

(** *** str() and repr() *)

Definition str_of_Z (z : Z) : string := NilZero.string_of_int (Z.to_int z).

Definition bar : ascii := ascii_of_nat 124.
Definition squote : ascii := ascii_of_nat 39.
Definition dquote : ascii := ascii_of_nat 34.
Definition backslash : ascii := ascii_of_nat 92.

Fixpoint mem_char (c : ascii) (s : string) : bool :=
  match s with
  | EmptyString => false
  | String c' s' => Ascii.eqb c c' || mem_char c s'
  end.

Definition hex_digit (n : nat) : ascii :=
  if (n <? 10)%nat then ascii_of_nat (48 + n) else ascii_of_nat (87 + n).

Definition escape_char (q c : ascii) : string :=
  let n := nat_of_ascii c in
  if Ascii.eqb c backslash then String backslash (String backslash EmptyString)
  else if Ascii.eqb c q then String backslash (String q EmptyString)
  else if (n =? 10)%nat then String backslash "n"
  else if (n =? 13)%nat then String backslash "r"
  else if (n =? 9)%nat then String backslash "t"
  else if (n <? 32)%nat || (n =? 127)%nat then
    String backslash (String "x" (String (hex_digit (n / 16)) (String (hex_digit (n mod 16)) EmptyString)))
  else String c EmptyString.

Fixpoint escape (q : ascii) (s : string) : string :=
  match s with
  | EmptyString => EmptyString
  | String c s' => escape_char q c ++ escape q s'
  end.

(** [repr] of a str: single quotes, unless the text has a single quote and
    no double quote. *)
Definition repr_str (s : string) : string :=
  let q := if mem_char squote s && negb (mem_char dquote s) then dquote else squote in
  String q (escape q s ++ String q EmptyString).

Fixpoint join (sep : string) (l : list string) : string :=
  match l with
  | [] => EmptyString
  | [x] => x
  | x :: l' => x ++ sep ++ join sep l'
  end.

Fixpoint repr (v : value) : string :=
  match v with
  | VNone => "None"
  | VBool true => "True"
  | VBool false => "False"
  | VInt z => str_of_Z z
  | VFloat x => float_repr x
  | VStr s => repr_str s
  | VList l => "[" ++ join ", " (List.map repr l) ++ "]"
  | VDict kvs =>
      "{" ++ join ", " (List.map (fun kv : string * value => let (k, x) := kv in repr_str k ++ ": " ++ repr x) kvs) ++ "}"
  end.

(** [str(v)], what an f-string field [{v}] renders. *)
Definition str (v : value) : string :=
  match v with
  | VStr s => s
  | _ => repr v
  end.

(** *** Truth value, [len] and iteration *)

Definition truthy (v : value) : bool :=
  match v with
  | VNone => false
  | VBool b => b
  | VInt z => negb (z =? 0)%Z
  | VFloat x =>
      match float_value_of x with
      | Finite m _ => negb (m =? 0)%Z
      | _ => true
      end
  | VStr s => negb (String.eqb s "")
  | VList l => match l with [] => false | _ => true end
  | VDict d => match d with [] => false | _ => true end
  end.

Definition len (v : value) : result nat :=
  match v with
  | VStr s => Ok (String.length s)
  | VList l => Ok (List.length l)
  | VDict d => Ok (List.length d)
  | _ => Raise TypeError
  end.

Fixpoint chars (s : string) : list value :=
  match s with
  | EmptyString => []
  | String c s' => VStr (String c EmptyString) :: chars s'
  end.

(** The items a [for] loop over [v] visits: the elements of a list, the
    keys of a dict, the characters of a str. *)
Definition iter (v : value) : result (list value) :=
  match v with
  | VList l => Ok l
  | VDict d => Ok (List.map (fun kv => VStr (fst kv)) d)
  | VStr s => Ok (chars s)
  | _ => Raise TypeError
  end.

(** [needle in haystack] for two strs. *)
Fixpoint startswith (s prefix : string) : bool :=
  match prefix, s with
  | EmptyString, _ => true
  | String c prefix', String c' s' => Ascii.eqb c c' && startswith s' prefix'
  | String _ _, EmptyString => false
  end.

Fixpoint str_contains (haystack needle : string) : bool :=
  startswith haystack needle ||
  match haystack with
  | EmptyString => false
  | String _ haystack' => str_contains haystack' needle
  end.

(** [v == s] for a str [s]: only an equal str is equal to it. *)
Definition eq_str (v : value) (s : string) : bool :=
  match v with
  | VStr s' => String.eqb s' s
  | _ => false
  end.

End Py.

Import Py (Ok, Raise, VNone, VBool, VInt, VFloat, VStr, VList, VDict).

(** ** SQLite values *)

Module Sql.

Inductive sqlval : Type :=
| SqlNull
| SqlInt (z : Z)
| SqlReal (x : Py.float)
| SqlText (s : string).

(** The integers an INTEGER holds: signed, 64 bits. *)
Definition int64 (z : Z) : bool := (- 2 ^ 63 <=? z)%Z && (z <? 2 ^ 63)%Z.

(** The parameter binding of [cursor.execute]: an int beyond 64 bits
    overflows, a float that is not a number is stored as NULL, a list or a
    dict is not a supported type. *)
Definition bind (v : Py.value) : Py.result sqlval :=
  match v with
  | VNone => Ok SqlNull
  | VBool b => Ok (SqlInt (if b then 1 else 0))
  | VInt z => if int64 z then Ok (SqlInt z) else Raise Py.OverflowError
  | VFloat x =>
      match Py.float_value_of x with
      | Py.NaN => Ok SqlNull
      | _ => Ok (SqlReal x)
      end
  | VStr s => Ok (SqlText s)
  | VList _ => Raise Py.InterfaceError
  | VDict _ => Raise Py.InterfaceError
  end.

(** A column of a [sqlite3.Row] as the Python value read back. *)
Definition to_py (v : sqlval) : Py.value :=
  match v with
  | SqlNull => VNone
  | SqlInt z => VInt z
  | SqlReal x => VFloat x
  | SqlText s => VStr s
  end.

(** The values a column holds: an INTEGER fits 64 bits and no REAL is not
    a number.  They are the values that [bind] stores as they are read. *)
Definition storable (v : sqlval) : bool :=
  match v with
  | SqlInt z => int64 z
  | SqlReal x =>
      match Py.float_value_of x with
      | Py.NaN => false
      | _ => true
      end
  | _ => true
  end.

(** TEXT affinity: a number is stored as its text. *)
Definition text_affinity (v : sqlval) : sqlval :=
  match v with
  | SqlInt z => SqlText (Py.str_of_Z z)
  | SqlReal x => SqlText (Py.float_text x)
  | _ => v
  end.

(** A [TEXT NOT NULL] column: NULL violates the constraint. *)
Definition text_not_null (v : sqlval) : Py.result string :=
  match text_affinity v with
  | SqlText s => Ok s
  | _ => Raise Py.IntegrityError
  end.

(** A [NOT NULL] column without TEXT affinity. *)
Definition not_null (v : sqlval) : Py.result sqlval :=
  match v with
  | SqlNull => Raise Py.IntegrityError
  | _ => Ok v
  end.

(** [column = ?] against an integer. *)
Definition eq_int (v : sqlval) (z : Z) : bool :=
  match v with
  | SqlInt z' => (z' =? z)%Z
  | _ => false
  end.

(** The numeric order of two dyadic rationals [m1 * 2^e1], [m2 * 2^e2]. *)
Definition dyadic_leb (m1 e1 m2 e2 : Z) : bool :=
  let e := Z.min e1 e2 in
  (m1 * 2 ^ (e1 - e) <=? m2 * 2 ^ (e2 - e))%Z.

(** INTEGER and REAL values compare by what they are worth.  No stored
    REAL is not a number ([bind] makes it NULL); the order puts such a
    value below the others. *)
Definition value_leb (a b : Py.float_value) : bool :=
  match a, b with
  | Py.NaN, _ => true
  | _, Py.NaN => false
  | Py.NegInf, _ => true
  | _, Py.NegInf => false
  | _, Py.PosInf => true
  | Py.PosInf, _ => false
  | Py.Finite m1 e1, Py.Finite m2 e2 => dyadic_leb m1 e1 m2 e2
  end.

(** The order of ORDER BY: NULL, then the numbers by value, then text by
    bytes. *)
Definition leb (a b : sqlval) : bool :=
  match a, b with
  | SqlNull, _ => true
  | _, SqlNull => false
  | SqlText x, SqlText y => String.leb x y
  | SqlText _, _ => false
  | _, SqlText _ => true
  | SqlInt x, SqlInt y => (x <=? y)%Z
  | SqlInt x, SqlReal y => value_leb (Py.Finite x 0) (Py.float_value_of y)
  | SqlReal x, SqlInt y => value_leb (Py.float_value_of x) (Py.Finite y 0)
  | SqlReal x, SqlReal y => value_leb (Py.float_value_of x) (Py.float_value_of y)
  end.

Section order_by.
Context {A : Type} (le : A -> A -> bool).

Fixpoint insert_row (x : A) (l : list A) : list A :=
  match l with
  | [] => [x]
  | y :: l' => if le x y then x :: l else y :: insert_row x l'
  end.

(** A stable sort: rows with equal keys stay in rowid order. *)
Definition order_by (l : list A) : list A := foldr insert_row [] l.
End order_by.

End Sql.

Import Sql (sqlval, SqlNull, SqlInt, SqlReal, SqlText).

(** ** The tables of [init_database] *)

Module River.
Record t : Type := mk {
  id : Z;                       (* INTEGER PRIMARY KEY AUTOINCREMENT *)
  name : string;                (* TEXT NOT NULL *)
  location : string;            (* TEXT NOT NULL *)
  region : sqlval;
  latitude : sqlval;
  longitude : sqlval;
  difficulty_class : sqlval;
  length_miles : sqlval;
  typical_flow_min : sqlval;
  typical_flow_max : sqlval;
  put_in_location : sqlval;
  take_out_location : sqlval;
  shuttle_info : sqlval;
  parking_details : sqlval;
  best_seasons : sqlval;
  water_level_source : sqlval;
  hazards : sqlval;
  portages : sqlval;
  emergency_contacts : sqlval;
  description : sqlval;
  personal_rating : sqlval;
  date_added : string;          (* TIMESTAMP DEFAULT CURRENT_TIMESTAMP *)
  last_updated : string;        (* TIMESTAMP DEFAULT CURRENT_TIMESTAMP *)
  notes : sqlval;
  tags : sqlval
}.

(** The columns without a NOT NULL constraint or a default. *)
Definition columns (r : t) : list sqlval :=
  [ region r; latitude r; longitude r; difficulty_class r; length_miles r;
    typical_flow_min r; typical_flow_max r; put_in_location r; take_out_location r;
    shuttle_info r; parking_details r; best_seasons r; water_level_source r; hazards r;
    portages r; emergency_contacts r; description r; personal_rating r; notes r; tags r ].

(** [dict(row)] for a row of [SELECT * FROM rivers]. *)
Definition to_dict (r : t) : Py.dict :=
  [ ("id", VInt (id r));
    ("name", VStr (name r));
    ("location", VStr (location r));
    ("region", Sql.to_py (region r));
    ("latitude", Sql.to_py (latitude r));
    ("longitude", Sql.to_py (longitude r));
    ("difficulty_class", Sql.to_py (difficulty_class r));
    ("length_miles", Sql.to_py (length_miles r));
    ("typical_flow_min", Sql.to_py (typical_flow_min r));
    ("typical_flow_max", Sql.to_py (typical_flow_max r));
    ("put_in_location", Sql.to_py (put_in_location r));
    ("take_out_location", Sql.to_py (take_out_location r));
    ("shuttle_info", Sql.to_py (shuttle_info r));
    ("parking_details", Sql.to_py (parking_details r));
    ("best_seasons", Sql.to_py (best_seasons r));
    ("water_level_source", Sql.to_py (water_level_source r));
    ("hazards", Sql.to_py (hazards r));
    ("portages", Sql.to_py (portages r));
    ("emergency_contacts", Sql.to_py (emergency_contacts r));
    ("description", Sql.to_py (description r));
    ("personal_rating", Sql.to_py (personal_rating r));
    ("date_added", VStr (date_added r));
    ("last_updated", VStr (last_updated r));
    ("notes", Sql.to_py (notes r));
    ("tags", Sql.to_py (tags r)) ].
End River.

Module Document.
Record t : Type := mk {
  id : Z;
  river_id : sqlval;            (* REFERENCES rivers (id) ON DELETE CASCADE *)
  file_name : string;           (* TEXT NOT NULL *)
  file_path : string;           (* TEXT NOT NULL *)
  file_type : string;           (* TEXT NOT NULL *)
  file_size : sqlval;
  description : sqlval;
  upload_date : string
}.
End Document.

Module Trip.
Record t : Type := mk {
  id : Z;
  river_id : sqlval;            (* REFERENCES rivers (id) ON DELETE CASCADE *)
  trip_date : sqlval;           (* DATE NOT NULL *)
  companions : sqlval;
  water_level : sqlval;
  weather_conditions : sqlval;
  flow_rate : sqlval;
  duration_hours : sqlval;
  difficulty_experienced : sqlval;
  highlights : sqlval;
  challenges : sqlval;
  gear_used : sqlval;
  trip_rating : sqlval;
  notes : sqlval;
  created_date : string
}.

(** The columns [add_trip_log] fills from its parameters. *)
Definition columns (r : t) : list sqlval :=
  [ river_id r; trip_date r; companions r; water_level r; weather_conditions r; flow_rate r;
    duration_hours r; difficulty_experienced r; highlights r; challenges r; gear_used r;
    trip_rating r; notes r ].

Definition to_dict (r : t) : Py.dict :=
  [ ("id", VInt (id r));
    ("river_id", Sql.to_py (river_id r));
    ("trip_date", Sql.to_py (trip_date r));
    ("companions", Sql.to_py (companions r));
    ("water_level", Sql.to_py (water_level r));
    ("weather_conditions", Sql.to_py (weather_conditions r));
    ("flow_rate", Sql.to_py (flow_rate r));
    ("duration_hours", Sql.to_py (duration_hours r));
    ("difficulty_experienced", Sql.to_py (difficulty_experienced r));
    ("highlights", Sql.to_py (highlights r));
    ("challenges", Sql.to_py (challenges r));
    ("gear_used", Sql.to_py (gear_used r));
    ("trip_rating", Sql.to_py (trip_rating r));
    ("notes", Sql.to_py (notes r));
    ("created_date", VStr (created_date r)) ].
End Trip.

(** A row of [SELECT t.*, r.name as river_name FROM trip_logs t JOIN rivers r]. *)
Module TripRow.
Record t : Type := mk {
  trip : Trip.t;
  river_name : string
}.

Definition to_dict (row : t) : Py.dict :=
  (Trip.to_dict (trip row) ++ [("river_name", VStr (river_name row))])%list.
End TripRow.

(** The database file: the three tables the code reads and writes (the
    [river_tags] table is created and never used) and the AUTOINCREMENT
    counters. *)
Record store : Type := mk_store {
  rivers : list River.t;
  river_documents : list Document.t;
  trip_logs : list Trip.t;
  seq_rivers : Z;
  seq_river_documents : Z;
  seq_trip_logs : Z
}.

Definition empty_store : store :=
  {| rivers := []; river_documents := []; trip_logs := [];
     seq_rivers := 0; seq_river_documents := 0; seq_trip_logs := 0 |}.

(** What [sqlite3.connect] returns.  SQLite enforces foreign keys on a
    connection only after [PRAGMA foreign_keys = ON]; the source never
    issues it. *)
Record connection : Type := { foreign_keys : bool }.

Definition connect : connection := {| foreign_keys := false |}.

Definition set_rivers (db : store) (l : list River.t) (seq : Z) : store :=
  {| rivers := l; river_documents := river_documents db; trip_logs := trip_logs db;
     seq_rivers := seq; seq_river_documents := seq_river_documents db;
     seq_trip_logs := seq_trip_logs db |}.

Definition set_river_documents (db : store) (l : list Document.t) (seq : Z) : store :=
  {| rivers := rivers db; river_documents := l; trip_logs := trip_logs db;
     seq_rivers := seq_rivers db; seq_river_documents := seq;
     seq_trip_logs := seq_trip_logs db |}.

Definition set_trip_logs (db : store) (l : list Trip.t) (seq : Z) : store :=
  {| rivers := rivers db; river_documents := river_documents db; trip_logs := l;
     seq_rivers := seq_rivers db; seq_river_documents := seq_river_documents db;
     seq_trip_logs := seq |}.

(** ** os.path, for [add_document] (POSIX paths) *)

Module OsPath.

Definition slash : ascii := ascii_of_nat 47.
Definition dot : ascii := ascii_of_nat 46.

Fixpoint basename (p : string) : string :=
  match p with
  | EmptyString => EmptyString
  | String c p' =>
      if Ascii.eqb c slash then basename p'
      else if Py.mem_char slash p' then basename p' else p
  end.

(** The extension of [splitext]: from the last dot on, when a character
    other than a dot comes before it. *)
Fixpoint ext_from (seen : bool) (p : string) : string :=
  match p with
  | EmptyString => EmptyString
  | String c p' =>
      if Ascii.eqb c dot then
        if Py.mem_char dot p' then ext_from seen p'
        else if seen then p else EmptyString
      else ext_from true p'
  end.

Definition splitext_ext (file_name : string) : string := ext_from false file_name.

(** [os.path.join] of two components. *)
Definition endswith_slash (a : string) : bool :=
  match String.rev a with
  | String last _ => Ascii.eqb last slash
  | EmptyString => false
  end.

Definition join (a b : string) : string :=
  match b with
  | String c _ =>
      if Ascii.eqb c slash then b
      else if String.eqb a "" || endswith_slash a then a ++ b
      else a ++ String slash b
  | EmptyString =>
      if String.eqb a "" || endswith_slash a then a ++ b else a ++ String slash b
  end.

End OsPath.

(** ** class DatabaseManager *)

Module DatabaseManager.

Section methods.
Context {unicode : Py.Unicode}.

(** [init_database]: CREATE TABLE IF NOT EXISTS makes the empty tables of a
    new file and leaves an existing file as it is. *)
Definition init_database (file : option store) : store :=
  match file with
  | Some db => db
  | None => empty_store
  end.

(** The 22 parameters that [add_river] and [update_river] both bind, in the
    order of the tuple: the bound [name] and [location], and the row they
    make once the NOT NULL columns and the store-assigned columns are
    known. *)
Definition river_values (river_data : Py.dict)
  : Py.result (sqlval * sqlval * (Z -> string -> string -> string -> string -> River.t)) :=
  name ← Sql.bind (Py.get river_data "name" (VStr ""));
  location ← Sql.bind (Py.get river_data "location" (VStr ""));
  region ← Sql.bind (Py.get river_data "region" (VStr ""));
  latitude ← Sql.bind (Py.get river_data "latitude" VNone);
  longitude ← Sql.bind (Py.get river_data "longitude" VNone);
  difficulty_class ← Sql.bind (Py.get river_data "difficulty_class" (VStr ""));
  length_miles ← Sql.bind (Py.get river_data "length_miles" VNone);
  typical_flow_min ← Sql.bind (Py.get river_data "typical_flow_min" VNone);
  typical_flow_max ← Sql.bind (Py.get river_data "typical_flow_max" VNone);
  put_in_location ← Sql.bind (Py.get river_data "put_in_location" (VStr ""));
  take_out_location ← Sql.bind (Py.get river_data "take_out_location" (VStr ""));
  shuttle_info ← Sql.bind (Py.get river_data "shuttle_info" (VStr ""));
  parking_details ← Sql.bind (Py.get river_data "parking_details" (VStr ""));
  best_seasons ← Sql.bind (Py.get river_data "best_seasons" (VStr ""));
  water_level_source ← Sql.bind (Py.get river_data "water_level_source" (VStr ""));
  hazards ← Sql.bind (Py.get river_data "hazards" (VStr ""));
  portages ← Sql.bind (Py.get river_data "portages" (VStr ""));
  emergency_contacts ← Sql.bind (Py.get river_data "emergency_contacts" (VStr ""));
  description ← Sql.bind (Py.get river_data "description" (VStr ""));
  personal_rating ← Sql.bind (Py.get river_data "personal_rating" VNone);
  notes ← Sql.bind (Py.get river_data "notes" (VStr ""));
  tags ← Sql.bind (Py.get river_data "tags" (VStr ""));
  mret (name, location,
        fun id name location date_added last_updated =>
          {| River.id := id;
             River.name := name;
             River.location := location;
             River.region := Sql.text_affinity region;
             River.latitude := latitude;
             River.longitude := longitude;
             River.difficulty_class := Sql.text_affinity difficulty_class;
             River.length_miles := length_miles;
             River.typical_flow_min := typical_flow_min;
             River.typical_flow_max := typical_flow_max;
             River.put_in_location := Sql.text_affinity put_in_location;
             River.take_out_location := Sql.text_affinity take_out_location;
             River.shuttle_info := Sql.text_affinity shuttle_info;
             River.parking_details := Sql.text_affinity parking_details;
             River.best_seasons := Sql.text_affinity best_seasons;
             River.water_level_source := Sql.text_affinity water_level_source;
             River.hazards := Sql.text_affinity hazards;
             River.portages := Sql.text_affinity portages;
             River.emergency_contacts := Sql.text_affinity emergency_contacts;
             River.description := Sql.text_affinity description;
             River.personal_rating := personal_rating;
             River.date_added := date_added;
             River.last_updated := last_updated;
             River.notes := Sql.text_affinity notes;
             River.tags := Sql.text_affinity tags |}).

(** The NOT NULL constraints of [rivers], checked when the statement runs,
    after every parameter is bound. *)
Definition not_null_river
    (values : sqlval * sqlval * (Z -> string -> string -> string -> string -> River.t))
  : Py.result (Z -> string -> string -> River.t) :=
  let '(name, location, row) := values in
  name ← Sql.text_not_null name;
  location ← Sql.text_not_null location;
  mret (fun id date_added last_updated => row id name location date_added last_updated).

Definition checked_river_values (river_data : Py.dict)
  : Py.result (Z -> string -> string -> River.t) :=
  river_values river_data ≫= not_null_river.

(** The row of [INSERT INTO rivers]: [date_added] and [last_updated] take
    their default, [id] the next value of the sequence. *)
Definition insert_river (db : store) (now : string) (river_data : Py.dict) : Py.result River.t :=
  row ← checked_river_values river_data;
  mret (row (seq_rivers db + 1)%Z now now).

Definition add_river (db : store) (now : string) (river_data : Py.dict) : store * Py.result Z :=
  match insert_river db now river_data with
  | Ok r => (set_rivers db (rivers db ++ [r]) (River.id r), Ok (River.id r))
  | Raise e => (db, Raise e)
  end.

(** [SELECT * FROM rivers ORDER BY name] *)
Definition get_all_rivers (db : store) : list River.t :=
  Sql.order_by (fun a b => String.leb (River.name a) (River.name b)) (rivers db).

Definition get_river_by_id (db : store) (river_id : Z) : option River.t :=
  List.find (fun r => (River.id r =? river_id)%Z) (rivers db).

(** [UPDATE rivers SET ..., last_updated=CURRENT_TIMESTAMP WHERE id=?]: the
    NOT NULL columns are checked on the rows the statement changes. *)
Definition update_river (db : store) (now : string) (river_id : Z) (river_data : Py.dict)
  : store * Py.result unit :=
  match river_values river_data with
  | Raise e => (db, Raise e)
  | Ok values =>
      if List.existsb (fun r => (River.id r =? river_id)%Z) (rivers db) then
        match not_null_river values with
        | Raise e => (db, Raise e)
        | Ok row =>
            (set_rivers db
               (List.map (fun r => if (River.id r =? river_id)%Z
                                   then row (River.id r) (River.date_added r) now
                                   else r) (rivers db))
               (seq_rivers db),
             Ok tt)
        end
      else (db, Ok tt)
  end.

(** [DELETE FROM rivers WHERE id = ?] on a connection.  The ON DELETE
    CASCADE clauses of [river_documents] and [trip_logs] take effect only
    where the connection enforces foreign keys. *)
Definition execute_delete_river (conn : connection) (db : store) (river_id : Z) : store :=
  let cascade :=
    foreign_keys conn && List.existsb (fun r => (River.id r =? river_id)%Z) (rivers db) in
  {| rivers := List.filter (fun r => negb (River.id r =? river_id)%Z) (rivers db);
     river_documents :=
       if cascade
       then List.filter (fun d => negb (Sql.eq_int (Document.river_id d) river_id)) (river_documents db)
       else river_documents db;
     trip_logs :=
       if cascade
       then List.filter (fun t => negb (Sql.eq_int (Trip.river_id t) river_id)) (trip_logs db)
       else trip_logs db;
     seq_rivers := seq_rivers db;
     seq_river_documents := seq_river_documents db;
     seq_trip_logs := seq_trip_logs db |}.

Definition delete_river (db : store) (river_id : Z) : store :=
  execute_delete_river connect db river_id.

(** [fs] gives [os.path.getsize]: the size of an existing file. *)
Definition add_document (db : store) (now : string) (fs : string -> option Z)
    (river_id : Z) (file_path : string) (description : string) : store * Py.result unit :=
  let file_name := OsPath.basename file_path in
  let file_type := Py.lower (OsPath.splitext_ext file_name) in
  match fs file_path with
  | None => (db, Raise Py.OSError)
  | Some file_size =>
      let d := {| Document.id := (seq_river_documents db + 1)%Z;
                  Document.river_id := SqlInt river_id;
                  Document.file_name := file_name;
                  Document.file_path := file_path;
                  Document.file_type := file_type;
                  Document.file_size := SqlInt file_size;
                  Document.description := SqlText description;
                  Document.upload_date := now |} in
      (set_river_documents db (river_documents db ++ [d]) (Document.id d), Ok tt)
  end.

(** [SELECT * FROM river_documents WHERE river_id = ?] *)
Definition get_river_documents (db : store) (river_id : Z) : list Document.t :=
  List.filter (fun d => Sql.eq_int (Document.river_id d) river_id) (river_documents db).

(** The 13 parameters of [add_trip_log] and the row they make; [trip_date]
    is NOT NULL. *)
Definition trip_values (trip_data : Py.dict) : Py.result (Z -> string -> Trip.t) :=
  river_id ← Sql.bind (Py.get trip_data "river_id" VNone);
  trip_date ← Sql.bind (Py.get trip_data "trip_date" VNone);
  companions ← Sql.bind (Py.get trip_data "companions" (VStr ""));
  water_level ← Sql.bind (Py.get trip_data "water_level" (VStr ""));
  weather_conditions ← Sql.bind (Py.get trip_data "weather_conditions" (VStr ""));
  flow_rate ← Sql.bind (Py.get trip_data "flow_rate" VNone);
  duration_hours ← Sql.bind (Py.get trip_data "duration_hours" VNone);
  difficulty_experienced ← Sql.bind (Py.get trip_data "difficulty_experienced" (VStr ""));
  highlights ← Sql.bind (Py.get trip_data "highlights" (VStr ""));
  challenges ← Sql.bind (Py.get trip_data "challenges" (VStr ""));
  gear_used ← Sql.bind (Py.get trip_data "gear_used" (VStr ""));
  trip_rating ← Sql.bind (Py.get trip_data "trip_rating" VNone);
  notes ← Sql.bind (Py.get trip_data "notes" (VStr ""));
  trip_date ← Sql.not_null trip_date;
  mret (fun id created_date =>
          {| Trip.id := id;
             Trip.river_id := river_id;
             Trip.trip_date := trip_date;
             Trip.companions := Sql.text_affinity companions;
             Trip.water_level := Sql.text_affinity water_level;
             Trip.weather_conditions := Sql.text_affinity weather_conditions;
             Trip.flow_rate := flow_rate;
             Trip.duration_hours := duration_hours;
             Trip.difficulty_experienced := Sql.text_affinity difficulty_experienced;
             Trip.highlights := Sql.text_affinity highlights;
             Trip.challenges := Sql.text_affinity challenges;
             Trip.gear_used := Sql.text_affinity gear_used;
             Trip.trip_rating := trip_rating;
             Trip.notes := Sql.text_affinity notes;
             Trip.created_date := created_date |}).

Definition insert_trip_log (db : store) (now : string) (trip_data : Py.dict) : Py.result Trip.t :=
  row ← trip_values trip_data;
  mret (row (seq_trip_logs db + 1)%Z now).

Definition add_trip_log (db : store) (now : string) (trip_data : Py.dict) : store * Py.result Z :=
  match insert_trip_log db now trip_data with
  | Ok t => (set_trip_logs db (trip_logs db ++ [t]) (Trip.id t), Ok (Trip.id t))
  | Raise e => (db, Raise e)
  end.

(** [FROM trip_logs t JOIN rivers r ON t.river_id = r.id] *)
Definition join_rivers (db : store) : list TripRow.t :=
  List.flat_map
    (fun t => List.map (fun r => TripRow.mk t (River.name r))
                (List.filter (fun r => Sql.eq_int (Trip.river_id t) (River.id r)) (rivers db)))
    (trip_logs db).

(** [ORDER BY t.trip_date DESC] *)
Definition order_by_trip_date_desc (rows : list TripRow.t) : list TripRow.t :=
  Sql.order_by
    (fun a b => Sql.leb (Trip.trip_date (TripRow.trip b)) (Trip.trip_date (TripRow.trip a)))
    rows.

Definition get_trip_log_by_id (db : store) (trip_id : Z) : option TripRow.t :=
  List.head (List.filter (fun row => (Trip.id (TripRow.trip row) =? trip_id)%Z) (join_rivers db)).

(** [river_id] is [None] by default; [if river_id:] also takes 0 for no
    filter. *)
Definition get_trip_logs (db : store) (river_id : option Z) : list TripRow.t :=
  match river_id with
  | Some rid =>
      if Py.truthy (VInt rid) then
        order_by_trip_date_desc
          (List.filter (fun row => Sql.eq_int (Trip.river_id (TripRow.trip row)) rid) (join_rivers db))
      else order_by_trip_date_desc (join_rivers db)
  | None => order_by_trip_date_desc (join_rivers db)
  end.

(** The parameters of [update_trip_log], bound in the order of the tuple
    before the statement runs. *)
Definition trip_parameters : list (string * Py.value) :=
  [ ("river_id", VNone); ("trip_date", VNone); ("companions", VStr "");
    ("water_level", VStr ""); ("weather_conditions", VStr ""); ("flow_rate", VNone);
    ("duration_hours", VNone); ("difficulty_experienced", VStr ""); ("highlights", VStr "");
    ("challenges", VStr ""); ("gear_used", VStr ""); ("trip_rating", VNone);
    ("notes", VStr "") ].

Fixpoint bind_all (trip_data : Py.dict) (parameters : list (string * Py.value))
  : Py.result (list sqlval) :=
  match parameters with
  | [] => Ok []
  | (k, default) :: parameters' =>
      v ← Sql.bind (Py.get trip_data k default);
      vs ← bind_all trip_data parameters';
      mret (v :: vs)
  end.

(** [UPDATE trip_logs SET ... WHERE id=?]: every column but [id] and
    [created_date]; NOT NULL is checked on the rows the statement changes. *)
Definition update_trip_log (db : store) (trip_id : Z) (trip_data : Py.dict)
  : store * Py.result unit :=
  match bind_all trip_data trip_parameters with
  | Raise e => (db, Raise e)
  | Ok _ =>
      if List.existsb (fun t => (Trip.id t =? trip_id)%Z) (trip_logs db) then
        match trip_values trip_data with
        | Raise e => (db, Raise e)
        | Ok row =>
            (set_trip_logs db
               (List.map (fun t => if (Trip.id t =? trip_id)%Z
                                   then row (Trip.id t) (Trip.created_date t)
                                   else t) (trip_logs db))
               (seq_trip_logs db),
             Ok tt)
        end
      else (db, Ok tt)
  end.

(** [DELETE FROM trip_logs WHERE id = ?] *)
Definition delete_trip_log (db : store) (trip_id : Z) : store :=
  set_trip_logs db (List.filter (fun t => negb (Trip.id t =? trip_id)%Z) (trip_logs db))
    (seq_trip_logs db).

End methods.

End DatabaseManager.

(** ** class MainWindow: the handlers that reach the store *)

Module MainWindow.

(** [refresh_rivers_table], [refresh_trips_table] and [update_statistics],
    which [import_data] calls in turn once the summary is shown: they read
    the store and fill the widgets, and raise on a row they cannot render
    (a [length_miles] that is text, for one).  The widgets are not
    modelled; the development holds for whatever store the three calls
    raise on. *)
Class Views : Type := refresh_views : store -> Py.result unit.

Section handlers.
Context {unicode : Py.Unicode} {views : Views}.

(** What a form handler shows the user. *)
Inductive handler_outcome : Type :=
| ValidationError            (* QMessageBox.warning "Validation Error" *)
| Failed (e : Py.exn)        (* QMessageBox.critical "Error" *)
| Done                       (* the status-bar message *)
| Uncaught (e : Py.exn).

(** [add_river] once the dialog is accepted; [river_data] is what
    [dialog.get_river_data()] returned. *)
Definition add_river (db : store) (now : string) (river_data : Py.dict)
  : store * handler_outcome :=
  match Py.getitem river_data "name" with
  | None => (db, Uncaught Py.KeyError)
  | Some name =>
      if negb (Py.truthy name) then (db, ValidationError)
      else
        match Py.getitem river_data "location" with
        | None => (db, Uncaught Py.KeyError)
        | Some location =>
            if negb (Py.truthy location) then (db, ValidationError)
            else
              match DatabaseManager.add_river db now river_data with
              | (db', Ok _) => (db', Done)
              | (db', Raise e) => (db', Failed e)
              end
        end
  end.

(** [edit_river] once a row is selected and the dialog is accepted. *)
Definition edit_river (db : store) (now : string) (river_id : Z) (updated_data : Py.dict)
  : store * handler_outcome :=
  match Py.getitem updated_data "name" with
  | None => (db, Uncaught Py.KeyError)
  | Some name =>
      if negb (Py.truthy name) then (db, ValidationError)
      else
        match Py.getitem updated_data "location" with
        | None => (db, Uncaught Py.KeyError)
        | Some location =>
            if negb (Py.truthy location) then (db, ValidationError)
            else
              match DatabaseManager.update_river db now river_id updated_data with
              | (db', Ok _) => (db', Done)
              | (db', Raise e) => (db', Failed e)
              end
        end
  end.

(** The document [export_data] hands to [json.dump]; the file it writes is
    represented by the value [json.load] reads back from it. *)
Definition export_data (include_trip_logs : bool) (db : store) (export_date : string) : Py.value :=
  let export_data :=
    [ ("rivers", VList (List.map (fun r => VDict (River.to_dict r)) (DatabaseManager.get_all_rivers db)));
      ("export_date", VStr export_date);
      ("includes_trip_logs", VBool include_trip_logs) ] in
  if include_trip_logs then
    VDict (Py.setitem export_data "trips"
             (VList (List.map (fun row => VDict (TripRow.to_dict row))
                       (DatabaseManager.get_trip_logs db None))))
  else VDict export_data.

(** The variables a reconciliation loop carries from one record to the
    next. *)
Record loop_state : Type := mk_loop {
  st_db : store;
  identifiers : gset string;
  imported_count : nat;
  skipped_count : nat
}.

Definition skip (st : loop_state) : loop_state :=
  {| st_db := st_db st; identifiers := identifiers st;
     imported_count := imported_count st; skipped_count := skipped_count st + 1 |}.

Definition imported (st : loop_state) (db' : store) (identifier : string) : loop_state :=
  {| st_db := db'; identifiers := {[identifier]} ∪ identifiers st;
     imported_count := imported_count st + 1; skipped_count := skipped_count st |}.

(** [if k in d: del d[k]] *)
Definition remove_field (d : Py.dict) (k : string) : Py.dict :=
  if Py.contains d k then Py.delitem d k else d.

(** A [for] loop whose body may let an exception escape: the records
    already persisted stay in the store.  [clock i] is CURRENT_TIMESTAMP
    while record [i] is handled. *)
Fixpoint for_each (body : string -> loop_state -> Py.value -> Py.result loop_state)
    (clock : nat -> string) (i : nat) (st : loop_state) (items : list Py.value)
  : store * Py.result (nat * nat) :=
  match items with
  | [] => (st_db st, Ok (imported_count st, skipped_count st))
  | x :: items' =>
      match body (clock i) st x with
      | Ok st' => for_each body clock (i + 1) st' items'
      | Raise e => (st_db st, Raise e)
      end
  end.

(** [f"{river['name'].lower().strip()}|{river['location'].lower().strip()}"] *)
Definition river_identifier (r : River.t) : string :=
  Py.strip (Py.lower (River.name r)) ++ "|" ++ Py.strip (Py.lower (River.location r)).

Definition existing_river_identifiers (db : store) : gset string :=
  foldl (fun existing_identifiers river => {[river_identifier river]} ∪ existing_identifiers)
        ∅ (DatabaseManager.get_all_rivers db).

(** [record.get(field, '').lower().strip()] *)
Definition normalized (record : Py.value) (field : string) : Py.result string :=
  Py.attr_get record field (VStr "") ≫= Py.lower_strip.

(** The identifier of an incoming record. *)
Definition incoming_river_identifier (river_data : Py.value) : Py.result string :=
  river_name ← normalized river_data "name";
  river_location ← normalized river_data "location";
  mret (river_name ++ "|" ++ river_location).

(** The record handed to [add_river]: a copy without the store-assigned
    fields. *)
Definition strip_river (river_data : Py.dict) : Py.dict :=
  remove_field (remove_field (remove_field river_data "id") "date_added") "last_updated".

(** The body of the loop of [import_rivers]. *)
Definition import_river (now : string) (st : loop_state) (river_data : Py.value)
  : Py.result loop_state :=
  identifier ← incoming_river_identifier river_data;
  if bool_decide (identifier ∈ identifiers st) then mret (skip st)
  else
    import_river ← Py.as_dict river_data;
    match DatabaseManager.add_river (st_db st) now (strip_river import_river) with
    | (db', Ok _) => mret (imported st db' identifier)
    | (_, Raise _) => mret (skip st)
    end.

Definition import_rivers (db : store) (clock : nat -> string) (rivers_data : Py.value)
  : store * Py.result (nat * nat) :=
  let st := {| st_db := db; identifiers := existing_river_identifiers db;
               imported_count := 0; skipped_count := 0 |} in
  match Py.iter rivers_data with
  | Ok items => for_each import_river clock 0 st items
  | Raise e => (db, Raise e)
  end.

(** [{river['name'].lower().strip(): river['id'] for river in current_rivers}] *)
Definition river_name_to_id (db : store) : gmap string Z :=
  foldl (fun m river => <[Py.strip (Py.lower (River.name river)) := River.id river]> m)
        ∅ (DatabaseManager.get_all_rivers db).

(** [f"{trip['river_id']}|{trip['trip_date']}"] *)
Definition trip_identifier (row : TripRow.t) : string :=
  Py.str (Sql.to_py (Trip.river_id (TripRow.trip row))) ++ "|"
  ++ Py.str (Sql.to_py (Trip.trip_date (TripRow.trip row))).

Definition existing_trip_identifiers (db : store) : gset string :=
  foldl (fun existing_trip_identifiers trip => {[trip_identifier trip]} ∪ existing_trip_identifiers)
        ∅ (DatabaseManager.get_trip_logs db None).

(** The record handed to [add_trip_log]. *)
Definition strip_trip (trip_data : Py.dict) (new_river_id : Z) : Py.dict :=
  let import_trip := Py.setitem trip_data "river_id" (VInt new_river_id) in
  foldl remove_field import_trip ["id"; "river_name"; "created_date"].

(** The body of the loop of [import_trips]. *)
Definition import_trip (name_to_id : gmap string Z) (now : string) (st : loop_state)
    (trip_data : Py.value) : Py.result loop_state :=
  river_name ← normalized trip_data "river_name";
  match name_to_id !! river_name with
  | None => mret (skip st)
  | Some new_river_id =>
      trip_date ← Py.attr_get trip_data "trip_date" (VStr "");
      let identifier := Py.str (VInt new_river_id) ++ "|" ++ Py.str trip_date in
      if bool_decide (identifier ∈ identifiers st) then mret (skip st)
      else
        import_trip ← Py.as_dict trip_data;
        match DatabaseManager.add_trip_log (st_db st) now (strip_trip import_trip new_river_id) with
        | (db', Ok _) => mret (imported st db' identifier)
        | (_, Raise _) => mret (skip st)
        end
  end.

Definition import_trips (db : store) (clock : nat -> string) (trips_data : Py.value)
  : store * Py.result (nat * nat) :=
  let st := {| st_db := db; identifiers := existing_trip_identifiers db;
               imported_count := 0; skipped_count := 0 |} in
  match Py.iter trips_data with
  | Ok items => for_each (import_trip (river_name_to_id db)) clock 0 st items
  | Raise e => (db, Raise e)
  end.

(** What [open] and [json.load] make of the selected file. *)
Inductive file_content : Type :=
| Unreadable (e : Py.exn)    (* another exception: the file cannot be opened
                                or is not text in the expected encoding *)
| NotJSON                    (* json.JSONDecodeError *)
| Json (import_data : Py.value).

(** The dialogs [import_data] shows. *)
Inductive import_outcome : Type :=
| InvalidFile_NotRiverRunner (* "Invalid File": no valid River Runner data *)
| InvalidFile_NotJSON        (* "Invalid File": not a valid JSON file *)
| ImportFailed (e : Py.exn)  (* "Error": Failed to import data *)
| ImportComplete (rivers_imported rivers_skipped trips_imported trips_skipped : nat)
                             (* "Import Complete" *)
| ImportCompleteThenFailed (rivers_imported rivers_skipped trips_imported trips_skipped : nat)
    (e : Py.exn).            (* "Import Complete", then "Error" as the views
                                are refreshed *)

(** The counts of the "Import Complete" dialog, when it is shown. *)
Definition summary (outcome : import_outcome) : option (nat * nat * nat * nat) :=
  match outcome with
  | ImportComplete ri rs ti ts => Some (ri, rs, ti, ts)
  | ImportCompleteThenFailed ri rs ti ts _ => Some (ri, rs, ti, ts)
  | _ => None
  end.

(** The end of the [try] block: the summary dialog, then the refresh of
    the views. *)
Definition show_summary (db : store)
    (rivers_imported rivers_skipped trips_imported trips_skipped : nat)
  : store * import_outcome :=
  match refresh_views db with
  | Ok _ => (db, ImportComplete rivers_imported rivers_skipped trips_imported trips_skipped)
  | Raise e =>
      (db, ImportCompleteThenFailed rivers_imported rivers_skipped trips_imported
             trips_skipped e)
  end.

Definition import_data (include_trip_logs : bool) (db : store)
    (rivers_clock trips_clock : nat -> string) (file : file_content)
  : store * import_outcome :=
  match file with
  | Unreadable e => (db, ImportFailed e)
  | NotJSON => (db, InvalidFile_NotJSON)
  | Json (VDict import_data) =>
      if negb (Py.contains import_data "rivers") then (db, InvalidFile_NotRiverRunner)
      else
        let rivers_data := Py.get import_data "rivers" (VList []) in
        let trips_data := Py.get import_data "trips" (VList []) in
        match import_rivers db rivers_clock rivers_data with
        | (db1, Raise e) => (db1, ImportFailed e)
        | (db1, Ok (rivers_imported, rivers_skipped)) =>
            if include_trip_logs && Py.truthy trips_data then
              match import_trips db1 trips_clock trips_data with
              | (db2, Raise e) => (db2, ImportFailed e)
              | (db2, Ok (trips_imported, trips_skipped)) =>
                  show_summary db2 rivers_imported rivers_skipped trips_imported trips_skipped
              end
            else if negb include_trip_logs && Py.truthy trips_data then
              match Py.len trips_data with
              | Ok trips_skipped => show_summary db1 rivers_imported rivers_skipped 0 trips_skipped
              | Raise e => (db1, ImportFailed e)
              end
            else show_summary db1 rivers_imported rivers_skipped 0 0
        end
  | Json _ => (db, InvalidFile_NotRiverRunner)
  end.

(** The rows [filter_rivers] puts in the table: [search_edit] is the text of
    the search box, [difficulty_filter] the entry of the combo box. *)
Definition filter_rivers (original_rivers_data : list River.t) (search_edit : string)
    (difficulty_filter : string) : list River.t :=
  let search_text := Py.lower search_edit in
  List.filter
    (fun river =>
       (if Py.truthy (VStr search_text) then
          let searchable_text :=
            Py.lower (River.name river ++ " " ++ River.location river ++ " "
                      ++ Py.str (Sql.to_py (River.difficulty_class river))) in
          Py.str_contains searchable_text search_text
        else true)
       && negb (negb (String.eqb difficulty_filter "All")
                && negb (Py.eq_str (Sql.to_py (River.difficulty_class river)) difficulty_filter)))
    original_rivers_data.

End handlers.

End MainWindow.

(** ** The file system under the attachments *)

Module Os.

(** The files by path, with their content, and the paths [os.remove]
    cannot delete.  Directories and other permissions are not modelled. *)
Record filesystem : Type := {
  files : gmap string string;
  undeletable : gset string
}.

Definition path_exists (fs : filesystem) (p : string) : bool :=
  match files fs !! p with Some _ => true | None => false end.

Definition getsize (fs : filesystem) (p : string) : option Z :=
  match files fs !! p with
  | Some content => Some (Z.of_nat (String.length content))
  | None => None
  end.

(** [shutil.copy2]: a missing source raises. *)
Definition copy2 (fs : filesystem) (src dst : string) : Py.result filesystem :=
  match files fs !! src with
  | Some content => Ok {| files := <[dst := content]> (files fs); undeletable := undeletable fs |}
  | None => Raise Py.OSError
  end.

(** [os.remove] *)
Definition remove (fs : filesystem) (p : string) : Py.result filesystem :=
  match files fs !! p with
  | Some _ =>
      if bool_decide (p ∈ undeletable fs) then Raise Py.OSError
      else Ok {| files := delete p (files fs); undeletable := undeletable fs |}
  | None => Raise Py.OSError
  end.

End Os.

(** ** class FileAttachmentWidget *)

Module FileAttachmentWidget.

Section handlers.
Context {unicode : Py.Unicode}.

(** The dialog a handler ends with, if any. *)
Inductive outcome : Type :=
| Nothing
| Success                    (* QMessageBox.information "Success" *)
| Error (e : Py.exn).        (* QMessageBox.critical "Error" *)

(** [add_file]: [file_path] is what the file dialog returned (empty when
    cancelled), [timestamp] the [strftime] text, [description] and [ok]
    what the description dialog returned. *)
Definition add_file (river_id : option Z) (attachments_dir : string) (db : store)
    (fs : Os.filesystem) (now : string) (file_path : string) (timestamp : string)
    (description : string) (ok : bool) : store * Os.filesystem * outcome :=
  match river_id with
  | None => (db, fs, Nothing)
  | Some rid =>
      if negb (Py.truthy (VInt rid)) then (db, fs, Nothing)
      else if negb (Py.truthy (VStr file_path)) then (db, fs, Nothing)
      else
        let file_name := OsPath.basename file_path in
        let new_file_name := timestamp ++ "_" ++ file_name in
        let new_file_path := OsPath.join attachments_dir new_file_name in
        match Os.copy2 fs file_path new_file_path with
        | Raise e => (db, fs, Error e)
        | Ok fs' =>
            if ok then
              match DatabaseManager.add_document db now (Os.getsize fs') rid new_file_path
                      description with
              | (db', Ok _) => (db', fs', Success)
              | (db', Raise e) => (db', fs', Error e)
              end
            else (db, fs', Nothing)
        end
  end.

(** [remove_file]: [current_item] is the row kept in the selected list
    item, [reply_yes] the answer to the confirmation. *)
Definition remove_file (db : store) (fs : Os.filesystem) (current_item : option Document.t)
    (reply_yes : bool) : store * Os.filesystem * outcome :=
  match current_item with
  | None => (db, fs, Nothing)
  | Some doc_data =>
      if reply_yes then
        let db' :=
          set_river_documents db
            (List.filter (fun d => negb (Document.id d =? Document.id doc_data)%Z)
               (river_documents db))
            (seq_river_documents db) in
        if Os.path_exists fs (Document.file_path doc_data) then
          match Os.remove fs (Document.file_path doc_data) with
          | Ok fs' => (db', fs', Success)
          | Raise e => (db', fs, Error e)
          end
        else (db', fs, Success)
      else (db, fs, Nothing)
  end.

End handlers.

End FileAttachmentWidget.

Section notions.
Context {unicode : Py.Unicode}.

(** ** Store invariants *)

(** The ids of each table are distinct and none is above the table's
    AUTOINCREMENT counter. *)
Definition well_sequenced (db : store) : Prop :=
  (List.NoDup (List.map River.id (rivers db)) /\
   forall r, In r (rivers db) -> (River.id r <= seq_rivers db)%Z) /\
  (List.NoDup (List.map Document.id (river_documents db)) /\
   forall d, In d (river_documents db) -> (Document.id d <= seq_river_documents db)%Z) /\
  (List.NoDup (List.map Trip.id (trip_logs db)) /\
   forall t, In t (trip_logs db) -> (Trip.id t <= seq_trip_logs db)%Z).

(** The rivers and the trip logs hold values SQLite stores: 64-bit ids and
    integers, no REAL that is not a number. *)
Definition sqlite_values (db : store) : Prop :=
  (forall r, In r (rivers db) ->
             Sql.int64 (River.id r) = true /\
             Forall (fun v => Sql.storable v = true) (River.columns r)) /\
  (forall t, In t (trip_logs db) ->
             Sql.int64 (Trip.id t) = true /\
             Forall (fun v => Sql.storable v = true) (Trip.columns t)).

(** No two rivers of the store have one identifier [name|location]. *)
Definition distinct_river_identifiers (db : store) : Prop :=
  List.NoDup (List.map MainWindow.river_identifier (rivers db)).

(** ** Records the store accepts *)

(** Whether [add_river] accepts an incoming record as [import_rivers] hands
    it over: every value can be bound and [name] and [location] are not
    NULL. *)
Definition persistable_river (river_data : Py.value) : bool :=
  match river_data with
  | VDict d => Py.is_ok (DatabaseManager.checked_river_values (MainWindow.strip_river d))
  | _ => false
  end.

(** Whether [cursor.execute] can bind a value. *)
Definition bindable (v : Py.value) : bool := Py.is_ok (Sql.bind v).

Definition all_bindable (d : Py.dict) : Prop :=
  Forall (fun kv : string * Py.value => bindable (snd kv) = true) d.

End notions.

(** ** Notions of the specification *)

Module Spec.

Section notions.
Context {unicode : Py.Unicode}.

(** Timestamps [YYYY-MM-DD HH:MM:SS] order as their text. *)
Definition earlier (a b : string) : bool := String.ltb a b.

(** The Invalid-Format outcomes of [import_data]: its two "Invalid File"
    dialogs. *)
Definition invalid_format (outcome : MainWindow.import_outcome) : bool :=
  match outcome with
  | MainWindow.InvalidFile_NotRiverRunner => true
  | MainWindow.InvalidFile_NotJSON => true
  | _ => false
  end.

(** The documents the specification calls invalid: not parseable, or
    without a top-level [rivers] key, or with a [rivers] value that is not
    a sequence. *)
Definition invalid_as_specified (file : MainWindow.file_content) : bool :=
  match file with
  | MainWindow.Unreadable _ => true
  | MainWindow.NotJSON => true
  | MainWindow.Json (VDict d) =>
      match Py.getitem d "rivers" with
      | Some (VList _) => false
      | _ => true
      end
  | MainWindow.Json _ => true
  end.

(** The documents [import_data] rejects as invalid: text that [json.load]
    finds malformed, or a value that is not an object with a [rivers]
    key. *)
Definition invalid_as_checked (file : MainWindow.file_content) : bool :=
  match file with
  | MainWindow.Unreadable _ => false
  | MainWindow.NotJSON => true
  | MainWindow.Json (VDict d) => negb (Py.contains d "rivers")
  | MainWindow.Json _ => true
  end.

(** The constraints the schema declares: river ids are unique, and every
    trip log has a date and the id of a river of the store. *)
Definition referential_integrity (db : store) : Prop :=
  List.NoDup (List.map River.id (rivers db)) /\
  forall t, In t (trip_logs db) ->
            Trip.trip_date t <> SqlNull /\
            exists r, In r (rivers db) /\ Trip.river_id t = SqlInt (River.id r).

(** The natural key of an exported trip: the normalized name of its river
    and its date as the document renders it. *)
Definition trip_natural_key (row : TripRow.t) : string * string :=
  (Py.strip (Py.lower (TripRow.river_name row)),
   Py.str (Sql.to_py (Trip.trip_date (TripRow.trip row)))).

(** No two rivers with one identifier [name|location], no two trips with
    one natural key. *)
Definition distinct_natural_keys (db : store) : Prop :=
  List.NoDup (List.map MainWindow.river_identifier (rivers db)) /\
  List.NoDup (List.map trip_natural_key (DatabaseManager.join_rivers db)).

End notions.

End Spec.

(** ** Concrete stores and documents *)

Module Scenario.

(** The scenarios are made of ASCII text, on which [str.lower] and
    [str.strip] are [Py.ascii_text], and of rows the views render. *)
#[local] Existing Instance Py.ascii_text.

#[local] Instance views : MainWindow.Views := fun _ => Ok tt.

Definition clock (i : nat) : string :=
  "2024-05-04 09:00:0" ++ Py.str_of_Z (Z.of_nat i).

Definition ocoee : Py.dict := [("name", VStr "Ocoee"); ("location", VStr "Tennessee")].

Definition first_trip : Py.dict := [("river_id", VInt 1); ("trip_date", VStr "2024-05-02")].

Definition map_path : string := "/data/attachments/20240503_100000_map.pdf".

Definition fs (p : string) : option Z :=
  if String.eqb p map_path then Some 1024%Z else None.

(** One river with one trip log and one attachment, built through the
    store's own operations. *)
Definition db_ocoee : store :=
  fst (DatabaseManager.add_river empty_store "2024-05-01 10:00:00" ocoee).

Definition db_ocoee_trip : store :=
  fst (DatabaseManager.add_trip_log db_ocoee "2024-05-02 18:00:00" first_trip).

Definition db_ocoee_full : store :=
  fst (DatabaseManager.add_document db_ocoee_trip "2024-05-03 10:00:00" fs 1 map_path "map").

(** The river row of these stores. *)
Definition ocoee_row : River.t :=
  {| River.id := 1;
     River.name := "Ocoee";
     River.location := "Tennessee";
     River.region := SqlText "";
     River.latitude := SqlNull;
     River.longitude := SqlNull;
     River.difficulty_class := SqlText "";
     River.length_miles := SqlNull;
     River.typical_flow_min := SqlNull;
     River.typical_flow_max := SqlNull;
     River.put_in_location := SqlText "";
     River.take_out_location := SqlText "";
     River.shuttle_info := SqlText "";
     River.parking_details := SqlText "";
     River.best_seasons := SqlText "";
     River.water_level_source := SqlText "";
     River.hazards := SqlText "";
     River.portages := SqlText "";
     River.emergency_contacts := SqlText "";
     River.description := SqlText "";
     River.personal_rating := SqlNull;
     River.date_added := "2024-05-01 10:00:00";
     River.last_updated := "2024-05-01 10:00:00";
     River.notes := SqlText "";
     River.tags := SqlText "" |}.

(** The same store after river 1 is deleted, and the trip log row that
    referenced it. *)
Definition db_orphaned : store := DatabaseManager.delete_river db_ocoee_full 1.

Definition orphan : Trip.t :=
  {| Trip.id := 1;
     Trip.river_id := SqlInt 1;
     Trip.trip_date := SqlText "2024-05-02";
     Trip.companions := SqlText "";
     Trip.water_level := SqlText "";
     Trip.weather_conditions := SqlText "";
     Trip.flow_rate := SqlNull;
     Trip.duration_hours := SqlNull;
     Trip.difficulty_experienced := SqlText "";
     Trip.highlights := SqlText "";
     Trip.challenges := SqlText "";
     Trip.gear_used := SqlText "";
     Trip.trip_rating := SqlNull;
     Trip.notes := SqlText "";
     Trip.created_date := "2024-05-02 18:00:00" |}.

(** An incoming river record with a list where [add_river] binds a text. *)
Definition ocoee_with_tag_list : Py.dict :=
  [("name", VStr "OCOEE "); ("location", VStr "Tennessee"); ("tags", VList [VStr "dam release"])].

(** An incoming river record with an integer one above the largest an
    INTEGER holds. *)
Definition ocoee_with_wide_flow : Py.dict :=
  [("name", VStr "Ocoee"); ("location", VStr "Tennessee");
   ("typical_flow_max", VInt 9223372036854775808)].

(** A trip of the Ocoee, and one of a river the store does not have. *)
Definition ocoee_trip : Py.dict :=
  [("id", VInt 12); ("river_id", VInt 40); ("river_name", VStr "Ocoee");
   ("trip_date", VStr "2024-06-01")].

Definition ocoee_trip_with_gear_list : Py.dict :=
  [("river_name", VStr "ocoee"); ("trip_date", VStr "2024-06-01");
   ("gear_used", VList [VStr "helmet"])].

Definition gauley_trip : Py.dict :=
  [("river_name", VStr "Gauley"); ("trip_date", VStr "2024-09-14")].

(** Two rivers, each with one trip log. *)
Definition gauley_trip_form : Py.dict := [("river_id", VInt 2); ("trip_date", VStr "2024-09-14")].

Definition db_two_rivers : store :=
  fst (DatabaseManager.add_trip_log
         (fst (DatabaseManager.add_river db_ocoee_trip "2024-09-10 08:00:00"
                 [("name", VStr "Gauley"); ("location", VStr "West Virginia")]))
         "2024-09-14 20:00:00" gauley_trip_form).

(** The Ocoee entered twice, the second time in another spelling. *)
Definition db_ocoee_twice : store :=
  fst (DatabaseManager.add_river db_ocoee "2024-05-02 11:00:00"
         [("name", VStr "ocoee "); ("location", VStr "TENNESSEE")]).

(** The Ocoee with two trip logs of one day. *)
Definition db_same_day_trips : store :=
  fst (DatabaseManager.add_trip_log db_ocoee_trip "2024-05-02 21:00:00" first_trip).

(** A river whose name holds the separator of the identifier, and an
    incoming record with another name and location and the same
    identifier. *)
Definition db_bar_in_name : store :=
  fst (DatabaseManager.add_river empty_store "2024-05-01 10:00:00"
         [("name", VStr "Big|Little"); ("location", VStr "Fork")]).

Definition bar_in_location : Py.dict := [("name", VStr "Big"); ("location", VStr "Little|Fork")].

(** Payloads without a usable name. *)
Definition no_fields : Py.dict := [].

Definition null_name : Py.dict := [("name", VNone); ("location", VStr "Tennessee")].

Definition blank_name_form : Py.dict := [("name", VStr ""); ("location", VStr "Tennessee")].

Definition gauley_form : Py.dict := [("name", VStr "Gauley"); ("location", VStr "West Virginia")].

(** Interchange documents. *)
Definition rivers_is_object : MainWindow.file_content :=
  MainWindow.Json (VDict [("rivers", VDict [])]).

Definition rivers_is_number : MainWindow.file_content :=
  MainWindow.Json (VDict [("rivers", VInt 5)]).

(** A file that holds bytes that are not text. *)
Definition not_text : MainWindow.file_content := MainWindow.Unreadable Py.UnicodeDecodeError.

Definition rivers_only : MainWindow.file_content :=
  MainWindow.Json (VDict [("rivers", VList [VDict ocoee]); ("includes_trip_logs", VBool false)]).

End Scenario.

(** * Properties *)

(** Closes [k ∉ s] for a closed string [k] and a closed set [s]. *)
Ltac not_in_set :=
  match goal with
  | |- ?k ∉ ?s => apply (bool_decide_eq_false_1 (k ∈ s)); vm_compute; reflexivity
  end.

Section properties.
Context {unicode : Py.Unicode} {views : MainWindow.Views}.

(** ** Python dictionaries *)

Section dict_facts.
Implicit Types (d : Py.dict) (k : string) (v : Py.value).

Lemma getitem_delitem_ne d k k' :
  k ≠ k' -> Py.getitem (Py.delitem d k') k = Py.getitem d k.
Proof.
  intros Hne. induction d as [|[k0 v0] d IH]; simpl; [reflexivity|].
  destruct (String.eqb_spec k0 k') as [->|Hk0]; simpl.
  - rewrite IH. destruct (String.eqb_spec k' k); congruence.
  - rewrite IH. reflexivity.
Qed.

Lemma getitem_delitem_eq d k : Py.getitem (Py.delitem d k) k = None.
Proof.
  induction d as [|[k0 v0] d IH]; simpl; [reflexivity|].
  destruct (String.eqb_spec k0 k) as [->|Hk0]; simpl; [assumption|].
  destruct (String.eqb_spec k0 k); congruence.
Qed.

Lemma getitem_setitem_eq d k v : Py.getitem (Py.setitem d k v) k = Some v.
Proof.
  induction d as [|[k0 v0] d IH]; simpl.
  - rewrite String.eqb_refl. reflexivity.
  - destruct (String.eqb_spec k0 k) as [->|Hk0]; simpl.
    + rewrite String.eqb_refl. reflexivity.
    + destruct (String.eqb_spec k0 k); congruence.
Qed.

Lemma getitem_setitem_ne d k k' v :
  k ≠ k' -> Py.getitem (Py.setitem d k' v) k = Py.getitem d k.
Proof.
  intros Hne. induction d as [|[k0 v0] d IH]; simpl.
  - destruct (String.eqb_spec k' k); congruence.
  - destruct (String.eqb_spec k0 k') as [->|Hk0]; simpl.
    + destruct (String.eqb_spec k' k); [congruence|].
      apply getitem_delitem_ne. assumption.
    + rewrite IH. reflexivity.
Qed.

Lemma getitem_remove_field_ne d k k' :
  k ≠ k' -> Py.getitem (MainWindow.remove_field d k') k = Py.getitem d k.
Proof.
  intros Hne. unfold MainWindow.remove_field.
  destruct (Py.contains d k'); [apply getitem_delitem_ne; assumption | reflexivity].
Qed.

Lemma get_remove_field_ne d k k' v :
  k ≠ k' -> Py.get (MainWindow.remove_field d k') k v = Py.get d k v.
Proof. intros Hne. unfold Py.get. rewrite getitem_remove_field_ne by assumption. reflexivity. Qed.

Lemma get_setitem_ne d k k' v v' :
  k ≠ k' -> Py.get (Py.setitem d k' v') k v = Py.get d k v.
Proof. intros Hne. unfold Py.get. rewrite getitem_setitem_ne by assumption. reflexivity. Qed.

Lemma get_setitem_eq d k v v' : Py.get (Py.setitem d k v') k v = v'.
Proof. unfold Py.get. rewrite getitem_setitem_eq. reflexivity. Qed.
End dict_facts.

(** ** ORDER BY keeps the rows *)

Lemma insert_row_Permutation {A : Type} (le : A -> A -> bool) (x : A) (l : list A) :
  Permutation (Sql.insert_row le x l) (x :: l).
Proof.
  induction l as [|y l IH]; simpl; [reflexivity|].
  destruct (le x y); [reflexivity|].
  rewrite IH. apply perm_swap.
Qed.

Lemma order_by_Permutation {A : Type} (le : A -> A -> bool) (l : list A) :
  Permutation (Sql.order_by le l) l.
Proof.
  induction l as [|x l IH]; simpl; [reflexivity|].
  rewrite insert_row_Permutation. apply perm_skip, IH.
Qed.

Lemma In_order_by {A : Type} (le : A -> A -> bool) (l : list A) (x : A) :
  In x (Sql.order_by le l) <-> In x l.
Proof.
  split; apply Permutation_in; [|symmetry]; apply order_by_Permutation.
Qed.

Lemma In_get_all_rivers (db : store) (r : River.t) :
  In r (DatabaseManager.get_all_rivers db) <-> In r (rivers db).
Proof. apply In_order_by. Qed.

(** ** The JOIN of trip_logs with rivers *)

Lemma In_join_rivers (db : store) (row : TripRow.t) :
  In row (DatabaseManager.join_rivers db) <->
  exists t r, In t (trip_logs db) /\ In r (rivers db) /\
              Trip.river_id t = SqlInt (River.id r) /\
              row = TripRow.mk t (River.name r).
Proof.
  unfold DatabaseManager.join_rivers. rewrite in_flat_map. split.
  - intros (t & Ht & Hrow). apply in_map_iff in Hrow as (r & <- & Hr).
    apply filter_In in Hr as [Hr Heq]. exists t, r. repeat split; try assumption.
    destruct (Trip.river_id t); simpl in Heq; try discriminate.
    apply Z.eqb_eq in Heq. congruence.
  - intros (t & r & Ht & Hr & Heq & ->). exists t. split; [assumption|].
    apply in_map_iff. exists r. split; [reflexivity|]. apply filter_In. split; [assumption|].
    rewrite Heq. simpl. apply Z.eqb_refl.
Qed.

Lemma In_get_trip_logs (db : store) (river_id : option Z) (row : TripRow.t) :
  In row (DatabaseManager.get_trip_logs db river_id) -> In row (DatabaseManager.join_rivers db).
Proof.
  unfold DatabaseManager.get_trip_logs, DatabaseManager.order_by_trip_date_desc.
  destruct river_id as [rid|]; [destruct (Py.truthy (VInt rid))|];
    rewrite In_order_by; try tauto.
  intros H. apply filter_In in H. tauto.
Qed.

Lemma get_trip_log_by_id_In (db : store) (trip_id : Z) (row : TripRow.t) :
  DatabaseManager.get_trip_log_by_id db trip_id = Some row ->
  In row (DatabaseManager.join_rivers db).
Proof.
  unfold DatabaseManager.get_trip_log_by_id. intros H.
  destruct (List.filter _ _) as [|row' l] eqn:E; simpl in H; [discriminate|].
  injection H as ->.
  assert (Hin : In row (List.filter (fun row => (Trip.id (TripRow.trip row) =? trip_id)%Z)
                          (DatabaseManager.join_rivers db))) by (rewrite E; left; reflexivity).
  apply filter_In in Hin. tauto.
Qed.

(** C9. A trip log whose [river_id] matches no river row is returned by
    none of the trip reads ([get_trip_logs] with any filter argument,
    [get_trip_log_by_id] with any id): every row they return pairs a trip
    of the table with an existing river whose id is the trip's [river_id]
    and whose name is the row's [river_name].  The reads are functions of
    the store, so the orphaned row itself stays in [trip_logs]. *)
Theorem orphan_trip_unreachable (db : store) (t : Trip.t) :
  In t (trip_logs db) ->
  (forall r, In r (rivers db) -> Trip.river_id t <> SqlInt (River.id r)) ->
  (forall river_id row,
      In row (DatabaseManager.get_trip_logs db river_id) -> TripRow.trip row <> t) /\
  (forall trip_id row,
      DatabaseManager.get_trip_log_by_id db trip_id = Some row -> TripRow.trip row <> t) /\
  (forall river_id row,
      In row (DatabaseManager.get_trip_logs db river_id) ->
      exists r, In r (rivers db) /\ In (TripRow.trip row) (trip_logs db) /\
                Trip.river_id (TripRow.trip row) = SqlInt (River.id r) /\
                TripRow.river_name row = River.name r) /\
  (forall trip_id row,
      DatabaseManager.get_trip_log_by_id db trip_id = Some row ->
      exists r, In r (rivers db) /\ In (TripRow.trip row) (trip_logs db) /\
                Trip.river_id (TripRow.trip row) = SqlInt (River.id r) /\
                TripRow.river_name row = River.name r).
Proof.
  intros Ht Horphan.
  assert (Hjoin : forall row, In row (DatabaseManager.join_rivers db) ->
            TripRow.trip row <> t /\
            exists r, In r (rivers db) /\ In (TripRow.trip row) (trip_logs db) /\
                      Trip.river_id (TripRow.trip row) = SqlInt (River.id r) /\
                      TripRow.river_name row = River.name r).
  { intros row Hrow. apply In_join_rivers in Hrow as (t' & r & Ht' & Hr & Heq & ->). simpl.
    split.
    - intros ->. exact (Horphan r Hr Heq).
    - exists r. repeat split; assumption. }
  repeat split.
  - intros river_id row Hrow. apply (Hjoin row). eapply In_get_trip_logs, Hrow.
  - intros trip_id row Hrow. apply (Hjoin row). eapply get_trip_log_by_id_In, Hrow.
  - intros river_id row Hrow. apply (Hjoin row). eapply In_get_trip_logs, Hrow.
  - intros trip_id row Hrow. apply (Hjoin row). eapply get_trip_log_by_id_In, Hrow.
Qed.

(** ** Deleting a river *)

Lemma delete_river_keeps_dependents (db : store) (river_id : Z) :
  trip_logs (DatabaseManager.delete_river db river_id) = trip_logs db /\
  river_documents (DatabaseManager.delete_river db river_id) = river_documents db.
Proof. split; reflexivity. Qed.

Lemma execute_delete_river_cascades (conn : connection) (db : store) (r : River.t) :
  foreign_keys conn = true ->
  In r (rivers db) ->
  let db' := DatabaseManager.execute_delete_river conn db (River.id r) in
  (forall t, In t (trip_logs db') -> Trip.river_id t <> SqlInt (River.id r)) /\
  (forall d, In d (river_documents db') -> Document.river_id d <> SqlInt (River.id r)).
Proof.
  intros Hfk Hr. simpl. rewrite Hfk.
  assert (Hex : List.existsb (fun r0 => (River.id r0 =? River.id r)%Z) (rivers db) = true).
  { apply existsb_exists. exists r. split; [assumption | apply Z.eqb_refl]. }
  rewrite Hex. simpl. split.
  - intros t Ht Heq. apply filter_In in Ht as [_ Ht]. rewrite Heq in Ht. simpl in Ht.
    rewrite Z.eqb_refl in Ht. discriminate.
  - intros d Hd Heq. apply filter_In in Hd as [_ Hd]. rewrite Heq in Hd. simpl in Hd.
    rewrite Z.eqb_refl in Hd. discriminate.
Qed.

(** ** The identifier set and the name map *)

Lemma elem_of_foldl_add {A : Type} (f : A -> string) (l : list A) (s0 : gset string) (k : string) :
  k ∈ foldl (fun s x => {[f x]} ∪ s) s0 l <-> k ∈ s0 \/ exists x, In x l /\ f x = k.
Proof.
  revert s0. induction l as [|x l IH]; intros s0; simpl.
  - split; [tauto | intros [H | (x & [] & _)]; exact H].
  - rewrite IH. rewrite elem_of_union, elem_of_singleton. split.
    + intros [[-> | H] | (y & Hy & Hk)]; eauto.
    + intros [H | (y & [-> | Hy] & Hk)]; eauto.
Qed.

Lemma elem_of_existing_river_identifiers (db : store) (k : string) :
  k ∈ MainWindow.existing_river_identifiers db <->
  exists r, In r (rivers db) /\ MainWindow.river_identifier r = k.
Proof.
  unfold MainWindow.existing_river_identifiers. rewrite elem_of_foldl_add. split.
  - intros [H | (r & Hr & Hk)]; [set_solver|]. exists r. rewrite <- In_get_all_rivers. tauto.
  - intros (r & Hr & Hk). right. exists r. rewrite In_get_all_rivers. tauto.
Qed.

Lemma lookup_foldl_insert_None {A : Type} (key : A -> string) (val : A -> Z)
    (l : list A) (m0 : gmap string Z) (k : string) :
  foldl (fun m x => <[key x := val x]> m) m0 l !! k = None <->
  m0 !! k = None /\ forall x, In x l -> key x <> k.
Proof.
  revert m0. induction l as [|x l IH]; intros m0; simpl.
  - split; [intros H; split; [exact H | intros x []] | tauto].
  - rewrite IH. rewrite lookup_insert_None. split.
    + intros [[H0 Hx] Hl]. split; [exact H0|]. intros y [<- | Hy]; auto.
    + intros [H0 Hl]. repeat split; auto.
Qed.

Lemma lookup_foldl_insert_Some {A : Type} (key : A -> string) (val : A -> Z)
    (l : list A) (m0 : gmap string Z) (k : string) (i : Z) :
  foldl (fun m x => <[key x := val x]> m) m0 l !! k = Some i ->
  m0 !! k = Some i \/ exists x, In x l /\ key x = k /\ val x = i.
Proof.
  revert m0. induction l as [|x l IH]; intros m0; simpl; [tauto|].
  intros H. apply IH in H as [H | (y & Hy & Hk & Hv)]; [|right; eauto].
  apply lookup_insert_Some in H as [[Hk Hv] | [_ H]]; [right; eauto | tauto].
Qed.

Lemma river_name_to_id_None (db : store) (k : string) :
  MainWindow.river_name_to_id db !! k = None <->
  forall r, In r (rivers db) -> Py.strip (Py.lower (River.name r)) <> k.
Proof.
  unfold MainWindow.river_name_to_id. rewrite lookup_foldl_insert_None. split.
  - intros [_ H] r Hr. apply H, In_get_all_rivers, Hr.
  - intros H. split; [apply lookup_empty|]. intros r Hr. apply H, In_get_all_rivers, Hr.
Qed.

Lemma river_name_to_id_Some (db : store) (k : string) (i : Z) :
  MainWindow.river_name_to_id db !! k = Some i ->
  exists r, In r (rivers db) /\ Py.strip (Py.lower (River.name r)) = k /\ River.id r = i.
Proof.
  unfold MainWindow.river_name_to_id. intros H.
  apply lookup_foldl_insert_Some in H as [H | (r & Hr & Hk & Hv)].
  - rewrite lookup_empty in H. discriminate.
  - exists r. rewrite <- In_get_all_rivers. tauto.
Qed.

(** ** The result monad *)

Lemma bind_Ok {A B : Type} (m : Py.result A) (f : A -> Py.result B) (b : B) :
  m ≫= f = Ok b -> exists a, m = Ok a /\ f a = Ok b.
Proof. destruct m as [a|e]; simpl; [eauto | discriminate]. Qed.

Lemma bind_int_Ok (z : Z) (v : sqlval) :
  Sql.bind (VInt z) = Ok v -> v = SqlInt z /\ Sql.int64 z = true.
Proof.
  simpl. destruct (Sql.int64 z); [|discriminate]. intros [= <-]. auto.
Qed.

Ltac bind_inv H :=
  repeat match type of H with
  | _ ≫= _ = Ok _ =>
      let a := fresh "v" in let E := fresh "E" in
      apply bind_Ok in H as (a & E & H)
  end.

(** ** The rows the INSERT statements make *)

Lemma trip_values_row (d : Py.dict) (row : Z -> string -> Trip.t) (i : Z) (c : string) :
  DatabaseManager.trip_values d = Ok row ->
  Sql.bind (Py.get d "river_id" VNone) = Ok (Trip.river_id (row i c)) /\
  Sql.bind (Py.get d "trip_date" VNone) = Ok (Trip.trip_date (row i c)) /\
  Trip.trip_date (row i c) <> SqlNull /\
  Trip.id (row i c) = i /\ Trip.created_date (row i c) = c.
Proof.
  unfold DatabaseManager.trip_values. intros H. bind_inv H. injection H as <-. simpl.
  repeat split; try assumption.
  - unfold Sql.not_null in *. destruct v0; congruence.
  - unfold Sql.not_null in *. destruct v0; congruence.
Qed.

Lemma insert_trip_log_row (db : store) (now : string) (d : Py.dict) (t : Trip.t) :
  DatabaseManager.insert_trip_log db now d = Ok t ->
  Sql.bind (Py.get d "river_id" VNone) = Ok (Trip.river_id t) /\
  Sql.bind (Py.get d "trip_date" VNone) = Ok (Trip.trip_date t) /\
  Trip.trip_date t <> SqlNull /\
  Trip.id t = (seq_trip_logs db + 1)%Z /\ Trip.created_date t = now.
Proof.
  unfold DatabaseManager.insert_trip_log. intros H. bind_inv H. injection H as <-.
  apply trip_values_row. assumption.
Qed.

Lemma get_strip_trip_river_id (d : Py.dict) (new_river_id : Z) (v : Py.value) :
  Py.get (MainWindow.strip_trip d new_river_id) "river_id" v = VInt new_river_id.
Proof.
  unfold MainWindow.strip_trip. simpl.
  rewrite !get_remove_field_ne by discriminate. apply get_setitem_eq.
Qed.

Lemma normalized_dict (x : Py.value) (field k : string) :
  MainWindow.normalized x field = Ok k -> exists d, x = VDict d.
Proof. destruct x; simpl; try discriminate. eauto. Qed.

(** ** One turn of the trip loop *)

Lemma import_trip_unresolved (m : gmap string Z) (now : string) (st : MainWindow.loop_state)
    (x : Py.value) (k : string) :
  MainWindow.normalized x "river_name" = Ok k ->
  m !! k = None ->
  MainWindow.import_trip m now st x = Ok (MainWindow.skip st).
Proof.
  intros Hk Hm. unfold MainWindow.import_trip. rewrite Hk. simpl. rewrite Hm. reflexivity.
Qed.

Lemma import_trip_inv (m : gmap string Z) (now : string) (st st' : MainWindow.loop_state)
    (x : Py.value) :
  MainWindow.import_trip m now st x = Ok st' ->
  st' = MainWindow.skip st \/
  exists d k new_river_id t,
    x = VDict d /\ MainWindow.normalized x "river_name" = Ok k /\
    m !! k = Some new_river_id /\
    DatabaseManager.insert_trip_log (MainWindow.st_db st) now
      (MainWindow.strip_trip d new_river_id) = Ok t /\
    let identifier := Py.str (VInt new_river_id) ++ "|" ++ Py.str (Py.get d "trip_date" (VStr "")) in
    (identifier ∉ MainWindow.identifiers st) /\
    st' = MainWindow.imported st
            (set_trip_logs (MainWindow.st_db st) (trip_logs (MainWindow.st_db st) ++ [t]) (Trip.id t))
            identifier.
Proof.
  unfold MainWindow.import_trip. intros H.
  apply bind_Ok in H as (k & Hk & H).
  destruct (normalized_dict _ _ _ Hk) as [d ->].
  destruct (m !! k) as [new_river_id|] eqn:Hm; [|left; injection H as <-; reflexivity].
  simpl in H. case_bool_decide as Hin; [left; injection H as <-; reflexivity|].
  unfold DatabaseManager.add_trip_log in H.
  destruct (DatabaseManager.insert_trip_log _ _ _) as [t|e] eqn:Hins; simpl in H;
    [|left; injection H as <-; reflexivity].
  right. exists d, k, new_river_id, t. injection H as <-. repeat split; assumption.
Qed.

(** ** The loop *)

Lemma for_each_invariant (P : MainWindow.loop_state -> Prop)
    (body : string -> MainWindow.loop_state -> Py.value -> Py.result MainWindow.loop_state)
    (clock : nat -> string) :
  (forall now st x st', P st -> body now st x = Ok st' -> P st') ->
  forall items i st db' res,
    P st -> MainWindow.for_each body clock i st items = (db', res) ->
    exists st', P st' /\ MainWindow.st_db st' = db' /\
                (res = Ok (MainWindow.imported_count st', MainWindow.skipped_count st') \/
                 exists e, res = Raise e).
Proof.
  intros Hstep. induction items as [|x items IH]; intros i st db' res HP H; simpl in H.
  - injection H as <- <-. exists st. auto.
  - destruct (body (clock i) st x) as [st1|e] eqn:Hbody.
    + eapply IH; [|exact H]. eapply Hstep; eassumption.
    + injection H as <- <-. exists st. eauto.
Qed.

(** Whatever the batch, and even when the import is cut short by an
    exception, [import_trips] leaves the rivers alone and only appends
    trip logs whose [river_id] is the id of a river of the store. *)
Lemma import_trips_no_dangling (db : store) (clock : nat -> string) (trips_data : Py.value)
    (db' : store) (res : Py.result (nat * nat)) :
  MainWindow.import_trips db clock trips_data = (db', res) ->
  rivers db' = rivers db /\
  exists new, trip_logs db' = (trip_logs db ++ new)%list /\
              forall t, In t new ->
                        exists r, In r (rivers db') /\ Trip.river_id t = SqlInt (River.id r).
Proof.
  unfold MainWindow.import_trips. destruct (Py.iter trips_data) as [items|e].
  - set (P := fun st : MainWindow.loop_state =>
                rivers (MainWindow.st_db st) = rivers db /\
                exists new, trip_logs (MainWindow.st_db st) = (trip_logs db ++ new)%list /\
                            forall t, In t new ->
                                      exists r, In r (rivers db) /\
                                                Trip.river_id t = SqlInt (River.id r)).
    intros H. apply (for_each_invariant P) in H as (st' & [Hr Hnew] & <- & _).
    + split; [exact Hr|]. rewrite Hr. exact Hnew.
    + intros now st x st' [Hr (new & Hnew & Hok)] Hstep.
      apply import_trip_inv in Hstep
        as [-> | (d & k & i & t & -> & Hk & Hm & Hins & _ & ->)]; [split; eauto|].
      simpl. split; [exact Hr|]. exists (new ++ [t])%list. split.
      * rewrite Hnew. symmetry. apply app_assoc.
      * intros t' Ht'. apply in_app_or in Ht' as [Ht' | [<- | []]]; [auto|].
        apply river_name_to_id_Some in Hm as (r & Hin & _ & <-). exists r. split; [exact Hin|].
        apply insert_trip_log_row in Hins as [Hrid _].
        rewrite get_strip_trip_river_id in Hrid. apply bind_int_Ok in Hrid as [Hrid _].
        exact Hrid.
    + split; [reflexivity|]. exists []. split; [symmetry; apply app_nil_r | intros t []].
  - intros H. injection H as <- <-. split; [reflexivity|]. exists [].
    split; [symmetry; apply app_nil_r | intros t []].
Qed.

(** C6. An incoming trip whose normalized [river_name] is the normalized
    name of no river of the store is skipped at its turn of the loop: the
    skip counter goes up by one and the store, the imported counter and the
    identifier set are as before; a batch made of that one record returns
    (0, 1) and the same store.  And for every batch, every trip log that
    [import_trips] adds carries the id of a river of the store. *)
Theorem import_trip_unknown_river_skipped (db : store) (clock : nat -> string)
    (trip_data : Py.value) (river_name : string) :
  MainWindow.normalized trip_data "river_name" = Ok river_name ->
  (forall r, In r (rivers db) -> Py.strip (Py.lower (River.name r)) <> river_name) ->
  (forall now st,
      MainWindow.import_trip (MainWindow.river_name_to_id db) now st trip_data
      = Ok (MainWindow.skip st)) /\
  MainWindow.import_trips db clock (VList [trip_data]) = (db, Ok (0, 1)) /\
  (forall trips_data db' res,
      MainWindow.import_trips db clock trips_data = (db', res) ->
      rivers db' = rivers db /\
      exists new, trip_logs db' = (trip_logs db ++ new)%list /\
                  forall t, In t new ->
                            exists r, In r (rivers db') /\ Trip.river_id t = SqlInt (River.id r)).
Proof.
  intros Hname Hnone.
  assert (Hstep : forall now st,
             MainWindow.import_trip (MainWindow.river_name_to_id db) now st trip_data
             = Ok (MainWindow.skip st)).
  { intros now st. eapply import_trip_unresolved; [exact Hname|].
    apply river_name_to_id_None. exact Hnone. }
  split; [exact Hstep|]. split.
  - unfold MainWindow.import_trips. simpl. rewrite Hstep. reflexivity.
  - intros trips_data db' res. apply import_trips_no_dangling.
Qed.

(** ** One turn of the river loop *)

Lemma incoming_river_identifier_dict (x : Py.value) (k : string) :
  MainWindow.incoming_river_identifier x = Ok k -> exists d, x = VDict d.
Proof.
  unfold MainWindow.incoming_river_identifier. intros H.
  apply bind_Ok in H as (n & Hn & _). eapply normalized_dict, Hn.
Qed.

Lemma import_river_duplicate (now : string) (st : MainWindow.loop_state) (x : Py.value)
    (k : string) :
  MainWindow.incoming_river_identifier x = Ok k ->
  k ∈ MainWindow.identifiers st ->
  MainWindow.import_river now st x = Ok (MainWindow.skip st).
Proof.
  intros Hk Hin. unfold MainWindow.import_river. rewrite Hk. simpl.
  rewrite bool_decide_eq_true_2 by assumption. reflexivity.
Qed.

(** A record whose identifier is not in the set is handed to [add_river],
    and the outcome of that call decides between import and skip. *)
Lemma import_river_attempt (now : string) (st : MainWindow.loop_state) (d : Py.dict)
    (k : string) :
  MainWindow.incoming_river_identifier (VDict d) = Ok k ->
  k ∉ MainWindow.identifiers st ->
  MainWindow.import_river now st (VDict d)
  = Ok (match DatabaseManager.add_river (MainWindow.st_db st) now (MainWindow.strip_river d) with
        | (db', Ok _) => MainWindow.imported st db' k
        | (_, Raise _) => MainWindow.skip st
        end).
Proof.
  intros Hk Hin. unfold MainWindow.import_river. rewrite Hk. simpl.
  rewrite bool_decide_eq_false_2 by assumption.
  destruct (DatabaseManager.add_river _ _ _) as [db' [i|e]]; reflexivity.
Qed.

Lemma import_trip_attempt (m : gmap string Z) (now : string) (st : MainWindow.loop_state)
    (d : Py.dict) (k : string) (new_river_id : Z) :
  MainWindow.normalized (VDict d) "river_name" = Ok k ->
  m !! k = Some new_river_id ->
  Py.str (VInt new_river_id) ++ "|" ++ Py.str (Py.get d "trip_date" (VStr ""))
    ∉ MainWindow.identifiers st ->
  MainWindow.import_trip m now st (VDict d)
  = Ok (match DatabaseManager.add_trip_log (MainWindow.st_db st) now
                (MainWindow.strip_trip d new_river_id) with
        | (db', Ok _) =>
            MainWindow.imported st db'
              (Py.str (VInt new_river_id) ++ "|" ++ Py.str (Py.get d "trip_date" (VStr "")))
        | (_, Raise _) => MainWindow.skip st
        end).
Proof.
  intros Hk Hm Hin. unfold MainWindow.import_trip. rewrite Hk. simpl. rewrite Hm. simpl.
  rewrite bool_decide_eq_false_2 by assumption.
  destruct (DatabaseManager.add_trip_log _ _ _) as [db' [i|e]]; reflexivity.
Qed.

Lemma add_river_Raise (db : store) (now : string) (d : Py.dict) :
  Py.is_ok (snd (DatabaseManager.add_river db now d)) = false ->
  exists e, DatabaseManager.add_river db now d = (db, Raise e).
Proof.
  unfold DatabaseManager.add_river.
  destruct (DatabaseManager.insert_river db now d) as [r|e]; simpl; [discriminate | eauto].
Qed.

Lemma add_trip_log_Raise (db : store) (now : string) (d : Py.dict) :
  Py.is_ok (snd (DatabaseManager.add_trip_log db now d)) = false ->
  exists e, DatabaseManager.add_trip_log db now d = (db, Raise e).
Proof.
  unfold DatabaseManager.add_trip_log.
  destruct (DatabaseManager.insert_trip_log db now d) as [r|e]; simpl; [discriminate | eauto].
Qed.

(** C4. When the store holds a river whose trimmed, lower-cased name and
    location are those of the one incoming record, [import_rivers] on that
    one record returns imported 0, skipped 1, and the store it leaves is
    the store it found. *)
Theorem import_existing_river_skipped (db : store) (clock : nat -> string)
    (river_data : Py.value) (r : River.t) :
  In r (rivers db) ->
  MainWindow.normalized river_data "name" = Ok (Py.strip (Py.lower (River.name r))) ->
  MainWindow.normalized river_data "location" = Ok (Py.strip (Py.lower (River.location r))) ->
  MainWindow.import_rivers db clock (VList [river_data]) = (db, Ok (0, 1)).
Proof.
  intros Hr Hname Hloc. unfold MainWindow.import_rivers. simpl.
  rewrite (import_river_duplicate _ _ _ (MainWindow.river_identifier r)); [reflexivity| |].
  - unfold MainWindow.incoming_river_identifier. rewrite Hname. simpl. rewrite Hloc. reflexivity.
  - simpl. apply elem_of_existing_river_identifiers. exists r. split; [exact Hr | reflexivity].
Qed.

(** ** A record that fails to persist *)

Lemma for_each_failed_river (clock : nat -> string) (i : nat) (st : MainWindow.loop_state)
    (d : Py.dict) (k : string) (rest : list Py.value) :
  MainWindow.incoming_river_identifier (VDict d) = Ok k ->
  k ∉ MainWindow.identifiers st ->
  Py.is_ok (snd (DatabaseManager.add_river (MainWindow.st_db st) (clock i)
                   (MainWindow.strip_river d))) = false ->
  MainWindow.for_each MainWindow.import_river clock i st (VDict d :: rest)
  = MainWindow.for_each MainWindow.import_river clock (i + 1)
      {| MainWindow.st_db := MainWindow.st_db st;
         MainWindow.identifiers := MainWindow.identifiers st;
         MainWindow.imported_count := MainWindow.imported_count st;
         MainWindow.skipped_count := MainWindow.skipped_count st + 1 |} rest.
Proof.
  intros Hk Hin Hfail. apply add_river_Raise in Hfail as [e Hfail].
  cbn [MainWindow.for_each]. rewrite (import_river_attempt _ _ _ k) by assumption.
  rewrite Hfail. reflexivity.
Qed.

Lemma for_each_failed_trip (m : gmap string Z) (clock : nat -> string) (i : nat)
    (st : MainWindow.loop_state) (d : Py.dict) (k : string) (new_river_id : Z)
    (rest : list Py.value) :
  MainWindow.normalized (VDict d) "river_name" = Ok k ->
  m !! k = Some new_river_id ->
  Py.str (VInt new_river_id) ++ "|" ++ Py.str (Py.get d "trip_date" (VStr ""))
    ∉ MainWindow.identifiers st ->
  Py.is_ok (snd (DatabaseManager.add_trip_log (MainWindow.st_db st) (clock i)
                   (MainWindow.strip_trip d new_river_id))) = false ->
  MainWindow.for_each (MainWindow.import_trip m) clock i st (VDict d :: rest)
  = MainWindow.for_each (MainWindow.import_trip m) clock (i + 1)
      {| MainWindow.st_db := MainWindow.st_db st;
         MainWindow.identifiers := MainWindow.identifiers st;
         MainWindow.imported_count := MainWindow.imported_count st;
         MainWindow.skipped_count := MainWindow.skipped_count st + 1 |} rest.
Proof.
  intros Hk Hm Hin Hfail. apply add_trip_log_Raise in Hfail as [e Hfail].
  cbn [MainWindow.for_each].
  rewrite (import_trip_attempt _ _ _ _ k new_river_id) by assumption.
  rewrite Hfail. reflexivity.
Qed.

(** C10. In the loop of [import_rivers] and in the loop of [import_trips],
    a record that reaches the persist call and makes it raise adds one to
    the skipped count and nothing else: the loop goes on to the records
    after it with the store, the imported count and the set of
    identifiers it had before the record.  So in a batch of two records
    with one identifier that the store does not hold, the first of which
    fails to persist, the second is handed to the persist call as well:
    the import returns imported 1, skipped 1 and the store with the second
    record when that call succeeds, imported 0, skipped 2 and the store
    as it was when it raises too. *)
Theorem failed_record_identity_not_registered :
  (forall (clock : nat -> string) (i : nat) (st : MainWindow.loop_state) (d : Py.dict)
          (k : string) (rest : list Py.value),
      MainWindow.incoming_river_identifier (VDict d) = Ok k ->
      k ∉ MainWindow.identifiers st ->
      Py.is_ok (snd (DatabaseManager.add_river (MainWindow.st_db st) (clock i)
                       (MainWindow.strip_river d))) = false ->
      MainWindow.for_each MainWindow.import_river clock i st (VDict d :: rest)
      = MainWindow.for_each MainWindow.import_river clock (i + 1)
          {| MainWindow.st_db := MainWindow.st_db st;
             MainWindow.identifiers := MainWindow.identifiers st;
             MainWindow.imported_count := MainWindow.imported_count st;
             MainWindow.skipped_count := MainWindow.skipped_count st + 1 |} rest) /\
  (forall (db : store) (clock : nat -> string) (d d' : Py.dict) (k : string),
      MainWindow.incoming_river_identifier (VDict d) = Ok k ->
      MainWindow.incoming_river_identifier (VDict d') = Ok k ->
      k ∉ MainWindow.existing_river_identifiers db ->
      Py.is_ok (snd (DatabaseManager.add_river db (clock 0) (MainWindow.strip_river d))) = false ->
      MainWindow.import_rivers db clock (VList [VDict d; VDict d'])
      = match DatabaseManager.add_river db (clock 1) (MainWindow.strip_river d') with
        | (db', Ok _) => (db', Ok (1, 1))
        | (_, Raise _) => (db, Ok (0, 2))
        end) /\
  (forall (m : gmap string Z) (clock : nat -> string) (i : nat) (st : MainWindow.loop_state)
          (d : Py.dict) (k : string) (new_river_id : Z) (rest : list Py.value),
      MainWindow.normalized (VDict d) "river_name" = Ok k ->
      m !! k = Some new_river_id ->
      Py.str (VInt new_river_id) ++ "|" ++ Py.str (Py.get d "trip_date" (VStr ""))
        ∉ MainWindow.identifiers st ->
      Py.is_ok (snd (DatabaseManager.add_trip_log (MainWindow.st_db st) (clock i)
                       (MainWindow.strip_trip d new_river_id))) = false ->
      MainWindow.for_each (MainWindow.import_trip m) clock i st (VDict d :: rest)
      = MainWindow.for_each (MainWindow.import_trip m) clock (i + 1)
          {| MainWindow.st_db := MainWindow.st_db st;
             MainWindow.identifiers := MainWindow.identifiers st;
             MainWindow.imported_count := MainWindow.imported_count st;
             MainWindow.skipped_count := MainWindow.skipped_count st + 1 |} rest) /\
  (forall (db : store) (clock : nat -> string) (d d' : Py.dict) (k k' identifier : string)
          (new_river_id new_river_id' : Z),
      MainWindow.normalized (VDict d) "river_name" = Ok k ->
      MainWindow.river_name_to_id db !! k = Some new_river_id ->
      MainWindow.normalized (VDict d') "river_name" = Ok k' ->
      MainWindow.river_name_to_id db !! k' = Some new_river_id' ->
      Py.str (VInt new_river_id) ++ "|" ++ Py.str (Py.get d "trip_date" (VStr "")) = identifier ->
      Py.str (VInt new_river_id') ++ "|" ++ Py.str (Py.get d' "trip_date" (VStr ""))
      = identifier ->
      identifier ∉ MainWindow.existing_trip_identifiers db ->
      Py.is_ok (snd (DatabaseManager.add_trip_log db (clock 0)
                       (MainWindow.strip_trip d new_river_id))) = false ->
      MainWindow.import_trips db clock (VList [VDict d; VDict d'])
      = match DatabaseManager.add_trip_log db (clock 1)
                (MainWindow.strip_trip d' new_river_id') with
        | (db', Ok _) => (db', Ok (1, 1))
        | (_, Raise _) => (db, Ok (0, 2))
        end).
Proof.
  split; [|split; [|split]].
  - intros clock i st d k rest. apply for_each_failed_river.
  - intros db clock d d' k Hk Hk' Hnew Hfail.
    unfold MainWindow.import_rivers. cbn [Py.iter].
    rewrite (for_each_failed_river clock 0 _ d k) by assumption.
    cbn [MainWindow.for_each MainWindow.st_db MainWindow.identifiers
         MainWindow.imported_count MainWindow.skipped_count Nat.add].
    rewrite (import_river_attempt _ _ d' k) by assumption.
    cbn [MainWindow.st_db].
    destruct (DatabaseManager.add_river db (clock 1) (MainWindow.strip_river d'))
      as [db' [j|e]]; reflexivity.
  - intros m clock i st d k new_river_id rest. apply for_each_failed_trip.
  - intros db clock d d' k k' identifier new_river_id new_river_id' Hk Hm Hk' Hm' Hid Hid'
      Hnew Hfail.
    unfold MainWindow.import_trips. cbn [Py.iter].
    rewrite (for_each_failed_trip _ clock 0 _ d k new_river_id)
      by (try rewrite Hid; assumption).
    cbn [MainWindow.for_each MainWindow.st_db MainWindow.identifiers
         MainWindow.imported_count MainWindow.skipped_count Nat.add].
    rewrite (import_trip_attempt _ _ _ d' k' new_river_id')
      by (try rewrite Hid'; assumption).
    cbn [MainWindow.st_db].
    destruct (DatabaseManager.add_trip_log db (clock 1)
                (MainWindow.strip_trip d' new_river_id')) as [db' [j|e]]; reflexivity.
Qed.

(** ** Two records with one identifier *)

Lemma add_river_persistable (db : store) (now : string) (d : Py.dict) :
  persistable_river (VDict d) = true ->
  exists r, DatabaseManager.add_river db now (MainWindow.strip_river d)
            = (set_rivers db (rivers db ++ [r]) (River.id r), Ok (River.id r)).
Proof.
  unfold persistable_river, DatabaseManager.add_river, DatabaseManager.insert_river.
  destruct (DatabaseManager.checked_river_values _) as [row|e]; simpl; [eauto | discriminate].
Qed.

Lemma add_river_not_persistable (db : store) (now : string) (d : Py.dict) :
  persistable_river (VDict d) = false ->
  exists e, DatabaseManager.add_river db now (MainWindow.strip_river d) = (db, Raise e).
Proof.
  unfold persistable_river, DatabaseManager.add_river, DatabaseManager.insert_river.
  destruct (DatabaseManager.checked_river_values _) as [row|e]; simpl; [discriminate | eauto].
Qed.

(** C5, as the code has it.  Two incoming records with one identifier
    [name|location] that is not the identifier of a river of the store, at
    least one of which [add_river] accepts: [import_rivers] appends exactly
    one river row and returns imported 1, skipped 1. *)
Theorem two_duplicates_one_import_one_skip (db : store) (clock : nat -> string)
    (x1 x2 : Py.value) (k : string) :
  MainWindow.incoming_river_identifier x1 = Ok k ->
  MainWindow.incoming_river_identifier x2 = Ok k ->
  k ∉ MainWindow.existing_river_identifiers db ->
  persistable_river x1 || persistable_river x2 = true ->
  exists r, MainWindow.import_rivers db clock (VList [x1; x2])
            = (set_rivers db (rivers db ++ [r]) (River.id r), Ok (1, 1)).
Proof.
  intros H1 H2 Hnew Hok.
  destruct (incoming_river_identifier_dict _ _ H1) as [d1 ->].
  destruct (incoming_river_identifier_dict _ _ H2) as [d2 ->].
  unfold MainWindow.import_rivers. simpl.
  rewrite (import_river_attempt _ _ d1 k) by assumption. simpl.
  destruct (persistable_river (VDict d1)) eqn:E1.
  - destruct (add_river_persistable db (clock 0) d1 E1) as [r ->]. exists r.
    rewrite (import_river_duplicate _ _ _ k) by (assumption || (simpl; set_solver)).
    reflexivity.
  - destruct (add_river_not_persistable db (clock 0) d1 E1) as [e ->]. simpl in Hok.
    rewrite (import_river_attempt _ _ d2 k) by assumption. simpl.
    destruct (add_river_persistable db (clock 1) d2 Hok) as [r ->]. exists r. reflexivity.
Qed.

(** ** Required fields *)

Lemma checked_river_values_row (d : Py.dict) (row : Z -> string -> string -> River.t)
    (i : Z) (a u : string) :
  DatabaseManager.checked_river_values d = Ok row ->
  Sql.bind (Py.get d "name" (VStr "")) ≫= Sql.text_not_null = Ok (River.name (row i a u)) /\
  Sql.bind (Py.get d "location" (VStr "")) ≫= Sql.text_not_null
  = Ok (River.location (row i a u)) /\
  River.id (row i a u) = i /\ River.date_added (row i a u) = a /\
  River.last_updated (row i a u) = u.
Proof.
  unfold DatabaseManager.checked_river_values. intros H.
  apply bind_Ok in H as (values & E & H).
  unfold DatabaseManager.river_values in E. bind_inv E. injection E as <-.
  simpl in H. bind_inv H. injection H as <-. simpl.
  rewrite E0, E1. simpl. auto.
Qed.

Lemma text_not_null_str (s t : string) :
  Sql.bind (VStr s) ≫= Sql.text_not_null = Ok t -> t = s.
Proof. intros H. injection H as ->. reflexivity. Qed.

Lemma get_Some (d : Py.dict) (k : string) (v default : Py.value) :
  Py.getitem d k = Some v -> Py.get d k default = v.
Proof. unfold Py.get. intros ->. reflexivity. Qed.

Lemma truthy_str (s : string) : Py.truthy (VStr s) = true <-> s <> "".
Proof.
  simpl. destruct (String.eqb_spec s ""); simpl; split; congruence.
Qed.

Lemma add_river_appends (db db' : store) (now : string) (d : Py.dict) (i : Z) :
  DatabaseManager.add_river db now d = (db', Ok i) ->
  exists row, DatabaseManager.checked_river_values d = Ok row /\
              db' = set_rivers db (rivers db ++ [row (seq_rivers db + 1)%Z now now])
                      (seq_rivers db + 1)%Z.
Proof.
  unfold DatabaseManager.add_river, DatabaseManager.insert_river.
  destruct (DatabaseManager.checked_river_values d) as [row|e] eqn:E; simpl; [|discriminate].
  intros H. injection H as <- _. exists row. split; [reflexivity|].
  destruct (checked_river_values_row d row (seq_rivers db + 1)%Z now now E)
    as (_ & _ & -> & _). reflexivity.
Qed.

Lemma update_river_rows (db : store) (now : string) (river_id : Z) (d : Py.dict) :
  (exists e, DatabaseManager.update_river db now river_id d = (db, Raise e)) \/
  DatabaseManager.update_river db now river_id d = (db, Ok tt) /\
  List.existsb (fun r => (River.id r =? river_id)%Z) (rivers db) = false \/
  exists row,
    DatabaseManager.checked_river_values d = Ok row /\
    DatabaseManager.update_river db now river_id d
    = (set_rivers db
         (List.map (fun r => if (River.id r =? river_id)%Z
                             then row (River.id r) (River.date_added r) now else r) (rivers db))
         (seq_rivers db), Ok tt).
Proof.
  unfold DatabaseManager.update_river, DatabaseManager.checked_river_values.
  destruct (DatabaseManager.river_values d) as [values|e]; simpl; [|eauto].
  destruct (List.existsb _ _); [|auto].
  destruct (DatabaseManager.not_null_river values) as [row|e]; eauto.
Qed.

(** C7, as the code has it.  [DatabaseManager.add_river] and
    [update_river] do not validate; the form handlers do.  For a payload
    whose name and location are strings, as the form builds them: when
    either is empty, [MainWindow.add_river] and [edit_river] answer with
    the validation error and the store is untouched; and whatever the
    outcome, if every river of the store had a non-empty name and location
    before the handler ran, every river has them after. *)
Theorem form_handlers_require_name_and_location (db : store) (now : string) (river_id : Z)
    (river_data : Py.dict) (name location : string) :
  Py.getitem river_data "name" = Some (VStr name) ->
  Py.getitem river_data "location" = Some (VStr location) ->
  (name = "" \/ location = "" ->
   MainWindow.add_river db now river_data = (db, MainWindow.ValidationError) /\
   MainWindow.edit_river db now river_id river_data = (db, MainWindow.ValidationError)) /\
  ((forall r, In r (rivers db) -> River.name r <> "" /\ River.location r <> "") ->
   (forall r, In r (rivers (fst (MainWindow.add_river db now river_data))) ->
              River.name r <> "" /\ River.location r <> "") /\
   (forall r, In r (rivers (fst (MainWindow.edit_river db now river_id river_data))) ->
              River.name r <> "" /\ River.location r <> "")).
Proof.
  intros Hname Hloc. unfold MainWindow.add_river, MainWindow.edit_river.
  rewrite Hname, Hloc. split.
  - intros [-> | ->]; simpl; [auto|].
    destruct (negb (negb (String.eqb name ""))); auto.
  - intros Hinv.
    destruct (Py.truthy (VStr name)) eqn:Tn; [|simpl; auto].
    destruct (Py.truthy (VStr location)) eqn:Tl; [|simpl; auto].
    cbn [negb]. apply truthy_str in Tn, Tl.
    assert (Hrow : forall row i a u,
               DatabaseManager.checked_river_values river_data = Ok row ->
               River.name (row i a u) <> "" /\ River.location (row i a u) <> "").
    { intros row i a u Hrow.
      destruct (checked_river_values_row _ _ i a u Hrow) as (Hn & Hl & _).
      rewrite (get_Some _ _ _ _ Hname) in Hn. rewrite (get_Some _ _ _ _ Hloc) in Hl.
      apply text_not_null_str in Hn, Hl. rewrite Hn, Hl. auto. }
    split.
    + destruct (DatabaseManager.add_river db now river_data) as [db' [i|e]] eqn:Hadd; simpl.
      * apply add_river_appends in Hadd as (row & Hok & ->). simpl.
        intros r Hr. apply in_app_or in Hr as [Hr | [<- | []]]; [auto|]. eapply Hrow, Hok.
      * unfold DatabaseManager.add_river in Hadd.
        destruct (DatabaseManager.insert_river db now river_data); [discriminate|].
        injection Hadd as <- _. exact Hinv.
    + destruct (update_river_rows db now river_id river_data)
        as [[e ->] | [[-> _] | (row & Hok & ->)]]; simpl; try exact Hinv.
      intros r Hr. apply in_map_iff in Hr as (r0 & <- & Hr0).
      destruct (River.id r0 =? river_id)%Z; [eapply Hrow, Hok | auto].
Qed.

(** ** Updating a river *)

Lemma update_river_existing (db : store) (now : string) (river_id : Z) (d : Py.dict) :
  List.existsb (fun r => (River.id r =? river_id)%Z) (rivers db) = true ->
  DatabaseManager.update_river db now river_id d
  = match DatabaseManager.checked_river_values d with
    | Ok row =>
        (set_rivers db
           (List.map (fun r => if (River.id r =? river_id)%Z
                               then row (River.id r) (River.date_added r) now else r) (rivers db))
           (seq_rivers db), Ok tt)
    | Raise e => (db, Raise e)
    end.
Proof.
  intros Hex. unfold DatabaseManager.update_river, DatabaseManager.checked_river_values.
  destruct (DatabaseManager.river_values d) as [values|e]; simpl; [|reflexivity].
  rewrite Hex. destruct (DatabaseManager.not_null_river values); reflexivity.
Qed.

Lemma find_map_preserved {A : Type} (p : A -> bool) (f : A -> A) (l : list A) :
  (forall x, p (f x) = p x) ->
  List.find p (List.map f l) = option_map f (List.find p l).
Proof.
  intros Hp. induction l as [|x l IH]; simpl; [reflexivity|].
  rewrite Hp. destruct (p x); [reflexivity | exact IH].
Qed.

(** C8, as the code has it.  For a river the store holds under [river_id]
    and any payload, [update_river] leaves the river's [id] and
    [date_added] as they were.  When the store accepts the payload (every
    value can be bound, name and location are not NULL) the update goes
    through and [last_updated] becomes the CURRENT_TIMESTAMP of the
    statement, later than the stored one whenever the clock reads later;
    when it does not, [update_river] raises the exception of the value or
    the constraint that failed, and the store, the river with it, is as
    before. *)
Theorem update_river_frame (db : store) (now : string) (river_id : Z) (river_data : Py.dict)
    (r : River.t) :
  DatabaseManager.get_river_by_id db river_id = Some r ->
  exists r',
    DatabaseManager.get_river_by_id
      (fst (DatabaseManager.update_river db now river_id river_data)) river_id = Some r' /\
    River.id r' = River.id r /\
    River.date_added r' = River.date_added r /\
    (Py.is_ok (DatabaseManager.checked_river_values river_data) = true ->
     snd (DatabaseManager.update_river db now river_id river_data) = Ok tt /\
     River.last_updated r' = now /\
     (Spec.earlier (River.last_updated r) now = true ->
      Spec.earlier (River.last_updated r) (River.last_updated r') = true)) /\
    (forall e,
        DatabaseManager.checked_river_values river_data = Raise e ->
        DatabaseManager.update_river db now river_id river_data = (db, Raise e) /\ r' = r).
Proof.
  unfold DatabaseManager.get_river_by_id. intros Hfind.
  assert (Hid : (River.id r =? river_id)%Z = true)
    by (apply find_some in Hfind; tauto).
  assert (Hex : List.existsb (fun r => (River.id r =? river_id)%Z) (rivers db) = true).
  { apply existsb_exists. exists r. apply find_some in Hfind. tauto. }
  rewrite (update_river_existing _ _ _ _ Hex).
  destruct (DatabaseManager.checked_river_values river_data) as [row|e] eqn:Hrow; simpl.
  - assert (Hfields : forall i a u,
               River.id (row i a u) = i /\ River.date_added (row i a u) = a /\
               River.last_updated (row i a u) = u).
    { intros i a u. destruct (checked_river_values_row _ _ i a u Hrow) as (_ & _ & H). exact H. }
    rewrite find_map_preserved.
    + rewrite Hfind. simpl. rewrite Hid.
      exists (row (River.id r) (River.date_added r) now).
      destruct (Hfields (River.id r) (River.date_added r) now) as (-> & -> & ->).
      repeat split; auto; discriminate.
    + intros x. destruct (River.id x =? river_id)%Z eqn:Hx; [|exact Hx].
      destruct (Hfields (River.id x) (River.date_added x) now) as (-> & _). exact Hx.
  - exists r. split; [exact Hfind|]. split; [reflexivity|]. split; [reflexivity|].
    split; [discriminate|]. intros e' [= <-]. split; reflexivity.
Qed.

(** ** The shape of an interchange document *)

(** C3, as the code has it.  [import_data] ends with an "Invalid File"
    dialog exactly when [json.load] finds the file malformed or its top
    level is not an object with a [rivers] key, and then the store is
    untouched.  A file that cannot be opened or decoded is not among them:
    it ends with the "Error" dialog, the store untouched as well.  A
    document with a [rivers] key and no [trips] key goes on to
    [import_rivers]; when that returns, the summary is shown with the trip
    counts 0 and 0, and when it raises, the import ends with the "Error"
    dialog, in both cases with the store [import_rivers] left. *)
Theorem invalid_format_when_checked (include_trip_logs : bool) (db : store)
    (rivers_clock trips_clock : nat -> string) (file : MainWindow.file_content) :
  Spec.invalid_format
    (snd (MainWindow.import_data include_trip_logs db rivers_clock trips_clock file))
  = Spec.invalid_as_checked file /\
  (Spec.invalid_as_checked file = true ->
   fst (MainWindow.import_data include_trip_logs db rivers_clock trips_clock file) = db) /\
  (forall e,
      file = MainWindow.Unreadable e ->
      MainWindow.import_data include_trip_logs db rivers_clock trips_clock file
      = (db, MainWindow.ImportFailed e)) /\
  (forall d rivers_data,
      file = MainWindow.Json (VDict d) ->
      Py.getitem d "rivers" = Some rivers_data ->
      Py.getitem d "trips" = None ->
      match MainWindow.import_rivers db rivers_clock rivers_data with
      | (db1, Ok (rivers_imported, rivers_skipped)) =>
          fst (MainWindow.import_data include_trip_logs db rivers_clock trips_clock file) = db1 /\
          MainWindow.summary
            (snd (MainWindow.import_data include_trip_logs db rivers_clock trips_clock file))
          = Some (rivers_imported, rivers_skipped, 0, 0)
      | (db1, Raise e) =>
          MainWindow.import_data include_trip_logs db rivers_clock trips_clock file
          = (db1, MainWindow.ImportFailed e)
      end).
Proof.
  split; [|split; [|split]].
  - destruct file as [e| |[]]; try reflexivity. simpl.
    destruct (Py.contains kvs "rivers"); [simpl | reflexivity].
    destruct (MainWindow.import_rivers _ _ _) as [db1 [[i s]|e]]; [|reflexivity].
    unfold MainWindow.show_summary.
    destruct (include_trip_logs && Py.truthy _).
    + destruct (MainWindow.import_trips _ _ _) as [db2 [[ti ts]|e]]; [|reflexivity].
      destruct (MainWindow.refresh_views db2); reflexivity.
    + destruct (negb include_trip_logs && Py.truthy _);
        [destruct (Py.len _); [|reflexivity]|];
        destruct (MainWindow.refresh_views db1); reflexivity.
  - destruct file as [e| |[]]; try reflexivity. simpl.
    destruct (Py.contains kvs "rivers"); [discriminate | reflexivity].
  - intros e ->. reflexivity.
  - intros d rivers_data -> Hrivers Htrips. simpl. unfold Py.contains, Py.get.
    rewrite Hrivers, Htrips. simpl.
    destruct (MainWindow.import_rivers _ _ _) as [db1 [[i s]|e]]; [|reflexivity].
    rewrite !andb_false_r. unfold MainWindow.show_summary.
    destruct (MainWindow.refresh_views db1); split; reflexivity.
Qed.

(** ** Rendering an integer *)

Lemma string_of_uint_no_bar (d : Decimal.uint) :
  Py.mem_char Py.bar (NilEmpty.string_of_uint d) = false.
Proof. induction d; simpl; try assumption; reflexivity. Qed.

Lemma str_of_Z_no_bar (z : Z) : Py.mem_char Py.bar (Py.str_of_Z z) = false.
Proof.
  unfold Py.str_of_Z, NilZero.string_of_int, NilZero.string_of_uint.
  destruct (Z.to_int z) as [d|d]; destruct d;
    try reflexivity; try apply (string_of_uint_no_bar (_ _));
    simpl; try apply string_of_uint_no_bar.
Qed.

Lemma str_of_Z_inj (a b : Z) : Py.str_of_Z a = Py.str_of_Z b -> a = b.
Proof.
  unfold Py.str_of_Z. intros H.
  assert (Hnil : forall z, Z.to_int z <> Decimal.Pos Decimal.Nil /\
                           Z.to_int z <> Decimal.Neg Decimal.Nil).
  { intros z. split; intros E; pose proof (of_to z) as Hz; rewrite E in Hz;
      simpl in Hz; subst z; discriminate. }
  apply to_int_inj.
  assert (Some (Z.to_int a) = Some (Z.to_int b)) as [= ->]; [|reflexivity].
  rewrite <- (NilZero.isi (Z.to_int a)) by apply Hnil.
  rewrite <- (NilZero.isi (Z.to_int b)) by apply Hnil.
  rewrite H. reflexivity.
Qed.

Lemma app_sep_inj (b : ascii) (u v s t : string) :
  Py.mem_char b u = false -> Py.mem_char b v = false ->
  u ++ String b s = v ++ String b t -> u = v /\ s = t.
Proof.
  revert v. induction u as [|c u IH]; intros [|c' v] Hu Hv H; simpl in *.
  - injection H as ->. auto.
  - injection H as <- _. rewrite Ascii.eqb_refl in Hv. discriminate.
  - injection H as -> _. rewrite Ascii.eqb_refl in Hu. discriminate.
  - injection H as -> H. apply orb_false_elim in Hu as [_ Hu]. apply orb_false_elim in Hv as [_ Hv].
    destruct (IH v Hu Hv H) as [-> ->]. auto.
Qed.

Lemma trip_identifier_inj (i j : Z) (s t : string) :
  Py.str (VInt i) ++ "|" ++ s = Py.str (VInt j) ++ "|" ++ t -> i = j /\ s = t.
Proof.
  simpl. intros H. apply (app_sep_inj Py.bar) in H as [H ->]; try apply str_of_Z_no_bar.
  split; [apply str_of_Z_inj, H | reflexivity].
Qed.

(** ** Values the store can bind *)

Lemma bind_to_py (v : sqlval) : Sql.storable v = true -> Sql.bind (Sql.to_py v) = Ok v.
Proof.
  destruct v as [|z|x|s]; simpl; intros H; try reflexivity.
  - rewrite H. reflexivity.
  - destruct (Py.float_value_of x); [discriminate | reflexivity ..].
Qed.

Lemma bindable_to_py (v : sqlval) : Sql.storable v = true -> bindable (Sql.to_py v) = true.
Proof. intros H. unfold bindable. rewrite (bind_to_py v H). reflexivity. Qed.

Lemma bindable_int (z : Z) : Sql.int64 z = true -> bindable (VInt z) = true.
Proof. intros H. unfold bindable. simpl. rewrite H. reflexivity. Qed.

Lemma all_bindable_getitem (d : Py.dict) (k : string) (v : Py.value) :
  all_bindable d -> Py.getitem d k = Some v -> bindable v = true.
Proof.
  unfold all_bindable. induction 1 as [|[k0 v0] d Hv Hd IH]; simpl; [discriminate|].
  destruct (String.eqb k0 k); [intros [= <-]; exact Hv | exact IH].
Qed.

Lemma all_bindable_delitem (d : Py.dict) (k : string) :
  all_bindable d -> all_bindable (Py.delitem d k).
Proof.
  unfold all_bindable. induction 1 as [|[k0 v0] d Hv Hd IH]; simpl; [constructor|].
  destruct (String.eqb k0 k); [exact IH | constructor; assumption].
Qed.

Lemma all_bindable_remove_field (d : Py.dict) (k : string) :
  all_bindable d -> all_bindable (MainWindow.remove_field d k).
Proof.
  intros H. unfold MainWindow.remove_field.
  destruct (Py.contains d k); [apply all_bindable_delitem|]; exact H.
Qed.

Lemma all_bindable_setitem (d : Py.dict) (k : string) (v : Py.value) :
  all_bindable d -> bindable v = true -> all_bindable (Py.setitem d k v).
Proof.
  unfold all_bindable. intros H Hv. induction H as [|[k0 v0] d Hv0 Hd IH]; simpl.
  - constructor; [exact Hv | constructor].
  - destruct (String.eqb k0 k); constructor; try assumption.
    apply all_bindable_delitem. exact Hd.
Qed.

Lemma bind_get_ok (d : Py.dict) (k : string) (default : Py.value) :
  all_bindable d -> bindable default = true ->
  exists v, Sql.bind (Py.get d k default) = Ok v.
Proof.
  intros Hd Hdef. unfold Py.get.
  destruct (Py.getitem d k) as [x|] eqn:E.
  - apply (all_bindable_getitem _ _ _ Hd) in E. unfold bindable in E.
    destruct (Sql.bind x); [eauto | discriminate].
  - unfold bindable in Hdef. destruct (Sql.bind default); [eauto | discriminate].
Qed.

Ltac bind_gets d Hd :=
  repeat match goal with
  | |- context [Sql.bind (Py.get d ?k ?default)] =>
      let v := fresh "v" in
      destruct (bind_get_ok d k default Hd eq_refl) as [v ->]
  end.

Lemma checked_river_values_ok (d : Py.dict) (name location : string) :
  all_bindable d ->
  Py.get d "name" (VStr "") = VStr name ->
  Py.get d "location" (VStr "") = VStr location ->
  exists row, DatabaseManager.checked_river_values d = Ok row.
Proof.
  intros Hd Hname Hloc.
  unfold DatabaseManager.checked_river_values, DatabaseManager.river_values.
  rewrite Hname, Hloc. simpl. bind_gets d Hd. simpl. eauto.
Qed.

Lemma trip_values_ok (d : Py.dict) (trip_date : sqlval) :
  all_bindable d ->
  Py.get d "trip_date" VNone = Sql.to_py trip_date ->
  Sql.storable trip_date = true ->
  trip_date <> SqlNull ->
  exists row, DatabaseManager.trip_values d = Ok row.
Proof.
  intros Hd Hdate Hstored Hnull. unfold DatabaseManager.trip_values.
  rewrite Hdate, (bind_to_py _ Hstored). bind_gets d Hd. simpl.
  destruct trip_date; [congruence | simpl; eauto ..].
Qed.

Ltac in_columns := simpl; repeat first [left; reflexivity | right].

Lemma all_bindable_river (r : River.t) :
  Sql.int64 (River.id r) = true ->
  Forall (fun v => Sql.storable v = true) (River.columns r) ->
  all_bindable (River.to_dict r).
Proof.
  intros Hid Hcols. rewrite List.Forall_forall in Hcols.
  unfold all_bindable, River.to_dict.
  repeat constructor; simpl; try reflexivity;
    [apply bindable_int, Hid | apply bindable_to_py, Hcols; in_columns ..].
Qed.

Lemma all_bindable_trip_row (row : TripRow.t) :
  Sql.int64 (Trip.id (TripRow.trip row)) = true ->
  Forall (fun v => Sql.storable v = true) (Trip.columns (TripRow.trip row)) ->
  all_bindable (TripRow.to_dict row).
Proof.
  intros Hid Hcols. rewrite List.Forall_forall in Hcols.
  unfold all_bindable, TripRow.to_dict, Trip.to_dict. simpl.
  repeat constructor; simpl; try reflexivity;
    [apply bindable_int, Hid | apply bindable_to_py, Hcols; in_columns ..].
Qed.

(** ** Importing what was exported: one record *)

Lemma import_exported_river (now : string) (st : MainWindow.loop_state) (r : River.t) :
  Sql.int64 (River.id r) = true ->
  Forall (fun v => Sql.storable v = true) (River.columns r) ->
  MainWindow.river_identifier r ∉ MainWindow.identifiers st ->
  exists r',
    MainWindow.import_river now st (VDict (River.to_dict r))
    = Ok (MainWindow.imported st
            (set_rivers (MainWindow.st_db st) (rivers (MainWindow.st_db st) ++ [r'])
               (seq_rivers (MainWindow.st_db st) + 1)%Z)
            (MainWindow.river_identifier r)) /\
    River.name r' = River.name r /\
    River.id r' = (seq_rivers (MainWindow.st_db st) + 1)%Z.
Proof.
  intros Hid Hcols Hnew.
  rewrite (import_river_attempt now st (River.to_dict r) (MainWindow.river_identifier r));
    [|reflexivity|exact Hnew].
  destruct (checked_river_values_ok (MainWindow.strip_river (River.to_dict r))
              (River.name r) (River.location r)) as [row Hrow];
    [repeat apply all_bindable_remove_field; apply all_bindable_river; assumption
    |reflexivity|reflexivity|].
  unfold DatabaseManager.add_river, DatabaseManager.insert_river. rewrite Hrow. simpl.
  set (r' := row (seq_rivers (MainWindow.st_db st) + 1)%Z now now).
  destruct (checked_river_values_row _ _ (seq_rivers (MainWindow.st_db st) + 1)%Z now now Hrow)
    as (Hn & _ & Hi & _).
  fold r' in Hn, Hi. exists r'. rewrite Hi. split; [reflexivity|]. split; [|reflexivity].
  apply text_not_null_str in Hn. exact Hn.
Qed.

Lemma import_exported_trip (m : gmap string Z) (now : string) (st : MainWindow.loop_state)
    (row : TripRow.t) (new_river_id : Z) :
  Sql.int64 new_river_id = true ->
  Sql.int64 (Trip.id (TripRow.trip row)) = true ->
  Forall (fun v => Sql.storable v = true) (Trip.columns (TripRow.trip row)) ->
  m !! Py.strip (Py.lower (TripRow.river_name row)) = Some new_river_id ->
  Trip.trip_date (TripRow.trip row) <> SqlNull ->
  Py.str (VInt new_river_id) ++ "|" ++ Py.str (Sql.to_py (Trip.trip_date (TripRow.trip row)))
    ∉ MainWindow.identifiers st ->
  exists t,
    MainWindow.import_trip m now st (VDict (TripRow.to_dict row))
    = Ok (MainWindow.imported st
            (set_trip_logs (MainWindow.st_db st) (trip_logs (MainWindow.st_db st) ++ [t])
               (Trip.id t))
            (Py.str (VInt new_river_id) ++ "|"
             ++ Py.str (Sql.to_py (Trip.trip_date (TripRow.trip row))))).
Proof.
  intros Hrid Hid Hcols Hm Hdate Hnew.
  rewrite (import_trip_attempt m now st (TripRow.to_dict row)
             (Py.strip (Py.lower (TripRow.river_name row))) new_river_id);
    [|reflexivity|exact Hm|exact Hnew].
  destruct (trip_values_ok (MainWindow.strip_trip (TripRow.to_dict row) new_river_id)
              (Trip.trip_date (TripRow.trip row))) as [mk Hmk];
    [|reflexivity| |exact Hdate|].
  { unfold MainWindow.strip_trip. cbn [foldl].
    repeat apply all_bindable_remove_field.
    apply all_bindable_setitem;
      [apply all_bindable_trip_row; assumption | apply bindable_int, Hrid]. }
  { rewrite List.Forall_forall in Hcols. apply Hcols. in_columns. }
  unfold DatabaseManager.add_trip_log, DatabaseManager.insert_trip_log. rewrite Hmk. simpl.
  eexists. reflexivity.
Qed.

(** ** Importing what was exported: the batch *)

Lemma set_rivers_same (db : store) : set_rivers db (rivers db ++ []) (seq_rivers db + Z.of_nat 0)%Z = db.
Proof. destruct db. unfold set_rivers. simpl. rewrite app_nil_r, Z.add_0_r. reflexivity. Qed.

Lemma import_exported_rivers (clock : nat -> string) (rs : list River.t) :
  (forall r, In r rs -> Sql.int64 (River.id r) = true /\
                        Forall (fun v => Sql.storable v = true) (River.columns r)) ->
  forall (i : nat) (st : MainWindow.loop_state),
    List.NoDup (List.map MainWindow.river_identifier rs) ->
    (forall r, In r rs -> MainWindow.river_identifier r ∉ MainWindow.identifiers st) ->
    exists new,
      MainWindow.for_each MainWindow.import_river clock i st
        (List.map (fun r => VDict (River.to_dict r)) rs)
      = (set_rivers (MainWindow.st_db st) (rivers (MainWindow.st_db st) ++ new)
           (seq_rivers (MainWindow.st_db st) + Z.of_nat (List.length rs))%Z,
         Ok (MainWindow.imported_count st + List.length rs, MainWindow.skipped_count st)) /\
      List.map River.name new = List.map River.name rs /\
      List.NoDup (List.map River.id new) /\
      (forall r, In r new ->
                 (seq_rivers (MainWindow.st_db st) < River.id r
                  <= seq_rivers (MainWindow.st_db st) + Z.of_nat (List.length rs))%Z).
Proof.
  induction rs as [|r rs IH]; intros Hvalues i st Hdup Hnew.
  - exists []. simpl. rewrite set_rivers_same, Nat.add_0_r.
    repeat split; try constructor; destruct H.
  - apply NoDup_cons_iff in Hdup as [Hr Hdup].
    destruct (Hvalues r (or_introl eq_refl)) as [Hrid Hcols].
    destruct (import_exported_river (clock i) st r Hrid Hcols) as (r' & Hstep & Hname & Hid);
      [apply Hnew; left; reflexivity|].
    simpl. rewrite Hstep.
    destruct (IH (fun r0 Hr0 => Hvalues r0 (or_intror Hr0)) (i + 1) (MainWindow.imported st
                    (set_rivers (MainWindow.st_db st) (rivers (MainWindow.st_db st) ++ [r'])
                       (seq_rivers (MainWindow.st_db st) + 1)%Z)
                    (MainWindow.river_identifier r)) Hdup)
      as (new & -> & Hnames & Hids & Hlt).
    { intros r0 Hr0. simpl. rewrite elem_of_union, elem_of_singleton.
      intros [Heq | Hin].
      - apply Hr. apply in_map_iff. exists r0. split; [exact Heq | exact Hr0].
      - revert Hin. apply Hnew. right. exact Hr0. }
    simpl in Hlt. exists (r' :: new). split; [|split; [|split]].
    + unfold set_rivers. simpl. rewrite <- app_assoc. simpl.
      replace (seq_rivers (MainWindow.st_db st) + 1 + Z.of_nat (List.length rs))%Z
        with (seq_rivers (MainWindow.st_db st) + Z.pos (Pos.of_succ_nat (List.length rs)))%Z by lia.
      replace (MainWindow.imported_count st + 1 + List.length rs)
        with (MainWindow.imported_count st + S (List.length rs)) by lia.
      reflexivity.
    + simpl. rewrite Hname, Hnames. reflexivity.
    + simpl. constructor; [|exact Hids]. rewrite Hid. intros Hin.
      apply in_map_iff in Hin as (r0 & Hr0 & Hin). apply Hlt in Hin. lia.
    + intros r0 [<- | Hr0]; [lia|]. apply Hlt in Hr0. lia.
Qed.

Lemma import_exported_trips (m : gmap string Z) (clock : nat -> string)
    (new_id : TripRow.t -> Z) (rows : list TripRow.t) :
  forall (i : nat) (st : MainWindow.loop_state),
    (forall row, In row rows ->
                 m !! Py.strip (Py.lower (TripRow.river_name row)) = Some (new_id row) /\
                 Trip.trip_date (TripRow.trip row) <> SqlNull /\
                 Sql.int64 (new_id row) = true /\
                 Sql.int64 (Trip.id (TripRow.trip row)) = true /\
                 Forall (fun v => Sql.storable v = true) (Trip.columns (TripRow.trip row))) ->
    List.NoDup (List.map (fun row => Py.str (VInt (new_id row)) ++ "|"
                                ++ Py.str (Sql.to_py (Trip.trip_date (TripRow.trip row)))) rows) ->
    (forall row, In row rows ->
                 Py.str (VInt (new_id row)) ++ "|"
                 ++ Py.str (Sql.to_py (Trip.trip_date (TripRow.trip row)))
                   ∉ MainWindow.identifiers st) ->
    exists db',
      MainWindow.for_each (MainWindow.import_trip m) clock i st
        (List.map (fun row => VDict (TripRow.to_dict row)) rows)
      = (db', Ok (MainWindow.imported_count st + List.length rows, MainWindow.skipped_count st)) /\
      rivers db' = rivers (MainWindow.st_db st) /\
      List.length (trip_logs db')
      = List.length (trip_logs (MainWindow.st_db st)) + List.length rows.
Proof.
  induction rows as [|row rows IH]; intros i st Hres Hdup Hnew.
  - exists (MainWindow.st_db st). simpl. rewrite !Nat.add_0_r. auto.
  - apply NoDup_cons_iff in Hdup as [Hrow Hdup].
    destruct (Hres row (or_introl eq_refl)) as (Hm & Hdate & Hrid & Hid & Hcols).
    destruct (import_exported_trip m (clock i) st row (new_id row) Hrid Hid Hcols Hm Hdate)
      as (t & Hstep);
      [apply Hnew; left; reflexivity|].
    simpl. rewrite Hstep.
    destruct (IH (i + 1) (MainWindow.imported st
                    (set_trip_logs (MainWindow.st_db st)
                       (trip_logs (MainWindow.st_db st) ++ [t]) (Trip.id t))
                    (Py.str (VInt (new_id row)) ++ "|"
                     ++ Py.str (Sql.to_py (Trip.trip_date (TripRow.trip row))))))
      as (db' & -> & Hrivers & Hlen).
    { intros row0 Hrow0. apply Hres. right. exact Hrow0. }
    { exact Hdup. }
    { intros row0 Hrow0. simpl. rewrite elem_of_union, elem_of_singleton.
      intros [Heq | Hin].
      - apply Hrow. apply in_map_iff. exists row0. split; [exact Heq | exact Hrow0].
      - revert Hin. apply Hnew. right. exact Hrow0. }
    exists db'. simpl in *. split; [|split].
    + replace (MainWindow.imported_count st + 1 + List.length rows)
        with (MainWindow.imported_count st + S (List.length rows)) by lia.
      reflexivity.
    + exact Hrivers.
    + rewrite Hlen, length_app. simpl. lia.
Qed.

(** ** One row of the JOIN for each trip log *)

Lemma filter_unique_id (l : list River.t) (r : River.t) :
  List.NoDup (List.map River.id l) -> In r l ->
  List.filter (fun r' => Sql.eq_int (SqlInt (River.id r)) (River.id r')) l = [r].
Proof.
  induction l as [|x l IH]; intros Hdup Hin; [destruct Hin|].
  simpl in Hdup. apply NoDup_cons_iff in Hdup as [Hx Hdup]. simpl.
  destruct Hin as [-> | Hin].
  - rewrite Z.eqb_refl. f_equal.
    clear IH Hdup. induction l as [|y l IH]; simpl; [reflexivity|].
    destruct (Z.eqb_spec (River.id r) (River.id y)) as [E|E].
    + exfalso. apply Hx. left. symmetry. exact E.
    + apply IH. intros H. apply Hx. right. exact H.
  - destruct (Z.eqb_spec (River.id r) (River.id x)) as [E|E].
    + exfalso. apply Hx. rewrite <- E. apply in_map. exact Hin.
    + apply IH; assumption.
Qed.

Lemma join_rivers_length (db : store) :
  Spec.referential_integrity db ->
  List.length (DatabaseManager.join_rivers db) = List.length (trip_logs db).
Proof.
  intros [Hdup Href]. unfold DatabaseManager.join_rivers.
  induction (trip_logs db) as [|t ts IH]; simpl; [reflexivity|].
  rewrite length_app, IH by (intros t' Ht'; apply Href; right; exact Ht').
  destruct (Href t (or_introl eq_refl)) as (_ & r & Hr & ->).
  rewrite (filter_unique_id _ _ Hdup Hr). reflexivity.
Qed.

Lemma NoDup_map_injective_in {A B : Type} (f : A -> B) (l : list A) :
  (forall x y, In x l -> In y l -> f x = f y -> x = y) ->
  List.NoDup l -> List.NoDup (List.map f l).
Proof.
  intros Hinj Hdup. induction Hdup as [|x l Hx Hdup IH]; simpl; constructor.
  - intros Hin. apply in_map_iff in Hin as (y & Hy & Hin).
    assert (y = x) as -> by (apply Hinj; [right; exact Hin | left; reflexivity | exact Hy]).
    exact (Hx Hin).
  - apply IH. intros a b Ha Hb. apply Hinj; right; assumption.
Qed.

Lemma NoDup_map_eq {A B : Type} (f : A -> B) (l : list A) (x y : A) :
  List.NoDup (List.map f l) -> In x l -> In y l -> f x = f y -> x = y.
Proof.
  induction l as [|a l IH]; simpl; intros Hdup Hx Hy Hf; [destruct Hx|].
  apply NoDup_cons_iff in Hdup as [Ha Hdup].
  destruct Hx as [-> | Hx], Hy as [-> | Hy]; auto.
  - exfalso. apply Ha. rewrite Hf. apply in_map. exact Hy.
  - exfalso. apply Ha. rewrite <- Hf. apply in_map. exact Hx.
Qed.

(** ** The whole document *)

Lemma import_data_with_trips (db db1 db2 : store) (rivers_clock trips_clock : nat -> string)
    (d : Py.dict) (rivers_data trips_data : Py.value) (ri rs ti ts : nat) :
  Py.getitem d "rivers" = Some rivers_data ->
  Py.getitem d "trips" = Some trips_data ->
  Py.truthy trips_data = true ->
  MainWindow.import_rivers db rivers_clock rivers_data = (db1, Ok (ri, rs)) ->
  MainWindow.import_trips db1 trips_clock trips_data = (db2, Ok (ti, ts)) ->
  MainWindow.import_data true db rivers_clock trips_clock (MainWindow.Json (VDict d))
  = MainWindow.show_summary db2 ri rs ti ts.
Proof.
  intros Hr Ht Htruthy Hrivers Htrips. simpl. unfold Py.contains, Py.get.
  rewrite Hr, Ht. simpl. rewrite Hrivers, Htruthy, Htrips. reflexivity.
Qed.

Lemma import_data_no_trips (db db1 : store) (rivers_clock trips_clock : nat -> string)
    (d : Py.dict) (rivers_data trips_data : Py.value) (ri rs : nat) :
  Py.getitem d "rivers" = Some rivers_data ->
  Py.getitem d "trips" = Some trips_data ->
  Py.truthy trips_data = false ->
  MainWindow.import_rivers db rivers_clock rivers_data = (db1, Ok (ri, rs)) ->
  MainWindow.import_data true db rivers_clock trips_clock (MainWindow.Json (VDict d))
  = MainWindow.show_summary db1 ri rs 0 0.
Proof.
  intros Hr Ht Htruthy Hrivers. simpl. unfold Py.contains, Py.get.
  rewrite Hr, Ht. simpl. rewrite Hrivers, Htruthy. reflexivity.
Qed.

Lemma show_summary_shown (db : store) (ri rs ti ts : nat) :
  fst (MainWindow.show_summary db ri rs ti ts) = db /\
  MainWindow.summary (snd (MainWindow.show_summary db ri rs ti ts)) = Some (ri, rs, ti, ts).
Proof.
  unfold MainWindow.show_summary. destruct (MainWindow.refresh_views db); split; reflexivity.
Qed.

Lemma import_exported_rivers_into_empty (clock : nat -> string) (db : store) :
  sqlite_values db ->
  List.NoDup (List.map MainWindow.river_identifier (rivers db)) ->
  exists new,
    MainWindow.import_rivers empty_store clock
      (VList (List.map (fun r => VDict (River.to_dict r)) (DatabaseManager.get_all_rivers db)))
    = (set_rivers empty_store new (Z.of_nat (List.length (rivers db))),
       Ok (List.length (rivers db), 0)) /\
    Permutation (List.map River.name new) (List.map River.name (rivers db)) /\
    List.NoDup (List.map River.id new) /\
    (forall r, In r new -> (0 < River.id r <= Z.of_nat (List.length (rivers db)))%Z).
Proof.
  intros [Hvalues _] Hdup. unfold MainWindow.import_rivers. simpl Py.iter. cbv iota.
  pose proof (order_by_Permutation
                (fun a b => String.leb (River.name a) (River.name b)) (rivers db)) as Hperm.
  fold (DatabaseManager.get_all_rivers db) in Hperm.
  edestruct (import_exported_rivers clock (DatabaseManager.get_all_rivers db))
    with (i := 0) as (new & -> & Hnames & Hids & Hbound).
  - intros r Hr. apply Hvalues, In_get_all_rivers, Hr.
  - eapply Permutation_NoDup; [|exact Hdup]. apply Permutation_map. symmetry. exact Hperm.
  - intros r _. simpl. apply not_elem_of_empty.
  - exists new. simpl in *. rewrite (Permutation_length Hperm) in *.
    split; [reflexivity|]. split; [|split; [exact Hids | exact Hbound]].
    rewrite Hnames. apply Permutation_map. exact Hperm.
Qed.

Lemma import_exported_trips_into (clock : nat -> string) (db db1 : store) (new : list River.t)
    (seq : Z) :
  db1 = set_rivers empty_store new seq ->
  Spec.referential_integrity db ->
  sqlite_values db ->
  List.NoDup (List.map Spec.trip_natural_key (DatabaseManager.join_rivers db)) ->
  Permutation (List.map River.name new) (List.map River.name (rivers db)) ->
  List.NoDup (List.map River.id new) ->
  (forall r, In r new -> Sql.int64 (River.id r) = true) ->
  exists db2,
    MainWindow.import_trips db1 clock
      (VList (List.map (fun row => VDict (TripRow.to_dict row))
                (DatabaseManager.get_trip_logs db None)))
    = (db2, Ok (List.length (trip_logs db), 0)) /\
    rivers db2 = new /\
    List.length (trip_logs db2) = List.length (trip_logs db).
Proof.
  intros -> Hint [_ Hvalues] Hkeys Hnames Hids Hint64.
  set (db1 := set_rivers empty_store new seq).
  set (m := MainWindow.river_name_to_id db1).
  set (rows := DatabaseManager.get_trip_logs db None).
  assert (Hperm : Permutation rows (DatabaseManager.join_rivers db))
    by apply order_by_Permutation.
  assert (Hres : forall row, In row rows ->
             m !! Py.strip (Py.lower (TripRow.river_name row))
             = Some (default 0%Z (m !! Py.strip (Py.lower (TripRow.river_name row)))) /\
             Trip.trip_date (TripRow.trip row) <> SqlNull /\
             Sql.int64 (default 0%Z (m !! Py.strip (Py.lower (TripRow.river_name row)))) = true /\
             Sql.int64 (Trip.id (TripRow.trip row)) = true /\
             Forall (fun v => Sql.storable v = true) (Trip.columns (TripRow.trip row))).
  { intros row Hrow. apply (Permutation_in _ Hperm) in Hrow.
    apply In_join_rivers in Hrow as (t & r & Ht & Hr & _ & ->). simpl.
    destruct (m !! Py.strip (Py.lower (River.name r))) as [i|] eqn:E.
    - split; [reflexivity|]. split; [apply (proj2 Hint t Ht)|]. split; [|apply Hvalues, Ht].
      apply river_name_to_id_Some in E as (r' & Hr' & _ & <-). apply Hint64, Hr'.
    - exfalso. assert (Hin : In (River.name r) (List.map River.name new)).
      { apply (Permutation_in _ (Permutation_sym Hnames)). apply in_map. exact Hr. }
      apply in_map_iff in Hin as (r' & Hname & Hr').
      apply (proj1 (river_name_to_id_None db1 _) E r'); [exact Hr' | rewrite Hname; reflexivity]. }
  unfold MainWindow.import_trips. simpl Py.iter. cbv iota. fold m. fold rows.
  edestruct (import_exported_trips m clock
               (fun row => default 0%Z (m !! Py.strip (Py.lower (TripRow.river_name row)))) rows 0)
    as (db2 & -> & Hrivers & Hlen).
  - exact Hres.
  - change (List.NoDup
              (List.map (fun row =>
                   (fun p : string * string =>
                      Py.str (VInt (default 0%Z (m !! fst p))) ++ "|" ++ snd p)
                     (Spec.trip_natural_key row)) rows)).
    rewrite <- (List.map_map Spec.trip_natural_key).
    apply NoDup_map_injective_in.
    + intros p q Hp Hq Heq.
      apply in_map_iff in Hp as (rp & <- & Hrp). apply in_map_iff in Hq as (rq & <- & Hrq).
      destruct (Hres rp Hrp) as [Hmp _]. destruct (Hres rq Hrq) as [Hmq _].
      unfold Spec.trip_natural_key in *. simpl fst in *. simpl snd in *.
      apply trip_identifier_inj in Heq as [Hid Hdate].
      rewrite <- Hid in Hmq.
      apply river_name_to_id_Some in Hmp as (r1 & Hr1 & Hk1 & Hi1).
      apply river_name_to_id_Some in Hmq as (r2 & Hr2 & Hk2 & Hi2).
      assert (r1 = r2) as ->.
      { apply (NoDup_map_eq River.id new); [exact Hids | exact Hr1 | exact Hr2 | congruence]. }
      rewrite <- Hk1, <- Hk2, Hdate. reflexivity.
    + eapply Permutation_NoDup; [|exact Hkeys]. apply Permutation_map. symmetry. exact Hperm.
  - intros row _. simpl. apply not_elem_of_empty.
  - exists db2. simpl in *.
    assert (Hl : List.length rows = List.length (trip_logs db)).
    { rewrite (Permutation_length Hperm). apply join_rivers_length. exact Hint. }
    rewrite Hl in *. repeat split; assumption.
Qed.

(** C2, as the code has it.  For a store of fewer than 2^63 rivers that
    holds values SQLite stores and satisfies the constraints of its
    schema, and in which no two rivers have one identifier [name|location]
    and no two trips one natural key, exporting with trip logs and
    importing the document into the empty store, trip logs enabled, shows
    the summary with every river and every trip log imported and nothing
    skipped, and leaves a store with as many rivers and as many trip logs
    as the original. *)
Theorem export_import_round_trip (db : store) (export_date : string)
    (rivers_clock trips_clock : nat -> string) :
  (Z.of_nat (List.length (rivers db)) < 2 ^ 63)%Z ->
  sqlite_values db ->
  Spec.referential_integrity db ->
  Spec.distinct_natural_keys db ->
  let out :=
    MainWindow.import_data true empty_store rivers_clock trips_clock
      (MainWindow.Json (MainWindow.export_data true db export_date)) in
  MainWindow.summary (snd out)
  = Some (List.length (rivers db), 0, List.length (trip_logs db), 0) /\
  List.length (rivers (fst out)) = List.length (rivers db) /\
  List.length (trip_logs (fst out)) = List.length (trip_logs db).
Proof.
  intros Hcount Hvalues Hint [Hrivers Htrips] out.
  destruct (import_exported_rivers_into_empty rivers_clock db Hvalues Hrivers)
    as (new & Himp & Hnames & Hids & Hbound).
  assert (Hnew : List.length new = List.length (rivers db)).
  { rewrite <- (length_map River.name new), (Permutation_length Hnames). apply length_map. }
  assert (Hint64 : forall r, In r new -> Sql.int64 (River.id r) = true).
  { intros r Hr. apply Hbound in Hr. unfold Sql.int64.
    apply andb_true_iff. split; [apply Z.leb_le | apply Z.ltb_lt]; lia. }
  destruct (import_exported_trips_into trips_clock db _ new
              (Z.of_nat (List.length (rivers db))) eq_refl Hint Hvalues Htrips Hnames Hids Hint64)
    as (db2 & Himp2 & Hr2 & Hl2).
  revert out.
  change (MainWindow.export_data true db export_date)
    with (VDict [("rivers", VList (List.map (fun r => VDict (River.to_dict r))
                                     (DatabaseManager.get_all_rivers db)));
                 ("export_date", VStr export_date);
                 ("includes_trip_logs", VBool true);
                 ("trips", VList (List.map (fun row => VDict (TripRow.to_dict row))
                                    (DatabaseManager.get_trip_logs db None)))]).
  destruct (DatabaseManager.get_trip_logs db None) as [|row rows] eqn:Hrows; intros out.
  - assert (Hl : List.length (trip_logs db) = 0).
    { rewrite <- (join_rivers_length db Hint).
      rewrite <- (Permutation_length
                    (order_by_Permutation
                       (fun a b => Sql.leb (Trip.trip_date (TripRow.trip b))
                                     (Trip.trip_date (TripRow.trip a)))
                       (DatabaseManager.join_rivers db))).
      change (List.length (DatabaseManager.get_trip_logs db None) = 0).
      rewrite Hrows. reflexivity. }
    rewrite Hl. subst out.
    erewrite import_data_no_trips; [|reflexivity | reflexivity | reflexivity | exact Himp].
    destruct (show_summary_shown (set_rivers empty_store new (Z.of_nat (List.length (rivers db))))
                (List.length (rivers db)) 0 0 0) as [-> ->].
    split; [reflexivity|]. split; [exact Hnew | reflexivity].
  - subst out.
    erewrite import_data_with_trips;
      [|reflexivity | reflexivity | reflexivity | exact Himp | exact Himp2].
    destruct (show_summary_shown db2 (List.length (rivers db)) 0 (List.length (trip_logs db)) 0)
      as [-> ->].
    split; [reflexivity|]. split; [rewrite Hr2; exact Hnew | exact Hl2].
Qed.

(** * Further properties *)

(** ** The loop, with the records it visits *)

Lemma for_each_invariant_in (P : MainWindow.loop_state -> Prop)
    (body : string -> MainWindow.loop_state -> Py.value -> Py.result MainWindow.loop_state)
    (clock : nat -> string) (items : list Py.value) :
  (forall now st x st', In x items -> P st -> body now st x = Ok st' -> P st') ->
  forall i st db' res,
    P st -> MainWindow.for_each body clock i st items = (db', res) ->
    exists st', P st' /\ MainWindow.st_db st' = db' /\
                (res = Ok (MainWindow.imported_count st', MainWindow.skipped_count st') \/
                 exists e, res = Raise e).
Proof.
  induction items as [|x items IH]; intros Hstep i st db' res HP H; simpl in H.
  - injection H as <- <-. exists st. auto.
  - destruct (body (clock i) st x) as [st1|e] eqn:Hbody.
    + eapply IH; [|eapply Hstep; [left; reflexivity|exact HP|exact Hbody]|exact H].
      intros now st0 x0 st0' Hin. apply Hstep. right. exact Hin.
    + injection H as <- <-. exists st. eauto.
Qed.

Lemma for_each_counts
    (body : string -> MainWindow.loop_state -> Py.value -> Py.result MainWindow.loop_state)
    (clock : nat -> string) :
  (forall now st x st',
      body now st x = Ok st' ->
      MainWindow.imported_count st' + MainWindow.skipped_count st'
      = MainWindow.imported_count st + MainWindow.skipped_count st + 1) ->
  forall items i st db' a b,
    MainWindow.for_each body clock i st items = (db', Ok (a, b)) ->
    a + b = MainWindow.imported_count st + MainWindow.skipped_count st + List.length items.
Proof.
  intros Hstep. induction items as [|x items IH]; intros i st db' a b H; simpl in H.
  - injection H as _ <- <-. simpl. lia.
  - destruct (body (clock i) st x) as [st1|e] eqn:Hbody; [|discriminate].
    apply IH in H. apply Hstep in Hbody. simpl. lia.
Qed.

(** ** One turn of the river loop, read backwards *)

Lemma incoming_river_identifier_fields (d : Py.dict) (k : string) :
  MainWindow.incoming_river_identifier (VDict d) = Ok k ->
  exists name location,
    Py.get d "name" (VStr "") = VStr name /\
    Py.get d "location" (VStr "") = VStr location /\
    k = Py.strip (Py.lower name) ++ "|" ++ Py.strip (Py.lower location).
Proof.
  unfold MainWindow.incoming_river_identifier, MainWindow.normalized. simpl. intros H.
  destruct (Py.get d "name" (VStr "")) as [| | | |name| |]; try discriminate.
  destruct (Py.get d "location" (VStr "")) as [| | | |location| |]; try discriminate.
  simpl in H. injection H as <-. eauto.
Qed.

Lemma get_strip_river (d : Py.dict) (k : string) (v : Py.value) :
  k <> "id" -> k <> "date_added" -> k <> "last_updated" ->
  Py.get (MainWindow.strip_river d) k v = Py.get d k v.
Proof.
  intros H1 H2 H3. unfold MainWindow.strip_river.
  rewrite !get_remove_field_ne by assumption. reflexivity.
Qed.

Lemma imported_river_identifier (db : store) (now : string) (d : Py.dict) (k : string)
    (r : River.t) :
  MainWindow.incoming_river_identifier (VDict d) = Ok k ->
  DatabaseManager.insert_river db now (MainWindow.strip_river d) = Ok r ->
  MainWindow.river_identifier r = k /\ River.id r = (seq_rivers db + 1)%Z /\
  River.date_added r = now /\ River.last_updated r = now.
Proof.
  intros Hk Hins.
  apply incoming_river_identifier_fields in Hk as (name & location & Hn & Hl & ->).
  unfold DatabaseManager.insert_river in Hins.
  apply bind_Ok in Hins as (row & Hrow & Hins). injection Hins as <-.
  destruct (checked_river_values_row _ _ (seq_rivers db + 1)%Z now now Hrow)
    as (Hname & Hloc & Hid & Ha & Hu).
  rewrite get_strip_river, Hn in Hname by discriminate.
  rewrite get_strip_river, Hl in Hloc by discriminate.
  apply text_not_null_str in Hname, Hloc.
  unfold MainWindow.river_identifier. rewrite Hname, Hloc. auto.
Qed.

Lemma import_river_inv (now : string) (st st' : MainWindow.loop_state) (x : Py.value) :
  MainWindow.import_river now st x = Ok st' ->
  exists k,
    MainWindow.incoming_river_identifier x = Ok k /\
    (k ∈ MainWindow.identifiers st /\ st' = MainWindow.skip st \/
     (k ∉ MainWindow.identifiers st) /\ persistable_river x = false /\ st' = MainWindow.skip st \/
     (k ∉ MainWindow.identifiers st) /\
     exists r,
       MainWindow.river_identifier r = k /\
       River.id r = (seq_rivers (MainWindow.st_db st) + 1)%Z /\
       River.date_added r = now /\ River.last_updated r = now /\
       st' = MainWindow.imported st
               (set_rivers (MainWindow.st_db st) (rivers (MainWindow.st_db st) ++ [r])
                  (River.id r)) k).
Proof.
  intros H. unfold MainWindow.import_river in H.
  apply bind_Ok in H as (k & Hk & H). exists k. split; [exact Hk|].
  destruct (incoming_river_identifier_dict _ _ Hk) as [d ->].
  case_bool_decide as Hin; [left; injection H as <-; auto|]. right.
  simpl in H. unfold DatabaseManager.add_river in H.
  destruct (DatabaseManager.insert_river _ _ _) as [r|e] eqn:Hins; simpl in H;
    injection H as <-.
  - right. split; [exact Hin|]. exists r.
    destruct (imported_river_identifier _ _ _ _ _ Hk Hins) as (H1 & H2 & H3 & H4). auto.
  - left. split; [exact Hin|]. split; [|reflexivity].
    unfold persistable_river. unfold DatabaseManager.insert_river in Hins.
    destruct (DatabaseManager.checked_river_values _); [discriminate | reflexivity].
Qed.

(** ** What a river import does to the store *)

Lemma NoDup_snoc {A : Type} (l : list A) (x : A) :
  List.NoDup l -> ~ In x l -> List.NoDup (l ++ [x]).
Proof.
  intros Hl Hx. apply (Permutation_NoDup (l := x :: l)).
  - apply Permutation_cons_append.
  - constructor; assumption.
Qed.

Lemma import_river_counts (now : string) (st : MainWindow.loop_state) (x : Py.value)
    (st' : MainWindow.loop_state) :
  MainWindow.import_river now st x = Ok st' ->
  MainWindow.imported_count st' + MainWindow.skipped_count st'
  = MainWindow.imported_count st + MainWindow.skipped_count st + 1.
Proof.
  intros H. apply import_river_inv in H
    as (k & _ & [[_ ->] | [(_ & _ & ->) | (_ & r & _ & _ & _ & _ & ->)]]); simpl; lia.
Qed.

Lemma import_rivers_Ok_counts (db db' : store) (clock : nat -> string) (rivers_data : Py.value)
    (a b : nat) :
  MainWindow.import_rivers db clock rivers_data = (db', Ok (a, b)) ->
  exists items, Py.iter rivers_data = Ok items /\ a + b = List.length items.
Proof.
  unfold MainWindow.import_rivers. destruct (Py.iter rivers_data) as [items|e]; [|discriminate].
  intros H. exists items. split; [reflexivity|].
  apply (for_each_counts _ _ import_river_counts) in H. exact H.
Qed.

Lemma import_rivers_frame (db db' : store) (clock : nat -> string) (rivers_data : Py.value)
    (res : Py.result (nat * nat)) :
  MainWindow.import_rivers db clock rivers_data = (db', res) ->
  river_documents db' = river_documents db /\ trip_logs db' = trip_logs db.
Proof.
  unfold MainWindow.import_rivers. destruct (Py.iter rivers_data) as [items|e].
  - set (P := fun st : MainWindow.loop_state =>
                river_documents (MainWindow.st_db st) = river_documents db /\
                trip_logs (MainWindow.st_db st) = trip_logs db).
    intros H. apply (for_each_invariant P) in H as (st' & HP & <- & _); [exact HP| |].
    + intros now st x st' HP Hstep.
      apply import_river_inv in Hstep
        as (k & _ & [[_ ->] | [(_ & _ & ->) | (_ & r & _ & _ & _ & _ & ->)]]); exact HP.
    + split; reflexivity.
  - intros H. injection H as <- _. split; reflexivity.
Qed.

(** X1. [import_rivers] only appends river rows: the rivers it found are
    still there, unchanged and in place, and the other tables are as they
    were, also when the import is cut short by an exception.  When it
    returns, the imported count is the number of rows appended and the two
    counts add up to the number of records of the batch. *)
Theorem import_rivers_appends (db db' : store) (clock : nat -> string) (rivers_data : Py.value)
    (res : Py.result (nat * nat)) :
  MainWindow.import_rivers db clock rivers_data = (db', res) ->
  exists new,
    rivers db' = (rivers db ++ new)%list /\
    river_documents db' = river_documents db /\
    trip_logs db' = trip_logs db /\
    forall imported_count skipped_count,
      res = Ok (imported_count, skipped_count) ->
      List.length new = imported_count /\
      exists items, Py.iter rivers_data = Ok items /\
                    imported_count + skipped_count = List.length items.
Proof.
  unfold MainWindow.import_rivers. destruct (Py.iter rivers_data) as [items|e].
  - set (P := fun st : MainWindow.loop_state =>
                exists new,
                  rivers (MainWindow.st_db st) = (rivers db ++ new)%list /\
                  river_documents (MainWindow.st_db st) = river_documents db /\
                  trip_logs (MainWindow.st_db st) = trip_logs db /\
                  List.length new = MainWindow.imported_count st).
    intros H. pose proof H as Hcount.
    apply (for_each_invariant P) in H as (st' & (new & Hr & Hd & Ht & Hlen) & <- & Hres).
    + exists new. split; [exact Hr|]. split; [exact Hd|]. split; [exact Ht|].
      intros a b ->. destruct Hres as [Hres | [e Hres]]; [|discriminate].
      injection Hres as -> ->. split; [exact Hlen|].
      exists items. split; [reflexivity|].
      apply (for_each_counts _ _ import_river_counts) in Hcount. simpl in Hcount. exact Hcount.
    + intros now st x st' (new & Hr & Hd & Ht & Hlen) Hstep.
      apply import_river_inv in Hstep
        as (k & _ & [[_ ->] | [(_ & _ & ->) | (_ & r & _ & _ & _ & _ & ->)]]);
        simpl; try solve [exists new; auto].
      exists (new ++ [r])%list. rewrite Hr, length_app, <- app_assoc. simpl.
      repeat split; try assumption. lia.
    + exists []. simpl. rewrite app_nil_r. auto.
  - intros H. injection H as <- <-. exists []. rewrite app_nil_r.
    repeat split; discriminate.
Qed.

(** X2. [import_rivers] never makes a duplicate: when no two rivers of the
    store have one identifier [name|location], the same holds of the store
    the import leaves, whatever the batch and also when the import is cut
    short. *)
Theorem import_rivers_keeps_identifiers_distinct (db : store) (clock : nat -> string)
    (rivers_data : Py.value) :
  distinct_river_identifiers db ->
  distinct_river_identifiers (fst (MainWindow.import_rivers db clock rivers_data)).
Proof.
  unfold distinct_river_identifiers, MainWindow.import_rivers. intros Hdup.
  destruct (Py.iter rivers_data) as [items|e]; [|exact Hdup].
  set (P := fun st : MainWindow.loop_state =>
              List.NoDup (List.map MainWindow.river_identifier (rivers (MainWindow.st_db st))) /\
              forall r, In r (rivers (MainWindow.st_db st)) ->
                        MainWindow.river_identifier r ∈ MainWindow.identifiers st).
  destruct (MainWindow.for_each MainWindow.import_river clock 0 _ items) as [db' res] eqn:H.
  apply (for_each_invariant P) in H as (st' & [Hnodup _] & <- & _); [exact Hnodup| |].
  - intros now st x st' [Hnodup Hin] Hstep.
    apply import_river_inv in Hstep
      as (k & _ & [[_ ->] | [(_ & _ & ->) | (Hk & r & Hr & _ & _ & _ & ->)]]);
      simpl; try solve [split; assumption].
    split.
    + simpl. rewrite List.map_app. simpl. apply NoDup_snoc; [exact Hnodup|].
      intros Hy. apply in_map_iff in Hy as (r0 & Hr0 & Hin0).
      apply Hk. rewrite <- Hr, <- Hr0. apply Hin. exact Hin0.
    + simpl. intros r0 Hr0. rewrite elem_of_union, elem_of_singleton.
      apply in_app_or in Hr0 as [Hr0 | [<- | []]]; [right; apply Hin; exact Hr0 | left; exact Hr].
  - simpl. split; [exact Hdup|]. intros r Hr.
    apply elem_of_existing_river_identifiers. exists r. split; [exact Hr | reflexivity].
Qed.

(** ** Importing the same batch again *)

Lemma import_river_again (now : string) (st : MainWindow.loop_state) (x : Py.value) (k : string) :
  MainWindow.incoming_river_identifier x = Ok k ->
  k ∈ MainWindow.identifiers st \/ persistable_river x = false ->
  MainWindow.import_river now st x = Ok (MainWindow.skip st).
Proof.
  intros Hk Hcase.
  destruct (decide (k ∈ MainWindow.identifiers st)) as [Hin|Hin];
    [apply (import_river_duplicate _ _ _ k); assumption|].
  destruct Hcase as [Hin' | Hfail]; [contradiction|].
  destruct (incoming_river_identifier_dict _ _ Hk) as [d ->].
  rewrite (import_river_attempt _ _ _ k) by assumption.
  destruct (add_river_not_persistable (MainWindow.st_db st) now d Hfail) as [e ->].
  reflexivity.
Qed.

Lemma for_each_import_river_again (clock : nat -> string) (items : list Py.value) :
  forall (i : nat) (st : MainWindow.loop_state) (db' : store) (a b : nat),
    (forall k, k ∈ MainWindow.identifiers st ->
               exists r, In r (rivers (MainWindow.st_db st)) /\ MainWindow.river_identifier r = k) ->
    MainWindow.for_each MainWindow.import_river clock i st items = (db', Ok (a, b)) ->
    exists ids : gset string,
      MainWindow.identifiers st ⊆ ids /\
      (forall k, k ∈ ids -> exists r, In r (rivers db') /\ MainWindow.river_identifier r = k) /\
      forall (clock2 : nat -> string) (j : nat) (st2 : MainWindow.loop_state),
        ids ⊆ MainWindow.identifiers st2 ->
        MainWindow.for_each MainWindow.import_river clock2 j st2 items
        = (MainWindow.st_db st2,
           Ok (MainWindow.imported_count st2,
               MainWindow.skipped_count st2 + List.length items)).
Proof.
  induction items as [|x items IH]; intros i st db' a b Hrows H; simpl in H.
  - injection H as <- _ _. exists (MainWindow.identifiers st).
    split; [reflexivity|]. split; [exact Hrows|].
    intros clock2 j st2 _. simpl. rewrite Nat.add_0_r. reflexivity.
  - destruct (MainWindow.import_river (clock i) st x) as [st1|e] eqn:Hstep; [|discriminate].
    apply import_river_inv in Hstep as (k & Hk & Hcase).
    assert (Hst1 : MainWindow.identifiers st ⊆ MainWindow.identifiers st1 /\
                   (k ∈ MainWindow.identifiers st1 \/ persistable_river x = false) /\
                   forall k', k' ∈ MainWindow.identifiers st1 ->
                              exists r, In r (rivers (MainWindow.st_db st1)) /\
                                        MainWindow.river_identifier r = k').
    { destruct Hcase as [[Hin ->] | [(_ & Hfail & ->) | (_ & r & Hr & _ & _ & _ & ->)]]; simpl.
      - auto.
      - auto.
      - split; [apply union_subseteq_r|].
        split; [left; apply elem_of_union; left; apply elem_of_singleton; reflexivity|].
        intros k' Hk'. apply elem_of_union in Hk' as [Hk' | Hk'].
        + apply elem_of_singleton in Hk' as ->. exists r. split; [|exact Hr].
          apply in_or_app. right. left. reflexivity.
        + destruct (Hrows k' Hk') as (r' & Hr' & Hid). exists r'. split; [|exact Hid].
          apply in_or_app. left. exact Hr'. }
    destruct Hst1 as (Hsub & Hx & Hrows1).
    destruct (IH (i + 1) st1 db' a b Hrows1 H) as (ids & Hids & Hcover & Hagain).
    exists ids. split; [transitivity (MainWindow.identifiers st1); assumption|].
    split; [exact Hcover|].
    intros clock2 j st2 Hsub2. simpl.
    rewrite (import_river_again _ _ _ k Hk).
    + rewrite (Hagain clock2 (j + 1) (MainWindow.skip st2) Hsub2). simpl.
      replace (MainWindow.skipped_count st2 + 1 + List.length items)
        with (MainWindow.skipped_count st2 + S (List.length items)) by lia.
      reflexivity.
    + destruct Hx as [Hx | Hx]; [left; apply Hsub2, Hids, Hx | right; exact Hx].
Qed.

(** X3. A second import of the same batch changes nothing: when
    [import_rivers] has returned, running it again on the store it left,
    with the same records, imports none, reports every record as skipped
    and leaves the store as it is. *)
Theorem import_rivers_twice (db db' : store) (clock clock2 : nat -> string)
    (rivers_data : Py.value) (imported_count skipped_count : nat) :
  MainWindow.import_rivers db clock rivers_data = (db', Ok (imported_count, skipped_count)) ->
  MainWindow.import_rivers db' clock2 rivers_data
  = (db', Ok (0, imported_count + skipped_count)).
Proof.
  intros H. destruct (import_rivers_Ok_counts _ _ _ _ _ _ H) as (items & Hiter & Hlen).
  unfold MainWindow.import_rivers in *. rewrite Hiter in *.
  apply for_each_import_river_again in H as (ids & _ & Hcover & Hagain).
  - rewrite Hagain; [simpl; rewrite Hlen; reflexivity|].
    simpl. intros k Hk. apply elem_of_existing_river_identifiers. apply Hcover. exact Hk.
  - simpl. intros k Hk. apply elem_of_existing_river_identifiers. exact Hk.
Qed.

(** ** What a trip import does to the store *)

Lemma import_trip_counts (m : gmap string Z) (now : string) (st : MainWindow.loop_state)
    (x : Py.value) (st' : MainWindow.loop_state) :
  MainWindow.import_trip m now st x = Ok st' ->
  MainWindow.imported_count st' + MainWindow.skipped_count st'
  = MainWindow.imported_count st + MainWindow.skipped_count st + 1.
Proof.
  intros H. apply import_trip_inv in H as [-> | (d & k & i & t & _ & _ & _ & _ & _ & ->)];
    simpl; lia.
Qed.

(** X4. [import_trips] leaves the rivers and the attachments alone and only
    appends trip logs, also when it is cut short.  Every trip log it
    appends comes from a record of the batch and carries the id of a river
    of the store whose normalized name is the record's normalized
    [river_name], whatever [river_id] the record had.  When the import
    returns, the imported count is the number of rows appended and the two
    counts add up to the number of records. *)
Theorem import_trips_appends (db db' : store) (clock : nat -> string) (trips_data : Py.value)
    (res : Py.result (nat * nat)) :
  MainWindow.import_trips db clock trips_data = (db', res) ->
  rivers db' = rivers db /\
  river_documents db' = river_documents db /\
  exists new,
    trip_logs db' = (trip_logs db ++ new)%list /\
    (forall t, In t new ->
               exists items d r,
                 Py.iter trips_data = Ok items /\ In (VDict d) items /\
                 In r (rivers db) /\
                 MainWindow.normalized (VDict d) "river_name"
                 = Ok (Py.strip (Py.lower (River.name r))) /\
                 Trip.river_id t = SqlInt (River.id r)) /\
    forall imported_count skipped_count,
      res = Ok (imported_count, skipped_count) ->
      List.length new = imported_count /\
      exists items, Py.iter trips_data = Ok items /\
                    imported_count + skipped_count = List.length items.
Proof.
  unfold MainWindow.import_trips. destruct (Py.iter trips_data) as [items|e].
  - set (P := fun st : MainWindow.loop_state =>
                rivers (MainWindow.st_db st) = rivers db /\
                river_documents (MainWindow.st_db st) = river_documents db /\
                exists new,
                  trip_logs (MainWindow.st_db st) = (trip_logs db ++ new)%list /\
                  List.length new = MainWindow.imported_count st /\
                  forall t, In t new ->
                            exists d r,
                              In (VDict d) items /\ In r (rivers db) /\
                              MainWindow.normalized (VDict d) "river_name"
                              = Ok (Py.strip (Py.lower (River.name r))) /\
                              Trip.river_id t = SqlInt (River.id r)).
    intros H. pose proof H as Hcount.
    apply (for_each_invariant_in P) in H
      as (st' & (Hr & Hd & new & Ht & Hlen & Hnew) & <- & Hres).
    + split; [exact Hr|]. split; [exact Hd|]. exists new. split; [exact Ht|]. split.
      * intros t Hin. destruct (Hnew t Hin) as (d & r & H). exists items, d, r.
        split; [reflexivity | exact H].
      * intros a b ->. destruct Hres as [Hres | [e Hres]]; [|discriminate].
        injection Hres as -> ->. split; [exact Hlen|].
        exists items. split; [reflexivity|].
        apply (for_each_counts _ _ (import_trip_counts _)) in Hcount. exact Hcount.
    + intros now st x st' Hx (Hr & Hd & new & Ht & Hlen & Hnew) Hstep.
      apply import_trip_inv in Hstep
        as [-> | (d & k & i & t & -> & Hk & Hm & Hins & _ & ->)].
      { simpl. split; [exact Hr|]. split; [exact Hd|]. exists new. auto. }
      simpl. split; [exact Hr|]. split; [exact Hd|]. exists (new ++ [t])%list.
      split; [rewrite Ht; symmetry; apply app_assoc|].
      split; [rewrite length_app; simpl; lia|].
      intros t' Ht'. apply in_app_or in Ht' as [Ht' | [<- | []]]; [auto|].
      apply river_name_to_id_Some in Hm as (r & Hin & <- & <-).
      apply insert_trip_log_row in Hins as (Hrid & _).
      rewrite get_strip_trip_river_id in Hrid.
      apply bind_int_Ok in Hrid as [Hrid _].
      exists d, r. repeat split; assumption.
    + split; [reflexivity|]. split; [reflexivity|]. exists [].
      split; [symmetry; apply app_nil_r|]. split; [reflexivity | intros t []].
  - intros H. injection H as <- <-. split; [reflexivity|]. split; [reflexivity|].
    exists []. split; [symmetry; apply app_nil_r|]. split; [intros t [] | discriminate].
Qed.

(** ** Importing with trip logs disabled *)

Lemma import_trips_frame (db db' : store) (clock : nat -> string) (trips_data : Py.value)
    (res : Py.result (nat * nat)) :
  MainWindow.import_trips db clock trips_data = (db', res) ->
  rivers db' = rivers db /\ river_documents db' = river_documents db.
Proof.
  unfold MainWindow.import_trips. destruct (Py.iter trips_data) as [items|e].
  - set (P := fun st : MainWindow.loop_state =>
                rivers (MainWindow.st_db st) = rivers db /\
                river_documents (MainWindow.st_db st) = river_documents db).
    intros H. apply (for_each_invariant P) in H as (st' & HP & <- & _); [exact HP| |].
    + intros now st x st' HP Hstep.
      apply import_trip_inv in Hstep as [-> | (d & k & i & t & _ & _ & _ & _ & _ & ->)];
        exact HP.
    + split; reflexivity.
  - intros H. injection H as <- _. split; reflexivity.
Qed.

(** X5. With the trip-log setting off, [import_data] never touches the
    trip logs or the attachments, whatever the file; and when the summary
    is shown for a document whose [trips] value is a list, it reports no
    trip imported and every trip of the list as skipped. *)
Theorem import_data_trip_logs_disabled (db : store) (rivers_clock trips_clock : nat -> string)
    (file : MainWindow.file_content) :
  trip_logs (fst (MainWindow.import_data false db rivers_clock trips_clock file)) = trip_logs db /\
  river_documents (fst (MainWindow.import_data false db rivers_clock trips_clock file))
  = river_documents db /\
  forall d trips ri rs ti ts,
    file = MainWindow.Json (VDict d) ->
    Py.getitem d "trips" = Some (VList trips) ->
    MainWindow.summary (snd (MainWindow.import_data false db rivers_clock trips_clock file))
    = Some (ri, rs, ti, ts) ->
    ti = 0 /\ ts = List.length trips.
Proof.
  destruct file as [e| |v]; [simpl; repeat split; discriminate ..|].
  destruct v as [| | | | | |d]; try (simpl; repeat split; discriminate).
  simpl. destruct (Py.contains d "rivers"); [|simpl; repeat split; discriminate]. simpl.
  destruct (MainWindow.import_rivers db rivers_clock (Py.get d "rivers" (VList [])))
    as [db1 res] eqn:Hr.
  destruct (import_rivers_frame _ _ _ _ _ Hr) as [Hd Ht].
  destruct res as [[ri rs]|e]; [|simpl; repeat split; try assumption; discriminate].
  destruct (Py.truthy (Py.get d "trips" (VList []))) eqn:Htruthy.
  - destruct (Py.len (Py.get d "trips" (VList []))) as [n|e] eqn:Hlen;
      [|simpl; repeat split; try assumption; discriminate].
    destruct (show_summary_shown db1 ri rs 0 n) as [-> ->].
    split; [exact Ht|]. split; [exact Hd|].
    intros d' trips ri' rs' ti ts Hfile Htrips Hout.
    injection Hfile as <-. injection Hout as _ _ <- <-.
    unfold Py.get in Hlen. rewrite Htrips in Hlen. simpl in Hlen. injection Hlen as <-. auto.
  - destruct (show_summary_shown db1 ri rs 0 0) as [-> ->].
    split; [exact Ht|]. split; [exact Hd|].
    intros d' trips ri' rs' ti ts Hfile Htrips Hout.
    injection Hfile as <-. injection Hout as _ _ <- <-.
    unfold Py.get in Htruthy. rewrite Htrips in Htruthy. simpl in Htruthy.
    destruct trips; [auto | discriminate].
Qed.

(** ** An exported document is importable *)

Lemma for_each_never_raises
    (body : string -> MainWindow.loop_state -> Py.value -> Py.result MainWindow.loop_state)
    (clock : nat -> string) (items : list Py.value) :
  (forall x, In x items -> forall now st, exists st', body now st x = Ok st') ->
  forall i st, exists db' a b,
      MainWindow.for_each body clock i st items = (db', Ok (a, b)).
Proof.
  induction items as [|x items IH]; intros Hok i st; simpl; [eauto|].
  destruct (Hok x (or_introl eq_refl) (clock i) st) as [st' ->].
  apply IH. intros y Hy. apply Hok. right. exact Hy.
Qed.

Lemma import_river_exported (now : string) (st : MainWindow.loop_state) (r : River.t) :
  exists st', MainWindow.import_river now st (VDict (River.to_dict r)) = Ok st'.
Proof.
  destruct (decide (MainWindow.river_identifier r ∈ MainWindow.identifiers st)) as [Hin|Hin].
  - rewrite (import_river_duplicate _ _ _ (MainWindow.river_identifier r));
      [eauto | reflexivity | exact Hin].
  - rewrite (import_river_attempt _ _ _ (MainWindow.river_identifier r));
      [eauto | reflexivity | exact Hin].
Qed.

Lemma import_trip_exported (m : gmap string Z) (now : string) (st : MainWindow.loop_state)
    (row : TripRow.t) :
  exists st', MainWindow.import_trip m now st (VDict (TripRow.to_dict row)) = Ok st'.
Proof.
  destruct (m !! Py.strip (Py.lower (TripRow.river_name row))) as [i|] eqn:Hm.
  - destruct (decide (Py.str (VInt i) ++ "|"
                      ++ Py.str (Py.get (TripRow.to_dict row) "trip_date" (VStr ""))
                        ∈ MainWindow.identifiers st)) as [Hin|Hin].
    + unfold MainWindow.import_trip.
      change (MainWindow.normalized (VDict (TripRow.to_dict row)) "river_name")
        with (Ok (A := string) (Py.strip (Py.lower (TripRow.river_name row)))).
      simpl mbind. rewrite Hm.
      change (Py.attr_get (VDict (TripRow.to_dict row)) "trip_date" (VStr ""))
        with (Ok (Py.get (TripRow.to_dict row) "trip_date" (VStr ""))).
      simpl mbind. rewrite bool_decide_eq_true_2 by exact Hin. eauto.
    + rewrite (import_trip_attempt m now st _ (Py.strip (Py.lower (TripRow.river_name row))) i);
        [eauto | reflexivity | exact Hm | exact Hin].
  - rewrite (import_trip_unresolved m now st _ (Py.strip (Py.lower (TripRow.river_name row))));
      [eauto | reflexivity | exact Hm].
Qed.

Lemma import_rivers_exported (dst src : store) (clock : nat -> string) :
  exists db1 ri rs,
    MainWindow.import_rivers dst clock
      (VList (List.map (fun r => VDict (River.to_dict r)) (DatabaseManager.get_all_rivers src)))
    = (db1, Ok (ri, rs)) /\
    ri + rs = List.length (rivers src).
Proof.
  destruct (for_each_never_raises MainWindow.import_river clock
              (List.map (fun r => VDict (River.to_dict r)) (DatabaseManager.get_all_rivers src)))
    with (i := 0)
         (st := {| MainWindow.st_db := dst;
                   MainWindow.identifiers := MainWindow.existing_river_identifiers dst;
                   MainWindow.imported_count := 0; MainWindow.skipped_count := 0 |})
    as (db1 & ri & rs & H).
  { intros x Hx now st. apply in_map_iff in Hx as (r & <- & _). apply import_river_exported. }
  exists db1, ri, rs. split; [exact H|].
  apply (for_each_counts _ _ import_river_counts) in H. simpl in H.
  rewrite H, length_map.
  apply Permutation_length, order_by_Permutation.
Qed.

Lemma import_trips_exported (dst src : store) (clock : nat -> string) :
  exists db2 ti ts,
    MainWindow.import_trips dst clock
      (VList (List.map (fun row => VDict (TripRow.to_dict row))
                (DatabaseManager.get_trip_logs src None)))
    = (db2, Ok (ti, ts)) /\
    ti + ts = List.length (DatabaseManager.get_trip_logs src None).
Proof.
  destruct (for_each_never_raises (MainWindow.import_trip (MainWindow.river_name_to_id dst)) clock
              (List.map (fun row => VDict (TripRow.to_dict row))
                 (DatabaseManager.get_trip_logs src None)))
    with (i := 0)
         (st := {| MainWindow.st_db := dst;
                   MainWindow.identifiers := MainWindow.existing_trip_identifiers dst;
                   MainWindow.imported_count := 0; MainWindow.skipped_count := 0 |})
    as (db2 & ti & ts & H).
  { intros x Hx now st. apply in_map_iff in Hx as (row & <- & _). apply import_trip_exported. }
  exists db2, ti, ts. split; [exact H|].
  apply (for_each_counts _ _ (import_trip_counts _)) in H. simpl in H.
  rewrite H, length_map. reflexivity.
Qed.

(** X6. Whatever the store a document was exported from, with or without
    trip logs, and whatever the store and the setting it is imported
    under, [import_data] gets to the summary: it shows neither "Invalid
    File" nor "Error" before it.  The river counts of the summary add up
    to the number of rivers exported and the trip counts to the number of
    trips exported (none when the export left them out); no trip is
    imported when the setting is off.  The views are refreshed after the
    summary, and a row they cannot render still ends the import with
    "Error". *)
Theorem import_of_export_completes (include_export include_import : bool) (src dst : store)
    (export_date : string) (rivers_clock trips_clock : nat -> string) :
  let out :=
    MainWindow.import_data include_import dst rivers_clock trips_clock
      (MainWindow.Json (MainWindow.export_data include_export src export_date)) in
  (exists ri rs ti ts,
      MainWindow.summary (snd out) = Some (ri, rs, ti, ts) /\
      ri + rs = List.length (rivers src) /\
      ti + ts = (if include_export
                 then List.length (DatabaseManager.get_trip_logs src None) else 0) /\
      (include_import = false -> ti = 0)) /\
  match MainWindow.refresh_views (fst out) with
  | Ok _ => exists ri rs ti ts, snd out = MainWindow.ImportComplete ri rs ti ts
  | Raise e => exists ri rs ti ts, snd out = MainWindow.ImportCompleteThenFailed ri rs ti ts e
  end.
Proof.
  assert (Hshown : forall db ri rs ti ts out,
             out = MainWindow.show_summary db ri rs ti ts ->
             MainWindow.summary (snd out) = Some (ri, rs, ti, ts) /\
             match MainWindow.refresh_views (fst out) with
             | Ok _ => exists ri rs ti ts, snd out = MainWindow.ImportComplete ri rs ti ts
             | Raise e =>
                 exists ri rs ti ts, snd out = MainWindow.ImportCompleteThenFailed ri rs ti ts e
             end).
  { intros db ri rs ti ts out ->. unfold MainWindow.show_summary.
    destruct (MainWindow.refresh_views db) eqn:E; simpl; rewrite E; eauto 6. }
  destruct (import_rivers_exported dst src rivers_clock) as (db1 & ri & rs & Hr & Hcount).
  intros out. subst out. destruct include_export.
  - change (MainWindow.export_data true src export_date)
      with (VDict [("rivers", VList (List.map (fun r => VDict (River.to_dict r))
                                       (DatabaseManager.get_all_rivers src)));
                   ("export_date", VStr export_date);
                   ("includes_trip_logs", VBool true);
                   ("trips", VList (List.map (fun row => VDict (TripRow.to_dict row))
                                      (DatabaseManager.get_trip_logs src None)))]).
    cbn [MainWindow.import_data].
    change (Py.contains _ "rivers") with true. cbn [negb].
    change (Py.get _ "rivers" (VList []))
      with (VList (List.map (fun r => VDict (River.to_dict r))
                     (DatabaseManager.get_all_rivers src))).
    change (Py.get _ "trips" (VList []))
      with (VList (List.map (fun row => VDict (TripRow.to_dict row))
                     (DatabaseManager.get_trip_logs src None))).
    rewrite Hr.
    destruct (DatabaseManager.get_trip_logs src None) as [|row rows] eqn:Hrows.
    + simpl. rewrite !andb_false_r. simpl.
      destruct (Hshown db1 ri rs 0 0 _ eq_refl) as [Hsum Hend].
      split; [|exact Hend]. exists ri, rs, 0, 0. auto.
    + destruct include_import.
      * rewrite <- Hrows.
        destruct (import_trips_exported db1 src trips_clock) as (db2 & ti & ts & Ht & Hc).
        replace (true && Py.truthy _) with true by (rewrite Hrows; reflexivity).
        rewrite Ht.
        destruct (Hshown db2 ri rs ti ts _ eq_refl) as [Hsum Hend].
        split; [|exact Hend]. exists ri, rs, ti, ts. repeat split; try assumption. discriminate.
      * simpl.
        destruct (Hshown db1 ri rs 0
                    (S (List.length (List.map (fun row => VDict (TripRow.to_dict row)) rows)))
                    _ eq_refl) as [Hsum Hend].
        split; [|exact Hend].
        exists ri, rs, 0, (S (List.length (List.map (fun row => VDict (TripRow.to_dict row)) rows))).
        rewrite length_map in *. auto.
  - change (MainWindow.export_data false src export_date)
      with (VDict [("rivers", VList (List.map (fun r => VDict (River.to_dict r))
                                       (DatabaseManager.get_all_rivers src)));
                   ("export_date", VStr export_date);
                   ("includes_trip_logs", VBool false)]).
    cbn [MainWindow.import_data].
    change (Py.contains _ "rivers") with true. cbn [negb].
    change (Py.get _ "rivers" (VList []))
      with (VList (List.map (fun r => VDict (River.to_dict r))
                     (DatabaseManager.get_all_rivers src))).
    change (Py.get _ "trips" (VList [])) with (VList []).
    rewrite Hr. simpl. rewrite !andb_false_r. simpl.
    destruct (Hshown db1 ri rs 0 0 _ eq_refl) as [Hsum Hend].
    split; [|exact Hend]. exists ri, rs, 0, 0. auto.
Qed.

(** ** ORDER BY *)

Section order_by_sorted.
Context {A : Type} (le : A -> A -> bool).
Hypothesis le_total : forall a b, le a b = true \/ le b a = true.

Lemma insert_row_HdRel (x a : A) (l : list A) :
  le a x = true -> HdRel (fun a b => le a b = true) a l ->
  HdRel (fun a b => le a b = true) a (Sql.insert_row le x l).
Proof.
  intros Hax Hal. destruct l as [|y l]; simpl; [constructor; exact Hax|].
  destruct (le x y); constructor; [exact Hax|].
  apply HdRel_inv in Hal. exact Hal.
Qed.

Lemma insert_row_Sorted (x : A) (l : list A) :
  Sorted (fun a b => le a b = true) l ->
  Sorted (fun a b => le a b = true) (Sql.insert_row le x l).
Proof.
  induction l as [|y l IH]; intros Hl; simpl; [repeat constructor|].
  destruct (le x y) eqn:Hxy.
  - constructor; [exact Hl|]. constructor. exact Hxy.
  - apply Sorted_inv in Hl as [Hl Hy]. constructor; [apply IH; exact Hl|].
    apply insert_row_HdRel; [|exact Hy].
    destruct (le_total x y) as [H|H]; [congruence | exact H].
Qed.

Lemma order_by_Sorted (l : list A) :
  Sorted (fun a b => le a b = true) (Sql.order_by le l).
Proof.
  induction l as [|x l IH]; simpl; [constructor|]. apply insert_row_Sorted, IH.
Qed.
End order_by_sorted.

(** The order of ORDER BY is a total preorder. *)

Lemma dyadic_leb_scaled (m1 e1 m2 e2 e : Z) :
  (e <= e1)%Z -> (e <= e2)%Z ->
  Sql.dyadic_leb m1 e1 m2 e2 = true <-> (m1 * 2 ^ (e1 - e) <= m2 * 2 ^ (e2 - e))%Z.
Proof.
  intros H1 H2. unfold Sql.dyadic_leb. cbv zeta. rewrite Z.leb_le.
  set (e0 := Z.min e1 e2).
  assert (He0 : (e <= e0)%Z) by (unfold e0; lia).
  assert (He1 : (e0 <= e1)%Z) by (unfold e0; lia).
  assert (He2 : (e0 <= e2)%Z) by (unfold e0; lia).
  replace (e1 - e)%Z with ((e1 - e0) + (e0 - e))%Z by lia.
  replace (e2 - e)%Z with ((e2 - e0) + (e0 - e))%Z by lia.
  rewrite !Z.pow_add_r by lia. rewrite !Z.mul_assoc.
  apply Z.mul_le_mono_pos_r. apply Z.pow_pos_nonneg; lia.
Qed.

Lemma dyadic_leb_total (m1 e1 m2 e2 : Z) :
  Sql.dyadic_leb m1 e1 m2 e2 = true \/ Sql.dyadic_leb m2 e2 m1 e1 = true.
Proof.
  rewrite (dyadic_leb_scaled m1 e1 m2 e2 (Z.min e1 e2)) by lia.
  rewrite (dyadic_leb_scaled m2 e2 m1 e1 (Z.min e1 e2)) by lia.
  lia.
Qed.

Lemma dyadic_leb_trans (m1 e1 m2 e2 m3 e3 : Z) :
  Sql.dyadic_leb m1 e1 m2 e2 = true -> Sql.dyadic_leb m2 e2 m3 e3 = true ->
  Sql.dyadic_leb m1 e1 m3 e3 = true.
Proof.
  set (e := Z.min e1 (Z.min e2 e3)).
  rewrite (dyadic_leb_scaled m1 e1 m2 e2 e) by (unfold e; lia).
  rewrite (dyadic_leb_scaled m2 e2 m3 e3 e) by (unfold e; lia).
  rewrite (dyadic_leb_scaled m1 e1 m3 e3 e) by (unfold e; lia).
  lia.
Qed.

Lemma value_leb_total (a b : Py.float_value) :
  Sql.value_leb a b = true \/ Sql.value_leb b a = true.
Proof. destruct a, b; simpl; auto. apply dyadic_leb_total. Qed.

Lemma value_leb_trans (a b c : Py.float_value) :
  Sql.value_leb a b = true -> Sql.value_leb b c = true -> Sql.value_leb a c = true.
Proof.
  destruct a, b, c; simpl; try reflexivity; try discriminate. apply dyadic_leb_trans.
Qed.

Lemma leb_int_int (x y : Z) : (x <=? y)%Z = Sql.value_leb (Py.Finite x 0) (Py.Finite y 0).
Proof.
  simpl. unfold Sql.dyadic_leb. simpl. rewrite !Z.mul_1_r. reflexivity.
Qed.

Lemma ascii_compare_lt_trans (a b c : ascii) :
  Ascii.compare a b = Lt -> Ascii.compare b c = Lt -> Ascii.compare a c = Lt.
Proof. unfold Ascii.compare. rewrite !N.compare_lt_iff. lia. Qed.

Lemma string_compare_lt_trans (a b c : string) :
  String.compare a b = Lt -> String.compare b c = Lt -> String.compare a c = Lt.
Proof.
  revert b c. induction a as [|x a IH]; intros [|y b] [|z c]; simpl;
    try reflexivity; try discriminate.
  destruct (Ascii.compare x y) eqn:Exy; try discriminate;
    destruct (Ascii.compare y z) eqn:Eyz; try discriminate; intros Hab Hbc.
  - apply Ascii.compare_eq_iff in Exy as ->. rewrite Eyz. eapply IH; eassumption.
  - apply Ascii.compare_eq_iff in Exy as ->. rewrite Eyz. reflexivity.
  - apply Ascii.compare_eq_iff in Eyz as <-. rewrite Exy. reflexivity.
  - rewrite (ascii_compare_lt_trans x y z Exy Eyz). reflexivity.
Qed.

Lemma string_leb_trans (a b c : string) :
  String.leb a b = true -> String.leb b c = true -> String.leb a c = true.
Proof.
  unfold String.leb. intros Hab Hbc.
  destruct (String.compare a b) eqn:Eab; try discriminate;
    destruct (String.compare b c) eqn:Ebc; try discriminate.
  - apply String.compare_eq_iff in Eab as ->. rewrite Ebc. reflexivity.
  - apply String.compare_eq_iff in Eab as ->. rewrite Ebc. reflexivity.
  - apply String.compare_eq_iff in Ebc as <-. rewrite Eab. reflexivity.
  - rewrite (string_compare_lt_trans a b c Eab Ebc). reflexivity.
Qed.

Lemma sql_leb_total (a b : sqlval) : Sql.leb a b = true \/ Sql.leb b a = true.
Proof.
  destruct a, b; cbn [Sql.leb]; auto; rewrite ?leb_int_int;
    first [apply value_leb_total | apply String.leb_total].
Qed.

Lemma sql_leb_trans (a b c : sqlval) :
  Sql.leb a b = true -> Sql.leb b c = true -> Sql.leb a c = true.
Proof.
  destruct a, b, c; cbn [Sql.leb]; try reflexivity; try discriminate;
    rewrite ?leb_int_int; first [apply value_leb_trans | apply string_leb_trans].
Qed.

(** X7. [get_all_rivers] returns every river of the table once, each name
    at most the next one in the order of [String.leb]. *)
Theorem get_all_rivers_sorted (db : store) :
  Permutation (DatabaseManager.get_all_rivers db) (rivers db) /\
  Sorted (fun a b => String.leb (River.name a) (River.name b) = true)
    (DatabaseManager.get_all_rivers db).
Proof.
  split; [apply order_by_Permutation|].
  apply (order_by_Sorted (fun a b => String.leb (River.name a) (River.name b))).
  intros a b. apply String.leb_total.
Qed.

(** X8. [get_trip_logs] with a river id other than 0 returns the joined
    rows of that river and no other; with 0 it returns what it returns with
    no id.  Either way each row's date is at least the date of every row
    after it in the order of ORDER BY: NULL lowest, then the numbers by
    value, then text by its bytes. *)
Theorem get_trip_logs_filter (db : store) (river_id : option Z) :
  (forall row,
      In row (DatabaseManager.get_trip_logs db river_id) <->
      In row (DatabaseManager.join_rivers db) /\
      forall rid, river_id = Some rid -> rid <> 0%Z ->
                  Trip.river_id (TripRow.trip row) = SqlInt rid) /\
  StronglySorted (fun a b => Sql.leb (Trip.trip_date (TripRow.trip b))
                               (Trip.trip_date (TripRow.trip a)) = true)
    (DatabaseManager.get_trip_logs db river_id) /\
  DatabaseManager.get_trip_logs db (Some 0%Z) = DatabaseManager.get_trip_logs db None.
Proof.
  split; [|split; [|reflexivity]].
  - intros row. unfold DatabaseManager.get_trip_logs, DatabaseManager.order_by_trip_date_desc.
    destruct river_id as [rid|].
    + destruct (Z.eq_dec rid 0%Z) as [->|Hrid].
      * simpl. rewrite In_order_by. split; [|tauto].
        intros H. split; [exact H|]. intros rid Hsome. injection Hsome as <-. congruence.
      * replace (Py.truthy (VInt rid)) with true
          by (symmetry; simpl; apply negb_true_iff, Z.eqb_neq; exact Hrid).
        rewrite In_order_by, filter_In. split.
        -- intros [Hin Heq]. split; [exact Hin|]. intros rid' Hsome _. injection Hsome as <-.
           destruct (Trip.river_id (TripRow.trip row)); simpl in Heq; try discriminate.
           apply Z.eqb_eq in Heq. congruence.
        -- intros [Hin Heq]. split; [exact Hin|]. rewrite (Heq rid eq_refl Hrid). simpl.
           apply Z.eqb_refl.
    + rewrite In_order_by. split; [|tauto]. intros H. split; [exact H | discriminate].
  - apply Sorted_StronglySorted;
      [intros a b c Hab Hbc; exact (sql_leb_trans _ _ _ Hbc Hab)|].
    unfold DatabaseManager.get_trip_logs, DatabaseManager.order_by_trip_date_desc.
    destruct river_id as [rid|]; [destruct (Py.truthy (VInt rid))|];
      apply (order_by_Sorted
               (fun a b => Sql.leb (Trip.trip_date (TripRow.trip b))
                             (Trip.trip_date (TripRow.trip a))));
      intros a b; apply sql_leb_total.
Qed.

(** ** Ids and the AUTOINCREMENT counters *)

Section table.
Context {A : Type} (id : A -> Z).

Lemma table_snoc (l : list A) (seq : Z) (x : A) :
  List.NoDup (List.map id l) -> (forall y, In y l -> (id y <= seq)%Z) ->
  id x = (seq + 1)%Z ->
  List.NoDup (List.map id (l ++ [x])) /\ forall y, In y (l ++ [x]) -> (id y <= seq + 1)%Z.
Proof.
  intros Hdup Hle Hx. split.
  - rewrite List.map_app. simpl. apply NoDup_snoc; [exact Hdup|].
    intros Hin. apply in_map_iff in Hin as (y & Hy & Hin). apply Hle in Hin. lia.
  - intros y Hy. apply in_app_or in Hy as [Hy | [<- | []]]; [apply Hle in Hy|]; lia.
Qed.

Lemma table_map (f : A -> A) (l : list A) :
  (forall x, id (f x) = id x) -> List.map id (List.map f l) = List.map id l.
Proof.
  intros Hf. rewrite List.map_map. apply List.map_ext. exact Hf.
Qed.

Lemma table_filter (p : A -> bool) (l : list A) (seq : Z) :
  List.NoDup (List.map id l) -> (forall y, In y l -> (id y <= seq)%Z) ->
  List.NoDup (List.map id (List.filter p l)) /\
  forall y, In y (List.filter p l) -> (id y <= seq)%Z.
Proof.
  intros Hdup Hle. split.
  - induction l as [|x l IH]; simpl; [constructor|].
    simpl in Hdup. apply NoDup_cons_iff in Hdup as [Hx Hdup].
    assert (IH' := IH Hdup (fun y Hy => Hle y (or_intror Hy))).
    destruct (p x); [|exact IH']. simpl. constructor; [|exact IH'].
    intros Hin. apply Hx. apply in_map_iff in Hin as (y & Hy & Hin).
    apply in_map_iff. exists y. split; [exact Hy|]. apply filter_In in Hin. tauto.
  - intros y Hy. apply filter_In in Hy. apply Hle. tauto.
Qed.

Lemma find_id_above (l : list A) (seq i : Z) :
  (forall y, In y l -> (id y <= seq)%Z) -> (seq < i)%Z ->
  List.find (fun x => (id x =? i)%Z) l = None.
Proof.
  intros Hle Hi. induction l as [|x l IH]; simpl; [reflexivity|].
  destruct (Z.eqb_spec (id x) i) as [E|E].
  - specialize (Hle x (or_introl eq_refl)). lia.
  - apply IH. intros y Hy. apply Hle. right. exact Hy.
Qed.

Lemma find_snoc (p : A -> bool) (l : list A) (x : A) :
  List.find p (l ++ [x])
  = match List.find p l with Some y => Some y | None => if p x then Some x else None end.
Proof.
  induction l as [|y l IH]; simpl; [reflexivity|]. destruct (p y); [reflexivity | exact IH].
Qed.

Lemma find_None_existsb (p : A -> bool) (l : list A) :
  List.find p l = None -> List.existsb p l = false.
Proof.
  induction l as [|x l IH]; simpl; [reflexivity|]. destruct (p x); [discriminate | exact IH].
Qed.

Lemma find_None_filter_negb (p : A -> bool) (l : list A) :
  List.find p l = None -> List.filter (fun x => negb (p x)) l = l.
Proof.
  induction l as [|x l IH]; simpl; [reflexivity|].
  destruct (p x); [discriminate|]. simpl. intros H. f_equal. exact (IH H).
Qed.

Lemma find_filter_negb_same (i : Z) (l : list A) :
  List.find (fun x => (id x =? i)%Z) (List.filter (fun x => negb (id x =? i)%Z) l) = None.
Proof.
  induction l as [|x l IH]; simpl; [reflexivity|].
  destruct (id x =? i)%Z eqn:E; simpl; [exact IH|]. rewrite E. exact IH.
Qed.

Lemma find_filter_negb_other (i j : Z) (l : list A) :
  j <> i ->
  List.find (fun x => (id x =? j)%Z) (List.filter (fun x => negb (id x =? i)%Z) l)
  = List.find (fun x => (id x =? j)%Z) l.
Proof.
  intros Hj. induction l as [|x l IH]; simpl; [reflexivity|].
  destruct (Z.eqb_spec (id x) i) as [E|E]; simpl.
  - destruct (Z.eqb_spec (id x) j) as [E'|E']; [congruence | exact IH].
  - destruct (id x =? j)%Z; [reflexivity | exact IH].
Qed.
End table.

Lemma well_sequenced_add_river (db : store) (now : string) (d : Py.dict) :
  well_sequenced db -> well_sequenced (fst (DatabaseManager.add_river db now d)).
Proof.
  intros Hw. destruct (DatabaseManager.add_river db now d) as [db' [i|e]] eqn:H.
  - apply add_river_appends in H as (row & Hrow & ->).
    destruct (checked_river_values_row d row (seq_rivers db + 1)%Z now now Hrow)
      as (_ & _ & Hid & _).
    destruct Hw as ((Hdup & Hle) & Hdocs & Htrips). unfold well_sequenced. simpl.
    destruct (table_snoc River.id _ _ _ Hdup Hle Hid) as [Hdup' Hle'].
    repeat split; try tauto.
  - assert (Hr : Py.is_ok (snd (DatabaseManager.add_river db now d)) = false)
      by (rewrite H; reflexivity).
    apply add_river_Raise in Hr as [e' Hr]. rewrite Hr in H. injection H as <- _. exact Hw.
Qed.

Lemma well_sequenced_update_river (db : store) (now : string) (river_id : Z) (d : Py.dict) :
  well_sequenced db -> well_sequenced (fst (DatabaseManager.update_river db now river_id d)).
Proof.
  intros Hw.
  destruct (update_river_rows db now river_id d) as [[e ->] | [[-> _] | (row & Hrow & ->)]];
    try exact Hw.
  destruct Hw as ((Hdup & Hle) & Hdocs & Htrips). unfold well_sequenced. simpl.
  assert (Hid : forall r, River.id (if (River.id r =? river_id)%Z
                                    then row (River.id r) (River.date_added r) now else r)
                          = River.id r).
  { intros r. destruct (River.id r =? river_id)%Z; [|reflexivity].
    apply (checked_river_values_row d row (River.id r) (River.date_added r) now Hrow). }
  split; [|tauto]. split.
  - rewrite (table_map River.id _ _ Hid). exact Hdup.
  - intros r Hr. apply in_map_iff in Hr as (r0 & <- & Hr0). rewrite Hid. apply Hle, Hr0.
Qed.

Lemma well_sequenced_delete_river (db : store) (river_id : Z) :
  well_sequenced db -> well_sequenced (DatabaseManager.delete_river db river_id).
Proof.
  intros ((Hdup & Hle) & Hdocs & Htrips). split; [|split; assumption].
  apply (table_filter River.id); assumption.
Qed.

Lemma well_sequenced_add_document (db : store) (now : string) (fs : string -> option Z)
    (river_id : Z) (file_path description : string) :
  well_sequenced db ->
  well_sequenced (fst (DatabaseManager.add_document db now fs river_id file_path description)).
Proof.
  intros Hw. unfold DatabaseManager.add_document. destruct (fs file_path); [|exact Hw].
  destruct Hw as (Hrivers & (Hdup & Hle) & Htrips). unfold well_sequenced. simpl.
  split; [exact Hrivers|]. split; [|exact Htrips].
  apply (table_snoc Document.id _ _ _ Hdup Hle). reflexivity.
Qed.

Lemma well_sequenced_add_trip_log (db : store) (now : string) (d : Py.dict) :
  well_sequenced db -> well_sequenced (fst (DatabaseManager.add_trip_log db now d)).
Proof.
  intros Hw. unfold DatabaseManager.add_trip_log.
  destruct (DatabaseManager.insert_trip_log db now d) as [t|e] eqn:H; [|exact Hw].
  apply insert_trip_log_row in H as (_ & _ & _ & Hid & _).
  destruct Hw as (Hrivers & Hdocs & Hdup & Hle). unfold well_sequenced. simpl.
  split; [exact Hrivers|]. split; [exact Hdocs|]. rewrite Hid.
  apply (table_snoc Trip.id _ _ _ Hdup Hle Hid).
Qed.

Lemma well_sequenced_update_trip_log (db : store) (trip_id : Z) (d : Py.dict) :
  well_sequenced db -> well_sequenced (fst (DatabaseManager.update_trip_log db trip_id d)).
Proof.
  intros Hw. unfold DatabaseManager.update_trip_log.
  destruct (DatabaseManager.bind_all d DatabaseManager.trip_parameters); [|exact Hw].
  destruct (List.existsb _ (trip_logs db)); [|exact Hw].
  destruct (DatabaseManager.trip_values d) as [row|e] eqn:Hrow; [|exact Hw].
  destruct Hw as (Hrivers & Hdocs & Hdup & Hle). unfold well_sequenced. simpl.
  assert (Hid : forall t, Trip.id (if (Trip.id t =? trip_id)%Z
                                   then row (Trip.id t) (Trip.created_date t) else t)
                          = Trip.id t).
  { intros t. destruct (Trip.id t =? trip_id)%Z; [|reflexivity].
    apply (trip_values_row d row (Trip.id t) (Trip.created_date t) Hrow). }
  split; [exact Hrivers|]. split; [exact Hdocs|]. split.
  - rewrite (table_map Trip.id _ _ Hid). exact Hdup.
  - intros t Ht. apply in_map_iff in Ht as (t0 & <- & Ht0). rewrite Hid. apply Hle, Ht0.
Qed.

Lemma well_sequenced_delete_trip_log (db : store) (trip_id : Z) :
  well_sequenced db -> well_sequenced (DatabaseManager.delete_trip_log db trip_id).
Proof.
  intros (Hrivers & Hdocs & Hdup & Hle). split; [exact Hrivers|]. split; [exact Hdocs|].
  apply (table_filter Trip.id); assumption.
Qed.

Lemma well_sequenced_empty_store : well_sequenced empty_store.
Proof.
  unfold well_sequenced. simpl. repeat split; try constructor; contradiction.
Qed.

(** X9. Every write of [DatabaseManager] keeps the ids of each table
    distinct and at most the table's AUTOINCREMENT counter, whether it
    succeeds or raises; the empty file [init_database] makes starts that
    way. *)
Theorem writes_keep_ids_distinct (db : store) :
  well_sequenced db ->
  (forall now d, well_sequenced (fst (DatabaseManager.add_river db now d))) /\
  (forall now river_id d,
      well_sequenced (fst (DatabaseManager.update_river db now river_id d))) /\
  (forall river_id, well_sequenced (DatabaseManager.delete_river db river_id)) /\
  (forall now fs river_id file_path description,
      well_sequenced
        (fst (DatabaseManager.add_document db now fs river_id file_path description))) /\
  (forall now d, well_sequenced (fst (DatabaseManager.add_trip_log db now d))) /\
  (forall trip_id d, well_sequenced (fst (DatabaseManager.update_trip_log db trip_id d))) /\
  (forall trip_id, well_sequenced (DatabaseManager.delete_trip_log db trip_id)) /\
  well_sequenced (DatabaseManager.init_database None).
Proof.
  intros Hw.
  split; [intros; apply well_sequenced_add_river; exact Hw|].
  split; [intros; apply well_sequenced_update_river; exact Hw|].
  split; [intros; apply well_sequenced_delete_river; exact Hw|].
  split; [intros; apply well_sequenced_add_document; exact Hw|].
  split; [intros; apply well_sequenced_add_trip_log; exact Hw|].
  split; [intros; apply well_sequenced_update_trip_log; exact Hw|].
  split; [intros; apply well_sequenced_delete_trip_log; exact Hw|].
  unfold well_sequenced. simpl. repeat split; try constructor; contradiction.
Qed.

(** ** Adding a river and reading it back *)

(** X10. In a store whose ids are in order, the id [add_river] returns was
    not in use, [get_river_by_id] on it returns the new row, with the name
    and location given as text and both timestamps at the time of the
    insert, and every other id reads as before. *)
Theorem add_river_then_get_river_by_id (db db' : store) (now : string) (d : Py.dict) (i : Z) :
  well_sequenced db ->
  DatabaseManager.add_river db now d = (db', Ok i) ->
  DatabaseManager.get_river_by_id db i = None /\
  (exists r,
      DatabaseManager.get_river_by_id db' i = Some r /\
      River.id r = i /\
      (forall name, Py.get d "name" (VStr "") = VStr name -> River.name r = name) /\
      (forall location, Py.get d "location" (VStr "") = VStr location ->
                        River.location r = location) /\
      River.date_added r = now /\ River.last_updated r = now) /\
  forall j, j <> i -> DatabaseManager.get_river_by_id db' j = DatabaseManager.get_river_by_id db j.
Proof.
  intros ((_ & Hle) & _) H.
  unfold DatabaseManager.add_river, DatabaseManager.insert_river in H.
  destruct (DatabaseManager.checked_river_values d) as [row|e] eqn:Hrow; simpl in H;
    [|discriminate].
  destruct (checked_river_values_row d row (seq_rivers db + 1)%Z now now Hrow)
    as (Hname & Hloc & Hid & Hadded & Hupdated).
  injection H as <- <-. rewrite Hid.
  assert (Hfresh : DatabaseManager.get_river_by_id db (seq_rivers db + 1)%Z = None)
    by (apply (find_id_above River.id _ (seq_rivers db)); [exact Hle | lia]).
  split; [exact Hfresh|]. unfold DatabaseManager.get_river_by_id in *. simpl. split.
  - exists (row (seq_rivers db + 1)%Z now now).
    rewrite find_snoc, Hfresh, Hid, Z.eqb_refl.
    split; [reflexivity|]. split; [reflexivity|].
    split; [intros name E; rewrite E in Hname; apply (text_not_null_str _ _ Hname)|].
    split; [intros location E; rewrite E in Hloc; apply (text_not_null_str _ _ Hloc)|].
    split; assumption.
  - intros j Hj. rewrite find_snoc, Hid.
    destruct (Z.eqb_spec (seq_rivers db + 1) j) as [E|E]; [congruence|].
    destruct (List.find (fun r => (River.id r =? j)%Z) (rivers db)); reflexivity.
Qed.

(** X11. An id is never given twice: after any delete, the id of the next
    river added is above the id of every river the table held before, the
    deleted one included; the same for trip logs. *)
Theorem ids_never_reused (db : store) :
  well_sequenced db ->
  (forall river_id now d db' i r,
      In r (rivers db) ->
      DatabaseManager.add_river (DatabaseManager.delete_river db river_id) now d = (db', Ok i) ->
      (River.id r < i)%Z) /\
  (forall trip_id now d db' i t,
      In t (trip_logs db) ->
      DatabaseManager.add_trip_log (DatabaseManager.delete_trip_log db trip_id) now d
      = (db', Ok i) ->
      (Trip.id t < i)%Z).
Proof.
  intros ((_ & Hr) & _ & _ & Ht). split.
  - intros river_id now d db' i r Hin H.
    unfold DatabaseManager.add_river, DatabaseManager.insert_river in H.
    destruct (DatabaseManager.checked_river_values d) as [row|e] eqn:Hrow; simpl in H;
      [|discriminate].
    destruct (checked_river_values_row d row (seq_rivers db + 1)%Z now now Hrow)
      as (_ & _ & Hid & _).
    injection H as _ <-. rewrite Hid. apply Hr in Hin. lia.
  - intros trip_id now d db' i t Hin H. unfold DatabaseManager.add_trip_log in H.
    destruct (DatabaseManager.insert_trip_log _ now d) as [t'|e] eqn:Hins; [|discriminate].
    apply insert_trip_log_row in Hins as (_ & _ & _ & Hid & _).
    injection H as _ <-. rewrite Hid. simpl. apply Ht in Hin. lia.
Qed.

(** ** Writes that name no row *)

Lemma river_values_ok (d : Py.dict) :
  all_bindable d -> exists values, DatabaseManager.river_values d = Ok values.
Proof.
  intros Hd. unfold DatabaseManager.river_values. bind_gets d Hd. simpl. eauto.
Qed.

Lemma bind_all_ok (d : Py.dict) :
  all_bindable d ->
  exists values, DatabaseManager.bind_all d DatabaseManager.trip_parameters = Ok values.
Proof.
  intros Hd. unfold DatabaseManager.trip_parameters, DatabaseManager.bind_all.
  bind_gets d Hd. simpl. eauto.
Qed.

Lemma no_trip_find (db : store) (trip_id : Z) :
  (forall t, In t (trip_logs db) -> Trip.id t <> trip_id) ->
  List.find (fun t => (Trip.id t =? trip_id)%Z) (trip_logs db) = None.
Proof.
  intros H. destruct (List.find _ (trip_logs db)) as [t|] eqn:E; [|reflexivity].
  apply find_some in E as [Hin Heq]. apply Z.eqb_eq in Heq. destruct (H t Hin Heq).
Qed.

(** X12. A write that names an id no row has changes nothing.
    [update_river] and [update_trip_log] then report no error for any
    record whose values can be bound, also one with no name or no date;
    [delete_river] and [delete_trip_log] leave the store as it is. *)
Theorem writes_to_unknown_id_change_nothing (db : store) :
  (forall river_id now d,
      DatabaseManager.get_river_by_id db river_id = None ->
      fst (DatabaseManager.update_river db now river_id d) = db /\
      (all_bindable d -> snd (DatabaseManager.update_river db now river_id d) = Ok tt)) /\
  (forall river_id,
      DatabaseManager.get_river_by_id db river_id = None ->
      DatabaseManager.delete_river db river_id = db) /\
  (forall trip_id d,
      (forall t, In t (trip_logs db) -> Trip.id t <> trip_id) ->
      fst (DatabaseManager.update_trip_log db trip_id d) = db /\
      (all_bindable d -> snd (DatabaseManager.update_trip_log db trip_id d) = Ok tt)) /\
  (forall trip_id,
      (forall t, In t (trip_logs db) -> Trip.id t <> trip_id) ->
      DatabaseManager.delete_trip_log db trip_id = db).
Proof.
  split; [|split; [|split]].
  - intros river_id now d Hnone. unfold DatabaseManager.get_river_by_id in Hnone.
    unfold DatabaseManager.update_river. rewrite (find_None_existsb _ _ Hnone). split.
    + destruct (DatabaseManager.river_values d); reflexivity.
    + intros Hd. destruct (river_values_ok d Hd) as [values ->]. reflexivity.
  - intros river_id Hnone. unfold DatabaseManager.get_river_by_id in Hnone.
    unfold DatabaseManager.delete_river, DatabaseManager.execute_delete_river. simpl.
    rewrite (find_None_filter_negb _ _ Hnone). destruct db; reflexivity.
  - intros trip_id d Hnone. apply no_trip_find in Hnone.
    unfold DatabaseManager.update_trip_log. rewrite (find_None_existsb _ _ Hnone). split.
    + destruct (DatabaseManager.bind_all d _); reflexivity.
    + intros Hd. destruct (bind_all_ok d Hd) as [values ->]. reflexivity.
  - intros trip_id Hnone. apply no_trip_find in Hnone.
    unfold DatabaseManager.delete_trip_log, set_trip_logs.
    rewrite (find_None_filter_negb _ _ Hnone). destruct db; reflexivity.
Qed.

(** ** Deleting a river *)

(** X13. After [delete_river] the id reads as absent, every other id reads
    as before, and [get_all_rivers] lists the rivers it listed except the
    one deleted. *)
Theorem delete_river_then_get_river_by_id (db : store) (river_id : Z) :
  DatabaseManager.get_river_by_id (DatabaseManager.delete_river db river_id) river_id = None /\
  (forall j, j <> river_id ->
             DatabaseManager.get_river_by_id (DatabaseManager.delete_river db river_id) j
             = DatabaseManager.get_river_by_id db j) /\
  (forall r, In r (DatabaseManager.get_all_rivers (DatabaseManager.delete_river db river_id)) <->
             In r (DatabaseManager.get_all_rivers db) /\ River.id r <> river_id).
Proof.
  unfold DatabaseManager.get_river_by_id. simpl. split; [|split].
  - apply (find_filter_negb_same River.id).
  - intros j Hj. apply (find_filter_negb_other River.id). exact Hj.
  - intros r. rewrite !In_get_all_rivers. simpl. rewrite filter_In, negb_true_iff, Z.eqb_neq.
    reflexivity.
Qed.

(** ** Trip logs: adding, updating, deleting *)

Lemma filter_none {A : Type} (p : A -> bool) (l : list A) :
  (forall x, In x l -> p x = false) -> List.filter p l = [].
Proof.
  induction l as [|x l IH]; intros H; simpl; [reflexivity|].
  rewrite (H x (or_introl eq_refl)). apply IH. intros y Hy. apply H. right. exact Hy.
Qed.

Lemma filter_all {A : Type} (p : A -> bool) (l : list A) :
  (forall x, In x l -> p x = true) -> List.filter p l = l.
Proof.
  induction l as [|x l IH]; intros H; simpl; [reflexivity|].
  rewrite (H x (or_introl eq_refl)). f_equal. apply IH. intros y Hy. apply H. right. exact Hy.
Qed.

Lemma filter_id_filter_negb_same {A : Type} (id : A -> Z) (i : Z) (l : list A) :
  List.filter (fun x => (id x =? i)%Z) (List.filter (fun x => negb (id x =? i)%Z) l) = [].
Proof.
  apply filter_none. intros x Hx. apply filter_In in Hx as [_ Hx].
  apply negb_true_iff. exact Hx.
Qed.

Lemma filter_id_filter_negb_other {A : Type} (id : A -> Z) (i j : Z) (l : list A) :
  j <> i ->
  List.filter (fun x => (id x =? j)%Z) (List.filter (fun x => negb (id x =? i)%Z) l)
  = List.filter (fun x => (id x =? j)%Z) l.
Proof.
  intros Hj. induction l as [|x l IH]; simpl; [reflexivity|].
  destruct (Z.eqb_spec (id x) i) as [E|E]; simpl.
  - destruct (Z.eqb_spec (id x) j) as [E'|E']; [congruence | exact IH].
  - destruct (id x =? j)%Z; [f_equal|]; exact IH.
Qed.

Lemma join_rivers_snoc (db : store) (t : Trip.t) (seq : Z) :
  DatabaseManager.join_rivers (set_trip_logs db (trip_logs db ++ [t]) seq)
  = (DatabaseManager.join_rivers db
     ++ List.map (fun r => TripRow.mk t (River.name r))
          (List.filter (fun r => Sql.eq_int (Trip.river_id t) (River.id r)) (rivers db)))%list.
Proof.
  unfold DatabaseManager.join_rivers. simpl. rewrite flat_map_app. simpl.
  rewrite app_nil_r. reflexivity.
Qed.

Lemma join_rivers_delete_trip_log (db : store) (trip_id : Z) :
  DatabaseManager.join_rivers (DatabaseManager.delete_trip_log db trip_id)
  = List.filter (fun row => negb (Trip.id (TripRow.trip row) =? trip_id)%Z)
      (DatabaseManager.join_rivers db).
Proof.
  unfold DatabaseManager.join_rivers, DatabaseManager.delete_trip_log. simpl.
  induction (trip_logs db) as [|t l IH]; simpl; [reflexivity|].
  rewrite List.filter_app, <- IH. destruct (Trip.id t =? trip_id)%Z eqn:E; simpl.
  - rewrite (filter_none _ (List.map _ _)); [reflexivity|].
    intros row Hrow. apply in_map_iff in Hrow as (r & <- & _). simpl. rewrite E. reflexivity.
  - rewrite (filter_all _ (List.map _ _)); [reflexivity|].
    intros row Hrow. apply in_map_iff in Hrow as (r & <- & _). simpl. rewrite E. reflexivity.
Qed.

(** X14. [add_trip_log] checks no reference: an integer [river_id] is
    stored as given.  In a store whose ids are in order,
    [get_trip_log_by_id] on the id returned gives the new row with the
    name of its river when a river has that id, and nothing when none has;
    every other id reads as before. *)
Theorem add_trip_log_then_get_trip_log_by_id (db db' : store) (now : string) (d : Py.dict)
    (i : Z) :
  well_sequenced db ->
  DatabaseManager.add_trip_log db now d = (db', Ok i) ->
  exists t,
    trip_logs db' = (trip_logs db ++ [t])%list /\
    Trip.id t = i /\ Trip.created_date t = now /\
    (forall z, Py.get d "river_id" VNone = VInt z -> Trip.river_id t = SqlInt z) /\
    (forall r, In r (rivers db) -> Trip.river_id t = SqlInt (River.id r) ->
               DatabaseManager.get_trip_log_by_id db' i = Some (TripRow.mk t (River.name r))) /\
    ((forall r, In r (rivers db) -> Trip.river_id t <> SqlInt (River.id r)) ->
     DatabaseManager.get_trip_log_by_id db' i = None) /\
    forall j, j <> i ->
              DatabaseManager.get_trip_log_by_id db' j = DatabaseManager.get_trip_log_by_id db j.
Proof.
  intros ((Hdup & _) & _ & _ & Hle) H. unfold DatabaseManager.add_trip_log in H.
  destruct (DatabaseManager.insert_trip_log db now d) as [t|e] eqn:Hins; [|discriminate].
  injection H as <- <-.
  apply insert_trip_log_row in Hins as (Hrid & _ & _ & Hid & Hcreated).
  exists t. split; [reflexivity|]. split; [reflexivity|]. split; [exact Hcreated|].
  split; [intros z Hz; rewrite Hz in Hrid; apply bind_int_Ok in Hrid; tauto|].
  assert (Hold : forall row, In row (DatabaseManager.join_rivers db) ->
                             (Trip.id (TripRow.trip row) =? Trip.id t)%Z = false).
  { intros row Hrow. apply In_join_rivers in Hrow as (t0 & r0 & Ht0 & _ & _ & ->). simpl.
    apply Z.eqb_neq. apply Hle in Ht0. lia. }
  unfold DatabaseManager.get_trip_log_by_id. rewrite join_rivers_snoc, !List.filter_app.
  split; [|split].
  - intros r Hr Heq. rewrite (filter_none _ _ Hold). simpl.
    rewrite Heq, (filter_unique_id _ _ Hdup Hr). simpl. rewrite Z.eqb_refl. reflexivity.
  - intros Hnone. rewrite (filter_none _ _ Hold). simpl.
    rewrite (filter_none _ (rivers db)); [reflexivity|].
    intros r Hr. specialize (Hnone r Hr).
    destruct (Trip.river_id t); simpl; try reflexivity.
    apply Z.eqb_neq. congruence.
  - intros j Hj. rewrite List.filter_app.
    rewrite (filter_none _ (List.map _ _)); [rewrite app_nil_r; reflexivity|].
    intros row Hrow. apply in_map_iff in Hrow as (r & <- & _). simpl.
    apply Z.eqb_neq. congruence.
Qed.

(** X15. [update_trip_log] leaves the rivers and the attachments alone,
    keeps the id and the creation date of every trip log, and changes no
    row but the one named.  When it reports no error, the row named
    carries the integer [river_id] given.  A record without a
    trip date changes nothing, and is refused with an integrity error when
    the row exists and the values can be bound. *)
Theorem update_trip_log_effect (db : store) (trip_id : Z) (d : Py.dict) :
  let db' := fst (DatabaseManager.update_trip_log db trip_id d) in
  rivers db' = rivers db /\
  river_documents db' = river_documents db /\
  List.map Trip.id (trip_logs db') = List.map Trip.id (trip_logs db) /\
  List.map Trip.created_date (trip_logs db') = List.map Trip.created_date (trip_logs db) /\
  (forall t, In t (trip_logs db) -> Trip.id t <> trip_id -> In t (trip_logs db')) /\
  (forall t, snd (DatabaseManager.update_trip_log db trip_id d) = Ok tt ->
             In t (trip_logs db') -> Trip.id t = trip_id ->
             forall z, Py.get d "river_id" VNone = VInt z -> Trip.river_id t = SqlInt z) /\
  (Py.get d "trip_date" VNone = VNone ->
   db' = db /\
   (all_bindable d -> (exists t, In t (trip_logs db) /\ Trip.id t = trip_id) ->
    snd (DatabaseManager.update_trip_log db trip_id d) = Raise Py.IntegrityError)).
Proof.
  unfold DatabaseManager.update_trip_log.
  destruct (DatabaseManager.bind_all d DatabaseManager.trip_parameters) as [vs|e] eqn:Hbind.
  - destruct (List.existsb _ (trip_logs db)) eqn:Hex.
    + destruct (DatabaseManager.trip_values d) as [row|e] eqn:Hrow; simpl.
      * assert (Hkeep : forall t, Trip.id (if (Trip.id t =? trip_id)%Z
                                          then row (Trip.id t) (Trip.created_date t) else t)
                                  = Trip.id t /\
                                  Trip.created_date (if (Trip.id t =? trip_id)%Z
                                                     then row (Trip.id t) (Trip.created_date t)
                                                     else t)
                                  = Trip.created_date t).
        { intros t. destruct (Trip.id t =? trip_id)%Z; [|split; reflexivity].
          destruct (trip_values_row d row (Trip.id t) (Trip.created_date t) Hrow)
            as (_ & _ & _ & H1 & H2). split; assumption. }
        split; [reflexivity|]. split; [reflexivity|].
        split; [rewrite List.map_map; apply List.map_ext; intros t; apply Hkeep|].
        split; [rewrite List.map_map; apply List.map_ext; intros t; apply Hkeep|].
        split; [|split].
        -- intros t Ht Hid. apply in_map_iff. exists t. split; [|exact Ht].
           destruct (Z.eqb_spec (Trip.id t) trip_id); [contradiction | reflexivity].
        -- intros t _ Ht Hid z Hz. apply in_map_iff in Ht as (t0 & <- & _).
           destruct (Z.eqb_spec (Trip.id t0) trip_id) as [E|E]; [|contradiction].
           destruct (trip_values_row d row (Trip.id t0) (Trip.created_date t0) Hrow)
             as (H1 & _). rewrite Hz in H1. apply bind_int_Ok in H1 as [H1 _]. exact H1.
        -- intros Hdate.
           destruct (trip_values_row d row 0%Z "" Hrow) as (_ & H2 & H3 & _).
           rewrite Hdate in H2. simpl in H2. injection H2 as H2. congruence.
      * repeat (split; [reflexivity|]). split; [auto|]. split; [discriminate|].
        intros Hdate. split; [reflexivity|]. intros Hd _.
        revert Hrow. unfold DatabaseManager.trip_values. rewrite Hdate. simpl.
        bind_gets d Hd. simpl. congruence.
    + simpl. repeat (split; [reflexivity|]). split; [auto|]. split.
      * intros t _ Ht Hid z _. assert (Htrue : List.existsb (fun t => (Trip.id t =? trip_id)%Z)
                                             (trip_logs db) = true).
        { apply existsb_exists. exists t. split; [exact Ht | apply Z.eqb_eq; exact Hid]. }
        congruence.
      * intros _. split; [reflexivity|]. intros _ (t & Ht & Hid).
        assert (Htrue : List.existsb (fun t => (Trip.id t =? trip_id)%Z) (trip_logs db) = true).
        { apply existsb_exists. exists t. split; [exact Ht | apply Z.eqb_eq; exact Hid]. }
        congruence.
  - simpl. repeat (split; [reflexivity|]). split; [auto|]. split; [discriminate|].
    intros _. split; [reflexivity|]. intros Hd _.
    destruct (bind_all_ok d Hd) as [vs Hvs]. congruence.
Qed.

(** X16. [delete_trip_log] leaves the rivers and the attachments alone;
    after it the id reads as absent, every other id reads as before, and
    [get_trip_logs] lists the rows it listed except the one deleted. *)
Theorem delete_trip_log_then_get_trip_log_by_id (db : store) (trip_id : Z) :
  let db' := DatabaseManager.delete_trip_log db trip_id in
  rivers db' = rivers db /\
  river_documents db' = river_documents db /\
  DatabaseManager.get_trip_log_by_id db' trip_id = None /\
  (forall j, j <> trip_id ->
             DatabaseManager.get_trip_log_by_id db' j = DatabaseManager.get_trip_log_by_id db j) /\
  forall river_id row,
    In row (DatabaseManager.get_trip_logs db' river_id) <->
    In row (DatabaseManager.get_trip_logs db river_id) /\ Trip.id (TripRow.trip row) <> trip_id.
Proof.
  simpl. split; [reflexivity|]. split; [reflexivity|].
  unfold DatabaseManager.get_trip_log_by_id. rewrite join_rivers_delete_trip_log.
  split; [|split].
  - rewrite (filter_id_filter_negb_same (fun row => Trip.id (TripRow.trip row))). reflexivity.
  - intros j Hj.
    rewrite (filter_id_filter_negb_other (fun row => Trip.id (TripRow.trip row)) _ _ _ Hj).
    reflexivity.
  - intros river_id row.
    unfold DatabaseManager.get_trip_logs, DatabaseManager.order_by_trip_date_desc.
    rewrite join_rivers_delete_trip_log.
    destruct river_id as [rid|]; [destruct (Py.truthy (VInt rid))|];
      rewrite !In_order_by, ?filter_In, negb_true_iff, Z.eqb_neq; tauto.
Qed.

(** ** os.path *)

Lemma basename_no_slash (p : string) : Py.mem_char OsPath.slash (OsPath.basename p) = false.
Proof.
  induction p as [|c p IH]; cbn [OsPath.basename]; [reflexivity|].
  destruct (Ascii.eqb c OsPath.slash) eqn:Ec; [exact IH|].
  destruct (Py.mem_char OsPath.slash p) eqn:Ep; [exact IH|].
  cbn [Py.mem_char]. rewrite Ep, orb_false_r. rewrite Ascii.eqb_sym. exact Ec.
Qed.

Lemma basename_plain (p : string) :
  Py.mem_char OsPath.slash p = false -> OsPath.basename p = p.
Proof.
  destruct p as [|c p]; cbn [OsPath.basename Py.mem_char]; [reflexivity|]. intros H.
  apply orb_false_iff in H as [Hc Hp]. rewrite Ascii.eqb_sym, Hc, Hp. reflexivity.
Qed.

Lemma append_nil_l (s : string) : "" ++ s = s.
Proof. reflexivity. Qed.

Lemma append_cons (c : ascii) (a b : string) : String c a ++ b = String c (a ++ b).
Proof. reflexivity. Qed.

Lemma append_assoc (a b c : string) : (a ++ b) ++ c = a ++ (b ++ c).
Proof.
  induction a as [|x a IH]; [reflexivity|]. rewrite !append_cons, IH. reflexivity.
Qed.

Lemma mem_char_app (c : ascii) (a b : string) :
  Py.mem_char c (a ++ b) = Py.mem_char c a || Py.mem_char c b.
Proof.
  induction a as [|x a IH]; [reflexivity|].
  rewrite append_cons. cbn [Py.mem_char]. rewrite IH, orb_assoc. reflexivity.
Qed.

Lemma basename_app_slash (a b : string) :
  OsPath.basename (a ++ String OsPath.slash b) = OsPath.basename b.
Proof.
  induction a as [|c a IH]; rewrite ?append_nil_l, ?append_cons; cbn [OsPath.basename].
  - rewrite Ascii.eqb_refl. reflexivity.
  - destruct (Ascii.eqb c OsPath.slash); [exact IH|].
    rewrite mem_char_app. cbn [Py.mem_char]. rewrite Ascii.eqb_refl, orb_true_r. exact IH.
Qed.

Lemma rev_app_acc (a acc : string) : String.rev_app a acc = String.rev_app a "" ++ acc.
Proof.
  revert acc. induction a as [|c a IH]; intros acc; simpl; [reflexivity|].
  rewrite (IH (String c acc)), (IH (String c "")).
  rewrite append_assoc. reflexivity.
Qed.

Lemma rev_last (a : string) :
  a = "" \/ exists a' c, a = a' ++ String c "" /\ String.rev a = String c (String.rev a').
Proof.
  induction a as [|c0 a IH]; [left; reflexivity|]. right.
  destruct IH as [-> | (a' & c & -> & Hrev)].
  - exists "", c0. split; reflexivity.
  - exists (String c0 a'), c. split; [reflexivity|].
    unfold String.rev in *. cbn [String.rev_app].
    rewrite (rev_app_acc (a' ++ String c "")), Hrev, append_cons.
    rewrite (rev_app_acc a' (String c0 "")). reflexivity.
Qed.

Lemma endswith_slash_inv (a : string) :
  OsPath.endswith_slash a = true -> exists a', a = a' ++ String OsPath.slash "".
Proof.
  unfold OsPath.endswith_slash. destruct (rev_last a) as [-> | (a' & c & -> & ->)];
    [discriminate|].
  intros H. apply Ascii.eqb_eq in H as ->. eauto.
Qed.

Lemma basename_join (a b : string) :
  b <> "" -> Py.mem_char OsPath.slash b = false -> OsPath.basename (OsPath.join a b) = b.
Proof.
  intros Hb Hslash. destruct b as [|c b]; [congruence|].
  assert (Hc : Ascii.eqb c OsPath.slash = false).
  { cbn [Py.mem_char] in Hslash. apply orb_false_iff in Hslash as [Hc _].
    rewrite Ascii.eqb_sym. exact Hc. }
  unfold OsPath.join. rewrite Hc.
  destruct (String.eqb_spec a "") as [->|Ha]; simpl orb.
  - apply basename_plain. exact Hslash.
  - destruct (OsPath.endswith_slash a) eqn:Hend.
    + apply endswith_slash_inv in Hend as [a' ->].
      rewrite append_assoc, append_cons, append_nil_l, basename_app_slash.
      apply basename_plain. exact Hslash.
    + rewrite basename_app_slash. apply basename_plain. exact Hslash.
Qed.

(** ** Attachments *)

Lemma get_river_documents_snoc (db : store) (doc : Document.t) (seq river_id : Z) :
  DatabaseManager.get_river_documents
    (set_river_documents db (river_documents db ++ [doc]) seq) river_id
  = (DatabaseManager.get_river_documents db river_id
     ++ if Sql.eq_int (Document.river_id doc) river_id then [doc] else [])%list.
Proof.
  unfold DatabaseManager.get_river_documents. simpl. rewrite List.filter_app. reflexivity.
Qed.

(** X17. [add_document] raises and stores nothing when the file has no
    size to read.  Otherwise it appends one row for the river id given,
    whether or not a river has that id: [get_river_documents] on that id
    returns the rows it returned and the new one last, and other ids read
    as before.  The row keeps the path as given, and as its name the last
    component of the path, which holds no slash. *)
Theorem add_document_then_get_river_documents (db : store) (now : string)
    (fs : string -> option Z) (river_id : Z) (file_path description : string) :
  match fs file_path with
  | None =>
      DatabaseManager.add_document db now fs river_id file_path description
      = (db, Raise Py.OSError)
  | Some file_size =>
      let db' := fst (DatabaseManager.add_document db now fs river_id file_path description) in
      snd (DatabaseManager.add_document db now fs river_id file_path description) = Ok tt /\
      rivers db' = rivers db /\ trip_logs db' = trip_logs db /\
      exists doc,
        DatabaseManager.get_river_documents db' river_id
        = (DatabaseManager.get_river_documents db river_id ++ [doc])%list /\
        (forall other, other <> river_id ->
                       DatabaseManager.get_river_documents db' other
                       = DatabaseManager.get_river_documents db other) /\
        Document.file_path doc = file_path /\
        Document.file_name doc = OsPath.basename file_path /\
        Py.mem_char OsPath.slash (Document.file_name doc) = false /\
        Document.file_size doc = SqlInt file_size /\
        Document.description doc = SqlText description /\
        Document.upload_date doc = now
  end.
Proof.
  unfold DatabaseManager.add_document. destruct (fs file_path) as [file_size|]; [|reflexivity].
  cbn [fst snd]. split; [reflexivity|]. split; [reflexivity|]. split; [reflexivity|].
  eexists. rewrite get_river_documents_snoc. cbn [Document.river_id Sql.eq_int].
  rewrite Z.eqb_refl. split; [reflexivity|]. split.
  - intros other Hother. rewrite get_river_documents_snoc. cbn [Document.river_id Sql.eq_int].
    destruct (Z.eqb_spec river_id other); [congruence|]. apply app_nil_r.
  - cbn. repeat split. apply basename_no_slash.
Qed.

(** X18. With a river shown and a file chosen, [add_file] goes by what
    happens to the copy.  When the file cannot be copied it shows the
    error dialog and neither the store nor the file system has changed.
    When the copy is made and the description is confirmed, it shows the
    success dialog and has appended one row for the river shown, with the
    path of the copy under the attachments directory, its size and the
    description entered; the name stored is the name of the copy,
    timestamp included.  When the copy is made and the description dialog
    is cancelled, it shows no dialog, the store is unchanged and the copy
    stays on disk with no row naming it. *)
Theorem add_file_outcomes (river_id : Z) (attachments_dir : string) (db : store)
    (fs : Os.filesystem) (now file_path timestamp description : string) (ok : bool) :
  river_id <> 0%Z -> file_path <> "" ->
  let new_file_name := timestamp ++ "_" ++ OsPath.basename file_path in
  let new_file_path := OsPath.join attachments_dir new_file_name in
  let '(db', fs', out) :=
    FileAttachmentWidget.add_file (Some river_id) attachments_dir db fs now file_path timestamp
      description ok in
  match Os.files fs !! file_path with
  | None => db' = db /\ fs' = fs /\ out = FileAttachmentWidget.Error Py.OSError
  | Some content =>
      Os.files fs' = <[new_file_path := content]> (Os.files fs) /\
      if ok then
        out = FileAttachmentWidget.Success /\
        rivers db' = rivers db /\ trip_logs db' = trip_logs db /\
        exists doc,
          river_documents db' = (river_documents db ++ [doc])%list /\
          Document.river_id doc = SqlInt river_id /\
          Document.file_path doc = new_file_path /\
          Document.file_size doc = SqlInt (Z.of_nat (String.length content)) /\
          Document.description doc = SqlText description /\
          (Py.mem_char OsPath.slash timestamp = false ->
           Document.file_name doc = new_file_name)
      else out = FileAttachmentWidget.Nothing /\ db' = db
  end.
Proof.
  intros Hrid Hpath new_file_name new_file_path. unfold FileAttachmentWidget.add_file.
  replace (Py.truthy (VInt river_id)) with true
    by (symmetry; apply negb_true_iff, Z.eqb_neq; exact Hrid).
  replace (Py.truthy (VStr file_path)) with true
    by (symmetry; apply negb_true_iff, String.eqb_neq; exact Hpath).
  cbn [negb]. fold new_file_name. fold new_file_path. unfold Os.copy2.
  destruct (Os.files fs !! file_path) as [content|] eqn:Hsrc; [|auto].
  destruct ok; [|auto].
  unfold DatabaseManager.add_document, Os.getsize. cbn [Os.files].
  rewrite lookup_insert_eq. split; [reflexivity|]. split; [reflexivity|].
  split; [reflexivity|]. split; [reflexivity|].
  eexists. split; [reflexivity|]. cbn. repeat split.
  intros Hts. apply basename_join.
  - unfold new_file_name. destruct timestamp; discriminate.
  - unfold new_file_name. rewrite !mem_char_app, Hts, basename_no_slash. reflexivity.
Qed.

(** X19. Once confirmed, [remove_file] deletes the row of the selected
    attachment and no other row before it turns to the file, and leaves
    the rivers and the trip logs alone.  When no file is at the path it
    shows the success dialog and the file system is as it was; when the
    file is there and can be deleted it shows the success dialog, the file
    is gone and the other files are as they were; when the file cannot be
    deleted it shows the error dialog, the file still there and the row
    gone all the same.  Unconfirmed, it changes nothing. *)
Theorem remove_file_outcomes (db : store) (fs : Os.filesystem) (doc_data : Document.t)
    (reply_yes : bool) :
  let '(db', fs', out) :=
    FileAttachmentWidget.remove_file db fs (Some doc_data) reply_yes in
  if reply_yes then
    rivers db' = rivers db /\ trip_logs db' = trip_logs db /\
    (forall d, In d (river_documents db') <->
               In d (river_documents db) /\ Document.id d <> Document.id doc_data) /\
    match Os.files fs !! Document.file_path doc_data with
    | None => fs' = fs /\ out = FileAttachmentWidget.Success
    | Some _ =>
        if bool_decide (Document.file_path doc_data ∈ Os.undeletable fs)
        then fs' = fs /\ out = FileAttachmentWidget.Error Py.OSError
        else out = FileAttachmentWidget.Success /\
             Os.path_exists fs' (Document.file_path doc_data) = false /\
             forall p, p <> Document.file_path doc_data ->
                       Os.files fs' !! p = Os.files fs !! p
    end
  else db' = db /\ fs' = fs /\ out = FileAttachmentWidget.Nothing.
Proof.
  unfold FileAttachmentWidget.remove_file. destruct reply_yes; [|auto].
  assert (Hrows : forall d,
             In d (List.filter (fun d => negb (Document.id d =? Document.id doc_data)%Z)
                     (river_documents db)) <->
             In d (river_documents db) /\ Document.id d <> Document.id doc_data).
  { intros d. rewrite filter_In, negb_true_iff, Z.eqb_neq. reflexivity. }
  unfold Os.path_exists, Os.remove.
  destruct (Os.files fs !! Document.file_path doc_data) as [content|].
  - case_bool_decide as Hdel.
    + split; [reflexivity|]. split; [reflexivity|]. split; [exact Hrows|]. auto.
    + split; [reflexivity|]. split; [reflexivity|]. split; [exact Hrows|].
      split; [reflexivity|]. cbn [Os.files]. rewrite lookup_delete_eq.
      split; [reflexivity|]. intros p Hp. apply lookup_delete_ne. congruence.
  - split; [reflexivity|]. split; [reflexivity|]. split; [exact Hrows|]. auto.
Qed.

(** ** The search box *)

Lemma sublist_List_filter {A : Type} (p : A -> bool) (l : list A) :
  sublist (List.filter p l) l.
Proof.
  induction l as [|x l IH]; simpl; [constructor|].
  destruct (p x); [apply sublist_skip | apply sublist_cons]; exact IH.
Qed.

(** X20. The table [filter_rivers] shows is the list it was given with
    rows left out, in the same order, and all of it when the search box is
    empty and the difficulty is "All".  The search goes by the lowered
    text: two texts that lower to the same text show the same rows.  A
    river is shown exactly when the lowered search text is empty or occurs
    in the lowered text "name location difficulty" of the river, and the
    difficulty chosen is "All" or is, as text, the river's own. *)
Theorem filter_rivers_rows (original_rivers_data : list River.t)
    (search_edit difficulty_filter : string) :
  sublist (MainWindow.filter_rivers original_rivers_data search_edit difficulty_filter)
    original_rivers_data /\
  MainWindow.filter_rivers original_rivers_data "" "All" = original_rivers_data /\
  (forall other,
      Py.lower other = Py.lower search_edit ->
      MainWindow.filter_rivers original_rivers_data other difficulty_filter
      = MainWindow.filter_rivers original_rivers_data search_edit difficulty_filter) /\
  (forall river,
      In river (MainWindow.filter_rivers original_rivers_data search_edit difficulty_filter) <->
      In river original_rivers_data /\
      (Py.lower search_edit = "" \/
       Py.str_contains
         (Py.lower (River.name river ++ " " ++ River.location river ++ " "
                    ++ Py.str (Sql.to_py (River.difficulty_class river))))
         (Py.lower search_edit) = true) /\
      (difficulty_filter = "All" \/
       River.difficulty_class river = SqlText difficulty_filter)).
Proof.
  split; [apply sublist_List_filter|].
  split; [unfold MainWindow.filter_rivers; rewrite Py.lower_empty; apply filter_all; reflexivity|].
  split; [intros other Hother; unfold MainWindow.filter_rivers; rewrite Hother; reflexivity|].
  intros river. unfold MainWindow.filter_rivers. rewrite filter_In, andb_true_iff.
  assert (Hsearch :
            (if Py.truthy (VStr (Py.lower search_edit))
             then Py.str_contains
                    (Py.lower (River.name river ++ " " ++ River.location river ++ " "
                               ++ Py.str (Sql.to_py (River.difficulty_class river))))
                    (Py.lower search_edit)
             else true) = true <->
            Py.lower search_edit = "" \/
            Py.str_contains
              (Py.lower (River.name river ++ " " ++ River.location river ++ " "
                         ++ Py.str (Sql.to_py (River.difficulty_class river))))
              (Py.lower search_edit) = true).
  { cbn [Py.truthy]. destruct (String.eqb_spec (Py.lower search_edit) "") as [E|E]; cbn [negb].
    - split; auto.
    - split; [auto | intros [H | H]; [contradiction | exact H]]. }
  assert (Hdifficulty :
            negb (negb (String.eqb difficulty_filter "All")
                  && negb (Py.eq_str (Sql.to_py (River.difficulty_class river))
                             difficulty_filter)) = true <->
            difficulty_filter = "All" \/
            River.difficulty_class river = SqlText difficulty_filter).
  { destruct (String.eqb_spec difficulty_filter "All") as [E|E]; cbn [negb andb].
    - split; auto.
    - rewrite negb_involutive.
      destruct (River.difficulty_class river) as [|z|x|s]; cbn [Sql.to_py Py.eq_str];
        try (split; [discriminate | intros [H | H]; [contradiction | discriminate]]).
      rewrite String.eqb_eq. split; [intros ->; auto|].
      intros [H | H]; [contradiction | congruence]. }
  rewrite Hsearch, Hdifficulty. reflexivity.
Qed.

(** ** Importing keeps the ids in order *)

Lemma well_sequenced_import_rivers (db : store) (clock : nat -> string) (rivers_data : Py.value) :
  well_sequenced db -> well_sequenced (fst (MainWindow.import_rivers db clock rivers_data)).
Proof.
  intros Hw. unfold MainWindow.import_rivers.
  destruct (Py.iter rivers_data) as [items|e]; [|exact Hw].
  destruct (MainWindow.for_each MainWindow.import_river clock 0 _ items) as [db' res] eqn:H.
  apply (for_each_invariant (fun st => well_sequenced (MainWindow.st_db st))) in H
    as (st' & HP & <- & _); [exact HP| |exact Hw].
  intros now st x st' HP Hstep.
  apply import_river_inv in Hstep
    as (k & _ & [[_ ->] | [(_ & _ & ->) | (_ & r & _ & Hid & _ & _ & ->)]]); try exact HP.
  destruct HP as ((Hdup & Hle) & Hdocs & Htrips). unfold well_sequenced. simpl.
  rewrite Hid. split; [|tauto]. apply (table_snoc River.id _ _ _ Hdup Hle Hid).
Qed.

Lemma well_sequenced_import_trips (db : store) (clock : nat -> string) (trips_data : Py.value) :
  well_sequenced db -> well_sequenced (fst (MainWindow.import_trips db clock trips_data)).
Proof.
  intros Hw. unfold MainWindow.import_trips.
  destruct (Py.iter trips_data) as [items|e]; [|exact Hw].
  destruct (MainWindow.for_each _ clock 0 _ items) as [db' res] eqn:H.
  apply (for_each_invariant (fun st => well_sequenced (MainWindow.st_db st))) in H
    as (st' & HP & <- & _); [exact HP| |exact Hw].
  intros now st x st' HP Hstep.
  apply import_trip_inv in Hstep as [-> | (d & k & i & t & _ & _ & _ & Hins & _ & ->)];
    [exact HP|].
  apply insert_trip_log_row in Hins as (_ & _ & _ & Hid & _).
  destruct HP as (Hrivers & Hdocs & Hdup & Hle). unfold well_sequenced. simpl.
  rewrite Hid. split; [exact Hrivers|]. split; [exact Hdocs|].
  apply (table_snoc Trip.id _ _ _ Hdup Hle Hid).
Qed.

(** X21. [import_data] keeps the ids of each table distinct and at most the
    table's counter, whatever the file and the setting, and also when the
    import ends with an error. *)
Theorem import_data_keeps_ids_distinct (include_trip_logs : bool) (db : store)
    (rivers_clock trips_clock : nat -> string) (file : MainWindow.file_content) :
  well_sequenced db ->
  well_sequenced
    (fst (MainWindow.import_data include_trip_logs db rivers_clock trips_clock file)).
Proof.
  assert (Hshown : forall db0 ri rs ti ts,
             well_sequenced db0 ->
             well_sequenced (fst (MainWindow.show_summary db0 ri rs ti ts))).
  { intros db0 ri rs ti ts H. rewrite (proj1 (show_summary_shown db0 ri rs ti ts)). exact H. }
  intros Hw. destruct file as [e| |v]; [exact Hw ..|].
  destruct v as [| | | | | |d]; try exact Hw.
  simpl. destruct (Py.contains d "rivers"); [|exact Hw]. simpl.
  pose proof (well_sequenced_import_rivers db rivers_clock (Py.get d "rivers" (VList [])) Hw)
    as Hw1.
  destruct (MainWindow.import_rivers db rivers_clock (Py.get d "rivers" (VList [])))
    as [db1 [[ri rs]|e]]; [|exact Hw1].
  simpl in Hw1.
  destruct (include_trip_logs && Py.truthy (Py.get d "trips" (VList []))).
  - pose proof (well_sequenced_import_trips db1 trips_clock (Py.get d "trips" (VList [])) Hw1)
      as Hw2.
    destruct (MainWindow.import_trips db1 trips_clock (Py.get d "trips" (VList [])))
      as [db2 [[ti ts]|e]]; [apply Hshown|]; exact Hw2.
  - destruct (negb include_trip_logs && Py.truthy (Py.get d "trips" (VList [])));
      [destruct (Py.len (Py.get d "trips" (VList [])))|]; try apply Hshown; exact Hw1.
Qed.

End properties.

(** * The properties on concrete stores and documents *)

#[local] Existing Instance Py.ascii_text.
#[local] Existing Instance Scenario.views.

Lemma orphan_trip_unreachable_witness :
  let db := Scenario.db_orphaned in
  In Scenario.orphan (trip_logs db) /\
  (forall r, In r (rivers db) -> Trip.river_id Scenario.orphan <> SqlInt (River.id r)) /\
  forall river_id row,
    In row (DatabaseManager.get_trip_logs db river_id) -> TripRow.trip row <> Scenario.orphan.
Proof.
  assert (Hin : In Scenario.orphan (trip_logs Scenario.db_orphaned))
    by (vm_compute; left; reflexivity).
  assert (Horphan : forall r, In r (rivers Scenario.db_orphaned) ->
                              Trip.river_id Scenario.orphan <> SqlInt (River.id r))
    by (intros r Hr; vm_compute in Hr; destruct Hr).
  split; [exact Hin|]. split; [exact Horphan|].
  exact (proj1 (orphan_trip_unreachable Scenario.db_orphaned Scenario.orphan Hin Horphan)).
Defined.

(** C1. Deleting river 1 from the store that holds it with one trip log and
    one attachment removes the river row only: the trip log and the
    attachment row that reference river 1 are both still in their tables,
    because the connection [delete_river] opens does not enforce the
    foreign keys that carry ON DELETE CASCADE. *)
Theorem delete_river_leaves_dependents :
  let db := Scenario.db_ocoee_full in
  let db' := DatabaseManager.delete_river db 1 in
  DatabaseManager.get_river_by_id db 1 <> None /\
  DatabaseManager.get_river_by_id db' 1 = None /\
  List.length (List.filter (fun t => Sql.eq_int (Trip.river_id t) 1) (trip_logs db')) = 1 /\
  List.length (DatabaseManager.get_river_documents db' 1) = 1.
Proof. vm_compute. repeat split; discriminate. Qed.

Lemma import_trip_unknown_river_skipped_witness :
  MainWindow.normalized (VDict Scenario.gauley_trip) "river_name" = Ok "gauley" /\
  (forall r, In r (rivers Scenario.db_ocoee) -> Py.strip (Py.lower (River.name r)) <> "gauley") /\
  MainWindow.import_trips Scenario.db_ocoee Scenario.clock (VList [VDict Scenario.gauley_trip])
  = (Scenario.db_ocoee, Ok (0, 1)).
Proof.
  assert (Hname : MainWindow.normalized (VDict Scenario.gauley_trip) "river_name" = Ok "gauley")
    by (vm_compute; reflexivity).
  assert (Hnone : forall r, In r (rivers Scenario.db_ocoee) ->
                            Py.strip (Py.lower (River.name r)) <> "gauley")
    by (intros r [<- | []]; vm_compute; discriminate).
  split; [exact Hname|]. split; [exact Hnone|].
  exact (proj1 (proj2 (import_trip_unknown_river_skipped
                         Scenario.db_ocoee Scenario.clock _ _ Hname Hnone))).
Defined.

Lemma import_existing_river_skipped_witness :
  In Scenario.ocoee_row (rivers Scenario.db_ocoee_full) /\
  MainWindow.import_rivers Scenario.db_ocoee_full Scenario.clock
    (VList [VDict Scenario.ocoee_with_tag_list])
  = (Scenario.db_ocoee_full, Ok (0, 1)).
Proof.
  assert (Hin : In Scenario.ocoee_row (rivers Scenario.db_ocoee_full))
    by (vm_compute; left; reflexivity).
  split; [exact Hin|].
  apply (import_existing_river_skipped _ _ _ Scenario.ocoee_row Hin);
    vm_compute; reflexivity.
Defined.

Lemma failed_record_identity_not_registered_witness :
  MainWindow.import_rivers empty_store Scenario.clock
    (VList [VDict Scenario.ocoee_with_tag_list; VDict Scenario.ocoee])
  = (fst (DatabaseManager.add_river empty_store (Scenario.clock 1) Scenario.ocoee), Ok (1, 1)) /\
  MainWindow.import_trips Scenario.db_ocoee Scenario.clock
    (VList [VDict Scenario.ocoee_trip_with_gear_list; VDict Scenario.ocoee_trip])
  = (fst (DatabaseManager.add_trip_log Scenario.db_ocoee (Scenario.clock 1)
            (MainWindow.strip_trip Scenario.ocoee_trip 1)), Ok (1, 1)).
Proof.
  destruct failed_record_identity_not_registered as (_ & Hrivers & _ & Htrips). split.
  - rewrite (Hrivers empty_store Scenario.clock Scenario.ocoee_with_tag_list Scenario.ocoee
               "ocoee|tennessee");
      [vm_compute; reflexivity | vm_compute; reflexivity | vm_compute; reflexivity
      | not_in_set | vm_compute; reflexivity].
  - rewrite (Htrips Scenario.db_ocoee Scenario.clock Scenario.ocoee_trip_with_gear_list
               Scenario.ocoee_trip "ocoee" "ocoee" "1|2024-06-01" 1%Z 1%Z);
      [vm_compute; reflexivity | vm_compute; reflexivity | vm_compute; reflexivity
      | vm_compute; reflexivity | vm_compute; reflexivity | vm_compute; reflexivity
      | vm_compute; reflexivity | not_in_set | vm_compute; reflexivity].
Defined.

Lemma two_duplicates_one_import_one_skip_witness :
  exists r, MainWindow.import_rivers empty_store Scenario.clock
              (VList [VDict Scenario.ocoee_with_tag_list; VDict Scenario.ocoee])
            = (set_rivers empty_store (rivers empty_store ++ [r]) (River.id r), Ok (1, 1)).
Proof.
  apply (two_duplicates_one_import_one_skip _ _ _ _ "ocoee|tennessee").
  - vm_compute. reflexivity.
  - vm_compute. reflexivity.
  - not_in_set.
  - vm_compute. reflexivity.
Defined.

(** Against C5 as stated: two copies of a record whose [tags] is a list have
    one identifier, which no river of the empty store has, and
    [import_rivers] skips both: imported 0, skipped 2, nothing persisted;
    the same for two copies of a record with an integer beyond 64 bits.
    And two copies of a record whose name and location differ from those
    of the one river of the store, but whose identifier string is that
    river's, are both skipped as duplicates. *)
Lemma two_unstorable_duplicates_both_skipped :
  MainWindow.incoming_river_identifier (VDict Scenario.ocoee_with_tag_list)
  = Ok "ocoee|tennessee" /\
  rivers empty_store = [] /\
  MainWindow.import_rivers empty_store Scenario.clock
    (VList [VDict Scenario.ocoee_with_tag_list; VDict Scenario.ocoee_with_tag_list])
  = (empty_store, Ok (0, 2)) /\
  snd (DatabaseManager.add_river empty_store (Scenario.clock 0) Scenario.ocoee_with_wide_flow)
  = Raise Py.OverflowError /\
  MainWindow.import_rivers empty_store Scenario.clock
    (VList [VDict Scenario.ocoee_with_wide_flow; VDict Scenario.ocoee_with_wide_flow])
  = (empty_store, Ok (0, 2)) /\
  List.map (fun r => (Py.strip (Py.lower (River.name r)), Py.strip (Py.lower (River.location r))))
    (rivers Scenario.db_bar_in_name) = [("big|little", "fork")] /\
  MainWindow.normalized (VDict Scenario.bar_in_location) "name" = Ok "big" /\
  MainWindow.normalized (VDict Scenario.bar_in_location) "location" = Ok "little|fork" /\
  MainWindow.import_rivers Scenario.db_bar_in_name Scenario.clock
    (VList [VDict Scenario.bar_in_location; VDict Scenario.bar_in_location])
  = (Scenario.db_bar_in_name, Ok (0, 2)).
Proof. vm_compute. repeat split; reflexivity. Qed.

Lemma form_handlers_require_name_and_location_witness :
  MainWindow.add_river Scenario.db_ocoee "2024-05-05 12:00:00" Scenario.blank_name_form
  = (Scenario.db_ocoee, MainWindow.ValidationError) /\
  MainWindow.edit_river Scenario.db_ocoee "2024-05-05 12:00:00" 1 Scenario.blank_name_form
  = (Scenario.db_ocoee, MainWindow.ValidationError) /\
  forall r,
    In r (rivers (fst (MainWindow.add_river Scenario.db_ocoee "2024-05-05 12:00:00"
                         Scenario.gauley_form))) ->
    River.name r <> "" /\ River.location r <> "".
Proof.
  assert (Hinv : forall r, In r (rivers Scenario.db_ocoee) ->
                           River.name r <> "" /\ River.location r <> "")
    by (intros r [<- | []]; vm_compute; split; discriminate).
  split; [|split].
  - apply (form_handlers_require_name_and_location
             Scenario.db_ocoee "2024-05-05 12:00:00" 1 Scenario.blank_name_form "" "Tennessee");
      [reflexivity | reflexivity | left; reflexivity].
  - apply (form_handlers_require_name_and_location
             Scenario.db_ocoee "2024-05-05 12:00:00" 1 Scenario.blank_name_form "" "Tennessee");
      [reflexivity | reflexivity | left; reflexivity].
  - apply (form_handlers_require_name_and_location
             Scenario.db_ocoee "2024-05-05 12:00:00" 1 Scenario.gauley_form
             "Gauley" "West Virginia"); [reflexivity | reflexivity | exact Hinv].
Defined.

(** Against C7 as stated: [add_river] with a payload that has neither name
    nor location raises nothing and persists a river whose name and
    location are empty; [update_river] with it empties those of river 1. *)
Lemma add_river_without_name_persists :
  DatabaseManager.add_river empty_store "2024-05-05 12:00:00" Scenario.no_fields
  = (fst (DatabaseManager.add_river empty_store "2024-05-05 12:00:00" Scenario.no_fields), Ok 1%Z) /\
  option_map (fun r => (River.name r, River.location r))
    (DatabaseManager.get_river_by_id
       (fst (DatabaseManager.add_river empty_store "2024-05-05 12:00:00" Scenario.no_fields)) 1)
  = Some ("", "") /\
  snd (DatabaseManager.update_river Scenario.db_ocoee "2024-05-05 12:00:00" 1 Scenario.no_fields)
  = Ok tt /\
  option_map (fun r => (River.name r, River.location r))
    (DatabaseManager.get_river_by_id
       (fst (DatabaseManager.update_river Scenario.db_ocoee "2024-05-05 12:00:00" 1
               Scenario.no_fields)) 1)
  = Some ("", "").
Proof. vm_compute. repeat split; reflexivity. Qed.

Lemma update_river_frame_witness :
  DatabaseManager.get_river_by_id Scenario.db_ocoee 1 = Some Scenario.ocoee_row /\
  exists r',
    DatabaseManager.get_river_by_id
      (fst (DatabaseManager.update_river Scenario.db_ocoee "2024-05-06 08:00:00" 1
              Scenario.gauley_form)) 1 = Some r' /\
    River.id r' = 1%Z /\ River.date_added r' = "2024-05-01 10:00:00" /\
    River.last_updated r' = "2024-05-06 08:00:00".
Proof.
  assert (Hget : DatabaseManager.get_river_by_id Scenario.db_ocoee 1 = Some Scenario.ocoee_row)
    by (vm_compute; reflexivity).
  split; [exact Hget|].
  destruct (update_river_frame Scenario.db_ocoee "2024-05-06 08:00:00" 1 Scenario.gauley_form
              Scenario.ocoee_row Hget) as (r' & Hr' & Hi & Ha & Hok & _).
  exists r'. split; [exact Hr'|]. split; [exact Hi|]. split; [exact Ha|].
  apply Hok. vm_compute. reflexivity.
Defined.

(** Against C8 as stated: with river 1 in the store and a payload whose
    name is null, [update_river] raises the NOT NULL error and the river's
    [last_updated] is the one it had, although the clock reads later; a
    payload with an integer beyond 64 bits raises as well and changes
    nothing.  And an accepted update that runs within the second of the
    stored [last_updated] leaves that timestamp as it is. *)
Lemma update_river_null_name_not_advanced :
  DatabaseManager.get_river_by_id Scenario.db_ocoee 1 = Some Scenario.ocoee_row /\
  Spec.earlier (River.last_updated Scenario.ocoee_row) "2024-05-06 08:00:00" = true /\
  DatabaseManager.update_river Scenario.db_ocoee "2024-05-06 08:00:00" 1 Scenario.null_name
  = (Scenario.db_ocoee, Raise Py.IntegrityError) /\
  option_map River.last_updated
    (DatabaseManager.get_river_by_id
       (fst (DatabaseManager.update_river Scenario.db_ocoee "2024-05-06 08:00:00" 1
               Scenario.null_name)) 1)
  = Some (River.last_updated Scenario.ocoee_row) /\
  DatabaseManager.update_river Scenario.db_ocoee "2024-05-06 08:00:00" 1
    Scenario.ocoee_with_wide_flow
  = (Scenario.db_ocoee, Raise Py.OverflowError) /\
  snd (DatabaseManager.update_river Scenario.db_ocoee "2024-05-01 10:00:00" 1
         Scenario.gauley_form) = Ok tt /\
  option_map River.last_updated
    (DatabaseManager.get_river_by_id
       (fst (DatabaseManager.update_river Scenario.db_ocoee "2024-05-01 10:00:00" 1
               Scenario.gauley_form)) 1)
  = Some (River.last_updated Scenario.ocoee_row).
Proof. vm_compute. repeat split; reflexivity. Qed.

Lemma invalid_format_when_checked_witness :
  let out :=
    MainWindow.import_data true Scenario.db_ocoee Scenario.clock Scenario.clock
      Scenario.rivers_only in
  Spec.invalid_format (snd out) = false /\
  fst out = Scenario.db_ocoee /\
  MainWindow.summary (snd out) = Some (0, 1, 0, 0).
Proof.
  intros out.
  destruct (invalid_format_when_checked true Scenario.db_ocoee Scenario.clock Scenario.clock
              Scenario.rivers_only) as (Hinvalid & _ & _ & Hshown).
  split; [exact Hinvalid|].
  exact (Hshown [("rivers", VList [VDict Scenario.ocoee]); ("includes_trip_logs", VBool false)]
           (VList [VDict Scenario.ocoee]) eq_refl eq_refl eq_refl).
Defined.

(** Against C3 as stated: a document whose [rivers] value is an object, not
    a sequence, is imported to the end with all counts 0; one whose
    [rivers] value is a number ends with the "Error" dialog of a failed
    import, not with "Invalid File"; and so does a file that is not text
    in the encoding [open] expects. *)
Lemma rivers_not_a_sequence_not_rejected :
  Spec.invalid_as_specified Scenario.rivers_is_object = true /\
  MainWindow.import_data true empty_store Scenario.clock Scenario.clock Scenario.rivers_is_object
  = (empty_store, MainWindow.ImportComplete 0 0 0 0) /\
  Spec.invalid_as_specified Scenario.rivers_is_number = true /\
  MainWindow.import_data true empty_store Scenario.clock Scenario.clock Scenario.rivers_is_number
  = (empty_store, MainWindow.ImportFailed Py.TypeError) /\
  Spec.invalid_as_specified Scenario.not_text = true /\
  MainWindow.import_data true empty_store Scenario.clock Scenario.clock Scenario.not_text
  = (empty_store, MainWindow.ImportFailed Py.UnicodeDecodeError).
Proof. vm_compute. repeat split; reflexivity. Qed.

Lemma export_import_round_trip_witness :
  let out :=
    MainWindow.import_data true empty_store Scenario.clock Scenario.clock
      (MainWindow.Json (MainWindow.export_data true Scenario.db_two_rivers "2024-10-01T09:00:00")) in
  (Z.of_nat (List.length (rivers Scenario.db_two_rivers)) < 2 ^ 63)%Z /\
  sqlite_values Scenario.db_two_rivers /\
  Spec.referential_integrity Scenario.db_two_rivers /\
  Spec.distinct_natural_keys Scenario.db_two_rivers /\
  MainWindow.summary (snd out) = Some (2, 0, 2, 0) /\
  List.length (rivers (fst out)) = 2 /\ List.length (trip_logs (fst out)) = 2.
Proof.
  intros out.
  assert (Hcount : (Z.of_nat (List.length (rivers Scenario.db_two_rivers)) < 2 ^ 63)%Z)
    by (vm_compute; reflexivity).
  assert (Hvalues : sqlite_values Scenario.db_two_rivers).
  { split.
    - intros r Hr. vm_compute in Hr. destruct Hr as [<- | [<- | []]];
        (split; [reflexivity | repeat constructor]).
    - intros t Ht. vm_compute in Ht. destruct Ht as [<- | [<- | []]];
        (split; [reflexivity | repeat constructor]). }
  assert (Hint : Spec.referential_integrity Scenario.db_two_rivers).
  { split.
    - vm_compute. repeat constructor; simpl; intuition discriminate.
    - intros t Ht. vm_compute in Ht. destruct Ht as [<- | [<- | []]].
      + split; [discriminate|]. eexists. split; [left; reflexivity | reflexivity].
      + split; [discriminate|]. eexists. split; [right; left; reflexivity | reflexivity]. }
  assert (Hkeys : Spec.distinct_natural_keys Scenario.db_two_rivers).
  { split; vm_compute; repeat constructor; simpl; intuition discriminate. }
  split; [exact Hcount|]. split; [exact Hvalues|]. split; [exact Hint|]. split; [exact Hkeys|].
  exact (export_import_round_trip Scenario.db_two_rivers "2024-10-01T09:00:00"
           Scenario.clock Scenario.clock Hcount Hvalues Hint Hkeys).
Defined.

(** Against C2 as stated: a store in which the Ocoee was entered twice has
    two rivers; exporting it and importing the document into the empty
    store imports one river and skips the other, and the new store has one
    river.  A store with two trip logs of one river and one day round-trips
    to one trip imported and one skipped.  And the trip log left behind by
    a deleted river is not exported at all. *)
Lemma round_trip_merges_same_identifier :
  List.length (rivers Scenario.db_ocoee_twice) = 2 /\
  snd (MainWindow.import_data true empty_store Scenario.clock Scenario.clock
         (MainWindow.Json (MainWindow.export_data true Scenario.db_ocoee_twice
                             "2024-10-01T09:00:00")))
  = MainWindow.ImportComplete 1 1 0 0 /\
  List.length (rivers (fst (MainWindow.import_data true empty_store Scenario.clock Scenario.clock
                              (MainWindow.Json (MainWindow.export_data true Scenario.db_ocoee_twice
                                                  "2024-10-01T09:00:00"))))) = 1 /\
  List.length (trip_logs Scenario.db_same_day_trips) = 2 /\
  snd (MainWindow.import_data true empty_store Scenario.clock Scenario.clock
         (MainWindow.Json (MainWindow.export_data true Scenario.db_same_day_trips
                             "2024-10-01T09:00:00")))
  = MainWindow.ImportComplete 1 0 1 1 /\
  List.length (trip_logs Scenario.db_orphaned) = 1 /\
  snd (MainWindow.import_data true empty_store Scenario.clock Scenario.clock
         (MainWindow.Json (MainWindow.export_data true Scenario.db_orphaned
                             "2024-10-01T09:00:00")))
  = MainWindow.ImportComplete 0 0 0 0.
Proof. vm_compute. repeat split; reflexivity. Qed.

Lemma import_rivers_appends_witness :
  let rivers_data := VList [VDict Scenario.ocoee; VDict Scenario.gauley_form] in
  let out := MainWindow.import_rivers Scenario.db_ocoee Scenario.clock rivers_data in
  snd out = Ok (1, 1) /\
  exists new, rivers (fst out) = (rivers Scenario.db_ocoee ++ new)%list /\ List.length new = 1.
Proof.
  intros rivers_data out.
  assert (H : MainWindow.import_rivers Scenario.db_ocoee Scenario.clock rivers_data
              = (fst out, Ok (1, 1))) by (vm_compute; reflexivity).
  split; [vm_compute; reflexivity|].
  destruct (import_rivers_appends _ _ _ _ _ H) as (new & Hr & _ & _ & Hcount).
  exists new. split; [exact Hr|]. exact (proj1 (Hcount 1 1 eq_refl)).
Defined.

Lemma import_rivers_keeps_identifiers_distinct_witness :
  distinct_river_identifiers Scenario.db_ocoee /\
  distinct_river_identifiers
    (fst (MainWindow.import_rivers Scenario.db_ocoee Scenario.clock
            (VList [VDict Scenario.ocoee; VDict Scenario.gauley_form; VDict Scenario.ocoee]))).
Proof.
  assert (H : distinct_river_identifiers Scenario.db_ocoee)
    by (vm_compute; repeat constructor; intros []).
  split; [exact H|]. apply import_rivers_keeps_identifiers_distinct. exact H.
Defined.

Lemma import_rivers_twice_witness :
  let rivers_data := VList [VDict Scenario.ocoee; VDict Scenario.gauley_form] in
  let out := MainWindow.import_rivers Scenario.db_ocoee Scenario.clock rivers_data in
  snd out = Ok (1, 1) /\
  MainWindow.import_rivers (fst out) Scenario.clock rivers_data = (fst out, Ok (0, 2)).
Proof.
  intros rivers_data out.
  assert (H : MainWindow.import_rivers Scenario.db_ocoee Scenario.clock rivers_data
              = (fst out, Ok (1, 1))) by (vm_compute; reflexivity).
  split; [vm_compute; reflexivity|].
  exact (import_rivers_twice _ _ Scenario.clock Scenario.clock _ _ _ H).
Defined.

Lemma import_trips_appends_witness :
  let trips_data := VList [VDict Scenario.ocoee_trip; VDict Scenario.gauley_trip] in
  let out := MainWindow.import_trips Scenario.db_ocoee Scenario.clock trips_data in
  snd out = Ok (1, 1) /\
  rivers (fst out) = rivers Scenario.db_ocoee /\
  exists new, trip_logs (fst out) = (trip_logs Scenario.db_ocoee ++ new)%list /\
              List.length new = 1.
Proof.
  intros trips_data out.
  assert (H : MainWindow.import_trips Scenario.db_ocoee Scenario.clock trips_data
              = (fst out, Ok (1, 1))) by (vm_compute; reflexivity).
  split; [vm_compute; reflexivity|].
  destruct (import_trips_appends _ _ _ _ _ H) as (Hr & _ & new & Ht & _ & Hcount).
  split; [exact Hr|]. exists new. split; [exact Ht|]. exact (proj1 (Hcount 1 1 eq_refl)).
Defined.

Lemma import_data_trip_logs_disabled_witness :
  let d := [("rivers", VList [VDict Scenario.gauley_form]);
            ("trips", VList [VDict Scenario.ocoee_trip])] in
  let out := MainWindow.import_data false Scenario.db_ocoee Scenario.clock Scenario.clock
               (MainWindow.Json (VDict d)) in
  MainWindow.summary (snd out) = Some (1, 0, 0, 1) /\
  trip_logs (fst out) = trip_logs Scenario.db_ocoee /\
  (0 = 0 /\ 1 = List.length [VDict Scenario.ocoee_trip]).
Proof.
  intros d out.
  assert (H : MainWindow.summary (snd out) = Some (1, 0, 0, 1)) by (vm_compute; reflexivity).
  destruct (import_data_trip_logs_disabled Scenario.db_ocoee Scenario.clock Scenario.clock
              (MainWindow.Json (VDict d))) as (Ht & _ & Hcount).
  split; [exact H|]. split; [exact Ht|].
  exact (Hcount d [VDict Scenario.ocoee_trip] 1 0 0 1 eq_refl eq_refl H).
Defined.

Lemma well_sequenced_db_ocoee_full : well_sequenced Scenario.db_ocoee_full.
Proof.
  apply well_sequenced_add_document, well_sequenced_add_trip_log, well_sequenced_add_river,
    well_sequenced_empty_store.
Qed.

Lemma well_sequenced_db_two_rivers : well_sequenced Scenario.db_two_rivers.
Proof.
  apply well_sequenced_add_trip_log, well_sequenced_add_river, well_sequenced_add_trip_log,
    well_sequenced_add_river, well_sequenced_empty_store.
Qed.

Lemma writes_keep_ids_distinct_witness :
  well_sequenced Scenario.db_ocoee_full /\
  well_sequenced (DatabaseManager.delete_river Scenario.db_ocoee_full 1) /\
  well_sequenced
    (fst (DatabaseManager.add_river Scenario.db_ocoee_full "2024-09-10 08:00:00"
            Scenario.gauley_form)).
Proof.
  pose proof well_sequenced_db_ocoee_full as Hw. split; [exact Hw|].
  destruct (writes_keep_ids_distinct Scenario.db_ocoee_full Hw) as (Hadd & _ & Hdel & _).
  split; [apply Hdel | apply Hadd].
Defined.

Lemma add_river_then_get_river_by_id_witness :
  let out := DatabaseManager.add_river Scenario.db_ocoee_full "2024-09-10 08:00:00"
               Scenario.gauley_form in
  well_sequenced Scenario.db_ocoee_full /\
  snd out = Ok 2%Z /\
  DatabaseManager.get_river_by_id Scenario.db_ocoee_full 2 = None /\
  DatabaseManager.get_river_by_id (fst out) 1
  = DatabaseManager.get_river_by_id Scenario.db_ocoee_full 1.
Proof.
  intros out. pose proof well_sequenced_db_ocoee_full as Hw.
  assert (H : DatabaseManager.add_river Scenario.db_ocoee_full "2024-09-10 08:00:00"
                Scenario.gauley_form = (fst out, Ok 2%Z)) by (vm_compute; reflexivity).
  split; [exact Hw|]. split; [vm_compute; reflexivity|].
  destruct (add_river_then_get_river_by_id _ _ _ _ _ Hw H) as (Hfresh & _ & Hother).
  split; [exact Hfresh|]. apply Hother. discriminate.
Defined.

Lemma ids_never_reused_witness :
  well_sequenced Scenario.db_ocoee_full /\
  forall db' i,
    DatabaseManager.add_river (DatabaseManager.delete_river Scenario.db_ocoee_full 1)
      "2024-09-10 08:00:00" Scenario.gauley_form = (db', Ok i) ->
    (1 < i)%Z.
Proof.
  pose proof well_sequenced_db_ocoee_full as Hw. split; [exact Hw|].
  intros db' i H.
  apply (proj1 (ids_never_reused Scenario.db_ocoee_full Hw) 1%Z "2024-09-10 08:00:00"
           Scenario.gauley_form db' i Scenario.ocoee_row); [|exact H].
  vm_compute. left. reflexivity.
Defined.

Lemma writes_to_unknown_id_change_nothing_witness :
  DatabaseManager.get_river_by_id Scenario.db_ocoee 9 = None /\
  all_bindable Scenario.null_name /\
  DatabaseManager.update_river Scenario.db_ocoee "2024-05-06 08:00:00" 9 Scenario.null_name
  = (Scenario.db_ocoee, Ok tt) /\
  DatabaseManager.delete_river Scenario.db_ocoee 9 = Scenario.db_ocoee.
Proof.
  assert (Hnone : DatabaseManager.get_river_by_id Scenario.db_ocoee 9 = None)
    by (vm_compute; reflexivity).
  assert (Hd : all_bindable Scenario.null_name) by (repeat constructor).
  destruct (writes_to_unknown_id_change_nothing Scenario.db_ocoee) as (Hupdate & Hdelete & _).
  destruct (Hupdate 9%Z "2024-05-06 08:00:00" Scenario.null_name Hnone) as [Hfst Hsnd].
  split; [exact Hnone|]. split; [exact Hd|]. split; [|exact (Hdelete 9%Z Hnone)].
  rewrite (surjective_pairing (DatabaseManager.update_river _ _ _ _)), Hfst, (Hsnd Hd).
  reflexivity.
Defined.

Lemma add_trip_log_then_get_trip_log_by_id_witness :
  let unknown_river := [("river_id", VInt 7); ("trip_date", VStr "2024-09-14")] in
  let out := DatabaseManager.add_trip_log Scenario.db_two_rivers "2024-09-15 09:00:00"
               unknown_river in
  well_sequenced Scenario.db_two_rivers /\
  snd out = Ok 3%Z /\
  DatabaseManager.get_trip_log_by_id (fst out) 3 = None /\
  DatabaseManager.get_trip_log_by_id (fst out) 1
  = DatabaseManager.get_trip_log_by_id Scenario.db_two_rivers 1.
Proof.
  intros unknown_river out. pose proof well_sequenced_db_two_rivers as Hw.
  assert (H : DatabaseManager.add_trip_log Scenario.db_two_rivers "2024-09-15 09:00:00"
                unknown_river = (fst out, Ok 3%Z)) by (vm_compute; reflexivity).
  split; [exact Hw|]. split; [vm_compute; reflexivity|].
  destruct (add_trip_log_then_get_trip_log_by_id _ _ _ _ _ Hw H)
    as (t & _ & _ & _ & Hrid & _ & Hnone & Hother).
  split; [|apply Hother; discriminate].
  apply Hnone. intros r Hr Heq. rewrite (Hrid 7%Z eq_refl) in Heq.
  vm_compute in Hr. destruct Hr as [<- | [<- | []]]; discriminate.
Defined.

Lemma update_trip_log_effect_witness :
  let d := [("river_id", VInt 1); ("companions", VStr "Sam")] in
  Py.get d "trip_date" VNone = VNone /\
  all_bindable d /\
  DatabaseManager.update_trip_log Scenario.db_ocoee_trip 1 d
  = (Scenario.db_ocoee_trip, Raise Py.IntegrityError).
Proof.
  intros d.
  assert (Hdate : Py.get d "trip_date" VNone = VNone) by reflexivity.
  assert (Hd : all_bindable d) by (repeat constructor).
  destruct (update_trip_log_effect Scenario.db_ocoee_trip 1 d) as (_ & _ & _ & _ & _ & _ & H).
  destruct (H Hdate) as [Hfst Hsnd].
  split; [exact Hdate|]. split; [exact Hd|].
  rewrite (surjective_pairing (DatabaseManager.update_trip_log _ _ _)), Hfst, (Hsnd Hd).
  - reflexivity.
  - exists Scenario.orphan. split; [vm_compute; left; reflexivity | reflexivity].
Defined.

Lemma add_file_outcomes_witness :
  let fs := {| Os.files := {["/home/sam/map.pdf" := "%PDF"]}; Os.undeletable := ∅ |} in
  let out := FileAttachmentWidget.add_file (Some 1%Z) "/data/attachments" Scenario.db_ocoee fs
               "2024-05-03 10:00:00" "/home/sam/map.pdf" "20240503_100000" "map" false in
  snd out = FileAttachmentWidget.Nothing /\
  fst (fst out) = Scenario.db_ocoee /\
  Os.files (snd (fst out))
  = <["/data/attachments/20240503_100000_map.pdf" := "%PDF"]> (Os.files fs).
Proof.
  intros fs out.
  pose proof (add_file_outcomes 1 "/data/attachments" Scenario.db_ocoee fs
                "2024-05-03 10:00:00" "/home/sam/map.pdf" "20240503_100000" "map" false) as H.
  cbv zeta in H. fold out in H. destruct out as [[db' fs'] o].
  change (Os.files fs !! "/home/sam/map.pdf") with (Some "%PDF") in H.
  destruct H as (Hfiles & Hout & Hdb); [discriminate | discriminate |].
  split; [exact Hout|]. split; [exact Hdb | exact Hfiles].
Defined.

Lemma filter_rivers_rows_witness :
  In Scenario.ocoee_row (MainWindow.filter_rivers [Scenario.ocoee_row] "OCO" "All") /\
  MainWindow.filter_rivers [Scenario.ocoee_row] "oco" "All"
  = MainWindow.filter_rivers [Scenario.ocoee_row] "OCO" "All".
Proof.
  destruct (filter_rivers_rows [Scenario.ocoee_row] "OCO" "All") as (_ & _ & Hcase & Hrow).
  split.
  - apply Hrow. split; [left; reflexivity|]. split; [right; vm_compute; reflexivity|].
    left. reflexivity.
  - apply Hcase. vm_compute. reflexivity.
Defined.

Lemma import_data_keeps_ids_distinct_witness :
  well_sequenced Scenario.db_ocoee_full /\
  well_sequenced
    (fst (MainWindow.import_data true Scenario.db_ocoee_full Scenario.clock Scenario.clock
            (MainWindow.Json
               (VDict [("rivers", VList [VDict Scenario.gauley_form]);
                       ("trips", VList [VDict Scenario.ocoee_trip])])))).
Proof.
  pose proof well_sequenced_db_ocoee_full as Hw. split; [exact Hw|].
  apply import_data_keeps_ids_distinct. exact Hw.
Defined.
